(** * RAMP: stochastic load-profile engine

    A shallow embedding of [ramp/core/core.py] and
    [ramp/core/stochastic_process.py], and the properties of the engine
    that the specification states about them.

    Conventions of the embedding.
    - Python [int] is [Z]; Python [float] (and numpy [float64]) is read as
      an exact rational [Q], so the sentinel [0.001] is [1 # 1000].
      Statements about float values are stated up to [Qeq].
    - A numpy 1-d array is a [list]; a minute index is a [Z].
    - A raised exception is the [Raise] case of [Py.result]; the message
      is the one of the source.
    - The process-wide generator of module [random] is a tape of draws
      that is consumed from the left, see [Random]. *)

From Stdlib Require Import ZArith QArith Qround Qabs String List Lia Lqa Bool.
Import ListNotations.
Local Open Scope Z_scope.

(* ===================================================================== *)
(** * Python values, exceptions and conversions                           *)
(* ===================================================================== *)

Module Py.

Inductive exn : Type :=
| ValueError (msg : string)
| IndexError (msg : string)
| TypeError (msg : string)
| KeyError (key : Z)
| AttributeError (msg : string)
| ZeroDivisionError (msg : string)
| InvalidWindow (msg : string).

Inductive result (A : Type) : Type :=
| Ok (a : A)
| Raise (e : exn).

Arguments Ok {A} a.
Arguments Raise {A} e.

Definition bind {A B : Type} (r : result A) (k : A -> result B) : result B :=
  match r with
  | Ok a => k a
  | Raise e => Raise e
  end.

(** [int(x)] on a float: truncation towards zero. *)
Definition int (x : Q) : Z :=
  if Qlt_le_dec x 0 then Qceiling x else Qfloor x.

(** [round(x)] on a float: to the nearest integer, ties to even. *)
Definition round (x : Q) : Z :=
  let f := Qfloor x in
  match Qcompare (x - inject_Z f) (1 # 2) with
  | Lt => f
  | Gt => f + 1
  | Eq => if Z.even f then f else f + 1
  end.

(** [math.ceil(x)]. *)
Definition ceil (x : Q) : Z := Qceiling x.

(** [range(a, b)] as a list. *)
Definition range (a b : Z) : list Z :=
  map (fun k => a + Z.of_nat k) (seq 0 (Z.to_nat (b - a))).

(** [x in range(a, b)] for an integer [x]. *)
Definition in_range (x a b : Z) : bool := (a <=? x) && (x <? b).

Definition len {A : Type} (l : list A) : Z := Z.of_nat (List.length l).

(** [l[i]] on a list or a 1-d array: a negative index counts from the
    end. *)
Definition getitem {A : Type} (l : list A) (i : Z) : result A :=
  let j := if i <? 0 then i + len l else i in
  match nth_error l (Z.to_nat j) with
  | Some x => if 0 <=? j then Ok x else Raise (IndexError "index out of range")
  | None => Raise (IndexError "index out of range")
  end.

(** [l[:-k]] for [k > 0]. *)
Definition drop_last {A : Type} (l : list A) (k : Z) : list A :=
  firstn (Z.to_nat (len l - k)) l.

End Py.

Import Py.

Notation "x <- c ;; k" := (Py.bind c (fun x => k))
  (at level 61, c at next level, right associativity).

(* ===================================================================== *)
(** * The part of numpy and pandas that the engine uses                   *)
(* ===================================================================== *)

Module Np.

Definition zeros (n : nat) : list Q := repeat 0%Q n.
Definition ones (n : nat) : list Q := repeat 1%Q n.

(** [a[t]] for a minute [t >= 0]; out of the array it reads as [0]. *)
Definition get (a : list Q) (t : Z) : Q := nth (Z.to_nat t) a 0%Q.

Definition sum (a : list Q) : Q := fold_right Qplus 0%Q a.

(** [np.mean(a)]. *)
Definition mean (a : list Q) : Q := (sum a / inject_Z (Z.of_nat (List.length a)))%Q.

(** [a * x], an array times a scalar. *)
Definition scale (a : list Q) (x : Q) : list Q := map (fun v => (v * x)%Q) a.

(** [a + b], element by element, for two arrays of one length. *)
Fixpoint add (a b : list Q) : list Q :=
  match a, b with
  | x :: a', y :: b' => (x + y)%Q :: add a' b'
  | _, _ => []
  end.

(** [np.arange(a, b)]. *)
Definition arange (a b : Z) : list Z := Py.range a b.

(** How a slice bound is read against an array of length [len]: a
    negative bound counts from the end, and the result is clipped to
    [0 .. len]. *)
Definition clip_bound (len i : Z) : Z :=
  if i <? 0 then Z.max 0 (i + len) else Z.min i len.

(** The array that has [v] at the positions [lo <= t < hi] and is [a]
    elsewhere; [t] is the position of the head of [a]. *)
Fixpoint fill_from (t : Z) (a : list Q) (lo hi : Z) (v : Q) : list Q :=
  match a with
  | [] => []
  | x :: a' =>
      (if (lo <=? t) && (t <? hi) then v else x) :: fill_from (t + 1) a' lo hi v
  end.

(** [a[w0:w1] = np.full(np.diff(w), v)] for a two-element window [w].
    [np.full] refuses a negative length; the assignment needs the length
    of the right-hand side to be that of the slice, or to be one. *)
Definition assign_full (a : list Q) (w : Z * Z) (v : Q) : result (list Q) :=
  let n := snd w - fst w in
  if n <? 0 then Raise (ValueError "negative dimensions are not allowed")
  else
    let len := Z.of_nat (List.length a) in
    let lo := clip_bound len (fst w) in
    let hi := clip_bound len (snd w) in
    let m := Z.max 0 (hi - lo) in
    if (n =? m) || (n =? 1) then Ok (fill_from 0 a lo hi v)
    else Raise (ValueError "could not broadcast input array").

(** [a[j] = x] for a position [j] of [a]. *)
Fixpoint set_item (a : list Q) (j : nat) (x : Q) : list Q :=
  match a, j with
  | [], _ => []
  | _ :: a', O => x :: a'
  | y :: a', S j' => y :: set_item a' j' x
  end.

(** The loop of [np.put(a, ind, v)]: the [k]-th index receives
    [v[k mod len(v)]]; a negative index counts from the end and an index
    out of the array is refused. *)
Fixpoint put_from (k : nat) (a : list Q) (ind : list Z) (v : list Q) : result (list Q) :=
  match ind with
  | [] => Ok a
  | i :: ind' =>
      let j := if i <? 0 then i + Py.len a else i in
      if (0 <=? j) && (j <? Py.len a)
      then put_from (S k)
             (set_item a (Z.to_nat j) (nth (Nat.modulo k (List.length v)) v 0%Q)) ind' v
      else Raise (IndexError "index is out of bounds for axis 0")
  end.

(** [np.put(a, ind, v)]; nothing is written when [v] is empty. *)
Definition put (a : list Q) (ind : list Z) (v : list Q) : result (list Q) :=
  match v with
  | [] => Ok a
  | _ :: _ => put_from 0 a ind v
  end.

(** A [pd.DataFrame] of floats, column by column. *)
Record DataFrame : Type := {
  nrows : nat;
  columns : list (list Q)
}.

(** [df.shape]. *)
Definition shape (df : DataFrame) : nat * nat := (nrows df, List.length (columns df)).

(** [df.values[:, 0]]. *)
Definition values_col0 (df : DataFrame) : result (list Q) :=
  match columns df with
  | [] => Raise (IndexError "index 0 is out of bounds for axis 1 with size 0")
  | c :: _ => Ok c
  end.

(** Every column of a frame has [nrows] cells. *)
Definition frame_wf (df : DataFrame) : Prop :=
  Forall (fun c => List.length c = nrows df) (columns df).

End Np.

(* ===================================================================== *)
(** * Module random                                                       *)
(* ===================================================================== *)

(** The generator is a tape of rationals. Every call of a function of
    module [random] consumes one cell (an exhausted tape reads as [0]).
    A cell [q] is read as the float [q - floor q] of [[0, 1)] by
    [random()], and as a standard normal deviate by [gauss] and
    [normalvariate]; every run of the generator is the run on some tape.
    A computation that draws is a function from the tape to a result and
    the rest of the tape. *)
Module Random.

Definition state : Type := list Q.

Definition M (A : Type) : Type := state -> result (A * state).

Definition ret {A : Type} (a : A) : M A := fun s => Ok (a, s).

Definition bind {A B : Type} (m : M A) (k : A -> M B) : M B :=
  fun s => match m s with
           | Ok (a, s') => k a s'
           | Raise e => Raise e
           end.

Definition raise {A : Type} (e : exn) : M A := fun _ => Raise e.

Definition lift {A : Type} (r : result A) : M A :=
  fun s => match r with
           | Ok a => Ok (a, s)
           | Raise e => Raise e
           end.

Definition next (s : state) : Q * state :=
  match s with
  | [] => (0%Q, [])
  | q :: s' => (q, s')
  end.

(** [random.random()]. *)
Definition random : M Q :=
  fun s => Ok ((fst (next s) - inject_Z (Qfloor (fst (next s))))%Q, snd (next s)).

(** [random.uniform(a, b)], that is [a + (b - a) * random()]. *)
Definition uniform (a b : Q) : M Q :=
  bind random (fun u => ret (a + (b - a) * u)%Q).

(** [random.randint(a, b)]: an integer of [a .. b], or [ValueError] when
    the range is empty. *)
Definition randint (a b : Z) : M Z :=
  if b <? a then raise (ValueError "empty range for randrange()")
  else bind random (fun u => ret (a + Qfloor (u * inject_Z (b - a + 1)))).

(** [random.gauss(mu, sigma)]. *)
Definition gauss (mu sigma : Q) : M Q :=
  fun s => Ok ((mu + fst (next s) * sigma)%Q, snd (next s)).

(** [random.normalvariate(mu, sigma)]. *)
Definition normalvariate (mu sigma : Q) : M Q := gauss mu sigma.

End Random.

Notation "x <~ c ;; k" := (Random.bind c (fun x => k))
  (at level 61, c at next level, right associativity).

(* ===================================================================== *)
(** * ramp.core.utils and ramp.core.constants                             *)
(* ===================================================================== *)

(** The functions that [core.py] imports from [ramp.core.utils] and
    [ramp.core.constants]. The engine is stated over any implementation
    of them. *)
Class Utils : Type := {
  (** [random_variation(var, norm)] *)
  random_variation : Q -> Q -> Random.M Q;
  (** [duty_cycle(var, t1, p1, t2, p2)] *)
  duty_cycle : Q -> Z -> Q -> Z -> Q -> Random.M (list Q);
  (** [random_choice(var, t1, p1, t2, p2)] *)
  random_choice : Q -> Z -> Q -> Z -> Q -> Random.M (list Q);
  (** [within_peak_time_window(win_start, win_stop, peak_win_start, peak_win_stop)] *)
  within_peak_time_window : Z -> Z -> Z -> Z -> bool;
  (** [switch_on_parameters()], the triple [(s_peak, mu_peak, op_factor)] *)
  switch_on_parameters : Q * Q * Q
}.

(* ===================================================================== *)
(** * class Appliance                                                     *)
(* ===================================================================== *)

(** [slice(start, stop, None)], a free spot. *)
Record slice : Type := { start : Z; stop : Z }.

(** The argument [day_type] as the callers pass it: one day type, or the
    whole sequence of the day types of a run. *)
Inductive day_arg : Type :=
| DayInt (d : Z)
| DayList (l : list Z).

Module Appliance.

(** The keyword arguments of [Appliance.__init__] other than [power]. *)
Record config : Type := {
  name : string;
  number : Z;
  num_windows : Z;
  func_time : Z;
  time_fraction_random_variability : Q;
  func_cycle : Z;
  fixed : string;
  fixed_cycle : Z;
  occasional_use : Q;
  flat : string;
  thermal_p_var : Q;
  pref_index : Z;
  wd_we_type : Z
}.

(** The attributes that [windows] initialises. *)
Record window_attrs : Type := {
  random_var_w : Q;
  window_1 : Z * Z;
  window_2 : Z * Z;
  window_3 : Z * Z;
  random_var_1 : Z;
  random_var_2 : Z;
  random_var_3 : Z
}.

(** The attributes of the specific duty cycles and their windows. *)
Record cycle_attrs : Type := {
  p_11 : Q; t_11 : Z; p_12 : Q; t_12 : Z; r_c1 : Q;
  p_21 : Q; t_21 : Z; p_22 : Q; t_22 : Z; r_c2 : Q;
  p_31 : Q; t_31 : Z; p_32 : Q; t_32 : Z; r_c3 : Q;
  cw11 : Z * Z; cw12 : Z * Z;
  cw21 : Z * Z; cw22 : Z * Z;
  cw31 : Z * Z; cw32 : Z * Z
}.

(** The attributes a daily run writes. [daily_use] is [None] until
    [windows] is called. *)
Record scratch : Type := {
  daily_use : option (list Q);
  free_spots : list slice;
  random_cycle1 : list Q;
  random_cycle2 : list Q;
  random_cycle3 : list Q
}.

(** An [Appliance] object. The back reference [self.user] is left out:
    the methods that read it take the user's attribute as an argument. *)
Record t : Type := {
  cfg : config;
  power : list Q;
  win : window_attrs;
  cyc : cycle_attrs;
  run : scratch
}.

Definition set_win (self : t) (w : window_attrs) : t :=
  {| cfg := cfg self; power := power self; win := w; cyc := cyc self; run := run self |}.

Definition set_cyc (self : t) (c : cycle_attrs) : t :=
  {| cfg := cfg self; power := power self; win := win self; cyc := c; run := run self |}.

Definition set_run (self : t) (s : scratch) : t :=
  {| cfg := cfg self; power := power self; win := win self; cyc := cyc self; run := s |}.

Definition set_daily_use (self : t) (d : list Q) : t :=
  set_run self
    {| daily_use := Some d;
       free_spots := free_spots (run self);
       random_cycle1 := random_cycle1 (run self);
       random_cycle2 := random_cycle2 (run self);
       random_cycle3 := random_cycle3 (run self) |}.

Definition set_free_spots (self : t) (fs : list slice) : t :=
  set_run self
    {| daily_use := daily_use (run self);
       free_spots := fs;
       random_cycle1 := random_cycle1 (run self);
       random_cycle2 := random_cycle2 (run self);
       random_cycle3 := random_cycle3 (run self) |}.

Definition set_random_cycles (self : t) (c1 c2 c3 : list Q) : t :=
  set_run self
    {| daily_use := daily_use (run self);
       free_spots := free_spots (run self);
       random_cycle1 := c1;
       random_cycle2 := c2;
       random_cycle3 := c3 |}.

Definition set_cw1 (c : cycle_attrs) (w11 w12 : Z * Z) : cycle_attrs :=
  {| p_11 := p_11 c; t_11 := t_11 c; p_12 := p_12 c; t_12 := t_12 c; r_c1 := r_c1 c;
     p_21 := p_21 c; t_21 := t_21 c; p_22 := p_22 c; t_22 := t_22 c; r_c2 := r_c2 c;
     p_31 := p_31 c; t_31 := t_31 c; p_32 := p_32 c; t_32 := t_32 c; r_c3 := r_c3 c;
     cw11 := w11; cw12 := w12;
     cw21 := cw21 c; cw22 := cw22 c;
     cw31 := cw31 c; cw32 := cw32 c |}.

(** What the argument [power] of the constructor can be. *)
Inductive power_arg : Type :=
| PowerFrame (df : Np.DataFrame)     (* a pd.DataFrame *)
| PowerStr (s : string)              (* a str, read as JSON *)
| PowerNumber (x : Q)                (* a float or an int *)
| PowerOther (l : list Q).           (* anything else, such as a list or an
                                        ndarray with the elements [l] *)

Section Construction.

(** [pd.read_json], which is not part of the engine. *)
Variable read_json : string -> result Np.DataFrame.

Definition initial_win : window_attrs :=
  {| random_var_w := 0;
     window_1 := (0, 0); window_2 := (0, 0); window_3 := (0, 0);
     random_var_1 := 0; random_var_2 := 0; random_var_3 := 0 |}.

Definition initial_cyc : cycle_attrs :=
  {| p_11 := 0; t_11 := 0; p_12 := 0; t_12 := 0; r_c1 := 0;
     p_21 := 0; t_21 := 0; p_22 := 0; t_22 := 0; r_c2 := 0;
     p_31 := 0; t_31 := 0; p_32 := 0; t_32 := 0; r_c3 := 0;
     cw11 := (0, 0); cw12 := (0, 0);
     cw21 := (0, 0); cw22 := (0, 0);
     cw31 := (0, 0); cw32 := (0, 0) |}.

(** The scratch attributes before the first day. [free_spots] is
    [None] in the source until [generate_load_profile] sets it; the
    empty list takes its place here. A day of [generate_load_profile]
    sets it before it reads it. *)
Definition initial_run : scratch :=
  {| daily_use := None; free_spots := [];
     random_cycle1 := []; random_cycle2 := []; random_cycle3 := [] |}.

(** The normalisation of [power] in [Appliance.__init__]. *)
Definition init_power (p : power_arg) : result (list Q) :=
  match p with
  | PowerFrame df =>
      if (Nat.eqb (fst (Np.shape df)) 365 && Nat.eqb (snd (Np.shape df)) 1)%bool
      then Np.values_col0 df
      else Raise (ValueError "wrong size of array. array size should be (365,1).")
  | PowerStr s =>
      df <- read_json s ;;
      Np.values_col0 df
  | PowerNumber x =>
      Ok (map (fun one => (x * one)%Q) (Np.ones 366))
  | PowerOther _ =>
      Raise (ValueError "wrong data type for power.")
  end.

(** [Appliance.__init__]. *)
Definition __init__ (c : config) (p : power_arg) : result t :=
  pw <- init_power p ;;
  Ok {| cfg := c; power := pw; win := initial_win; cyc := initial_cyc; run := initial_run |}.

End Construction.

(** [getattr(self, f"window_{i}")]. *)
Definition getattr_window (w : window_attrs) (i : Z) : result (Z * Z) :=
  if i =? 1 then Ok (window_1 w)
  else if i =? 2 then Ok (window_2 w)
  else if i =? 3 then Ok (window_3 w)
  else Raise (AttributeError "'Appliance' object has no attribute 'window_i'").

(** The loop of [windows] that adds up the widths of the windows
    [range(1, num_windows + 1)]. *)
Fixpoint window_time_loop (w : window_attrs) (idx : list Z) (acc : Z) : result Z :=
  match idx with
  | [] => Ok acc
  | i :: idx' =>
      wi <- getattr_window w i ;;
      window_time_loop w idx' (acc + (snd wi - fst wi))
  end.

(** [Appliance.windows]. The appliance it returns is the one the source
    appends to [self.user.App_list]. *)
Definition windows (self : t) (w1 w2 : option (Z * Z)) (rvw : Q)
    (w3 : option (Z * Z)) : result t :=
  let win1 := match w1 with None => (0, 1440) | Some w => w end in
  win2 <- match w2 with
          | None =>
              if num_windows (cfg self) >=? 2
              then Raise (InvalidWindow "Windows 2 is not provided although 2 windows were declared")
              else Ok (window_2 (win self))
          | Some w => Ok w
          end ;;
  win3 <- match w3 with
          | None =>
              if num_windows (cfg self) =? 3
              then Raise (InvalidWindow "Windows 3 is not provided although 3 windows were declared")
              else Ok (window_3 (win self))
          | Some w => Ok w
          end ;;
  let w0 :=
    {| random_var_w := random_var_w (win self);
       window_1 := win1; window_2 := win2; window_3 := win3;
       random_var_1 := random_var_1 (win self);
       random_var_2 := random_var_2 (win self);
       random_var_3 := random_var_3 (win self) |} in
  window_time <- window_time_loop w0 (Py.range 1 (num_windows (cfg self) + 1)) 0 ;;
  if window_time <? func_time (cfg self)
  then Raise (InvalidWindow "The sum of all windows time intervals for the appliance is smaller than the time the appliance is supposed to be on")
  else
    d1 <- Np.assign_full (Np.zeros 1440) win1 (1 # 1000) ;;
    d2 <- Np.assign_full d1 win2 (1 # 1000) ;;
    d3 <- Np.assign_full d2 win3 (1 # 1000) ;;
    let diff w := inject_Z (snd w - fst w) in
    let w' :=
      {| random_var_w := rvw;
         window_1 := win1; window_2 := win2; window_3 := win3;
         random_var_1 := Py.int (rvw * diff win1);
         random_var_2 := Py.int (rvw * diff win2);
         random_var_3 := Py.int (rvw * diff win3) |} in
    let self1 := set_daily_use (set_win self w') d3 in
    Ok (if fixed_cycle (cfg self) =? 1
        then set_cyc self1 (set_cw1 (cyc self1) win1 win2)
        else self1).

(** [Appliance.maximum_profile]. *)
Definition maximum_profile (self : t) : result (list Q) :=
  match daily_use (run self) with
  | None => Raise (TypeError "unsupported operand type(s) for *: 'NoneType' and 'float'")
  | Some d => Ok (Np.scale (Np.scale d (Np.mean (power self))) (inject_Z (number (cfg self))))
  end.

(** A minute lies in one of the three windows of the appliance. *)
Definition in_window (w : Z * Z) (t : Z) : bool := (fst w <=? t) && (t <? snd w).

Definition in_windows (self : t) (t : Z) : bool :=
  in_window (window_1 (win self)) t
  || in_window (window_2 (win self)) t
  || in_window (window_3 (win self)) t.

(** [getattr(self, f"random_var_{i}")]. *)
Definition getattr_random_var (w : window_attrs) (i : Z) : result Z :=
  if i =? 1 then Ok (random_var_1 w)
  else if i =? 2 then Ok (random_var_2 w)
  else if i =? 3 then Ok (random_var_3 w)
  else Raise (AttributeError "'Appliance' object has no attribute 'random_var_i'").

(** [list.pop(i)] and [list.insert(i, x)] on the list of free spots. *)
Definition list_pop (l : list slice) (i : nat) : list slice := firstn i l ++ skipn (S i) l.

Definition list_insert (l : list slice) (i : nat) (x : slice) : list slice :=
  firstn i l ++ x :: skipn i l.

(** The search loop of [update_available_time_for_switch_on_events]: the
    position of the first free spot [fs] with
    [indexes[0] >= fs.start and indexes[-1] <= fs.stop]. *)
Fixpoint find_spot_to_split (fs : list slice) (i : nat) (first last : Z) : option nat :=
  match fs with
  | [] => None
  | s :: fs' =>
      if (first >=? start s) && (last <=? stop s) then Some i
      else find_spot_to_split fs' (S i) first last
  end.

(** [Appliance.update_available_time_for_switch_on_events]. *)
Definition update_available_time_for_switch_on_events (self : t) (indexes : list Z)
    : result t :=
  let fs := free_spots (run self) in
  match fs with
  | [] => Ok self
  | _ :: _ =>
      first <- Py.getitem indexes 0 ;;
      last <- Py.getitem indexes (-1) ;;
      match find_spot_to_split fs 0 first last with
      | None => Ok self
      | Some spot_idx =>
          let spot_to_split := nth spot_idx fs {| start := 0; stop := 0 |} in
          let popped := list_pop fs spot_idx in
          Ok (set_free_spots self
                (if (first =? start spot_to_split) && (last =? stop spot_to_split)
                 then popped
                 else if first =? start spot_to_split
                 then list_insert popped spot_idx
                        {| start := last + 1; stop := stop spot_to_split |}
                 else if last =? stop spot_to_split
                 then list_insert popped spot_idx
                        {| start := start spot_to_split; stop := first |}
                 else
                   let new_spot1 := {| start := start spot_to_split; stop := first |} in
                   let new_spot2 := {| start := last + 1; stop := stop spot_to_split |} in
                   list_insert (list_insert popped spot_idx new_spot2) spot_idx new_spot1))
      end
  end.

(** [np.mean(indexes)] for an array of integers. *)
Definition mean_indexes (indexes : list Z) : Q :=
  (inject_Z (fold_right Z.add 0%Z indexes) / inject_Z (Py.len indexes))%Q.

Section Engine.

Context {U : Utils}.

(** [Appliance.assign_random_cycles]. *)
Definition assign_random_cycles (self : t) : Random.M t :=
  let c := cyc self in
  let var := thermal_p_var (cfg self) in
  if fixed_cycle (cfg self) >=? 1 then
    p11 <~ random_variation var (p_11 c) ;;
    p12 <~ random_variation var (p_12 c) ;;
    rc1 <~ duty_cycle (r_c1 c) (t_11 c) p11 (t_12 c) p12 ;;
    if fixed_cycle (cfg self) >=? 2 then
      p21 <~ random_variation var (p_21 c) ;;
      p22 <~ random_variation var (p_22 c) ;;
      rc2 <~ duty_cycle (r_c2 c) (t_21 c) p21 (t_22 c) p22 ;;
      if fixed_cycle (cfg self) >=? 3 then
        p31 <~ random_variation var (p_31 c) ;;
        p32 <~ random_variation var (p_32 c) ;;
        rc1' <~ random_choice (r_c1 c) (t_11 c) p11 (t_12 c) p12 ;;
        rc2' <~ random_choice (r_c2 c) (t_21 c) p21 (t_22 c) p22 ;;
        rc3' <~ random_choice (r_c3 c) (t_31 c) p31 (t_32 c) p32 ;;
        Random.ret (set_random_cycles self rc1' rc2' rc3')
      else Random.ret (set_random_cycles self rc1 rc2 rc1)
    else Random.ret (set_random_cycles self rc1 rc1 rc1)
  else Random.ret self.

(** [Appliance.update_daily_use]. *)
Definition update_daily_use (self : t) (coincidence : Z) (power : Q) (indexes : list Z)
    : Random.M t :=
  match daily_use (run self) with
  | None => Random.raise (TypeError "'NoneType' object does not support item assignment")
  | Some d =>
      d' <~ (if fixed_cycle (cfg self) >? 0 then
               let evaluate :=
                 if Py.len indexes >? 0 then Py.round (mean_indexes indexes) else 0 in
               let c := cyc self in
               let cycle :=
                 if Py.in_range evaluate (fst (cw11 c)) (snd (cw11 c))
                    || Py.in_range evaluate (fst (cw12 c)) (snd (cw12 c))
                 then random_cycle1 (run self)
                 else if Py.in_range evaluate (fst (cw21 c)) (snd (cw21 c))
                         || Py.in_range evaluate (fst (cw22 c)) (snd (cw22 c))
                 then random_cycle2 (run self)
                 else random_cycle3 (run self) in
               Random.lift (Np.put d indexes (Np.scale cycle (inject_Z coincidence)))
             else
               v <~ random_variation (thermal_p_var (cfg self))
                      (inject_Z coincidence * power)%Q ;;
               Random.lift (Np.put d indexes [v])) ;;
      Random.lift (update_available_time_for_switch_on_events (set_daily_use self d') indexes)
  end.

(** [Appliance.calc_rand_window], with the default
    [window_range_limits=[0, 1440]]. *)
Definition calc_rand_window (self : t) (window_idx : Z) : Random.M (Z * Z) :=
  _window <~ Random.lift (getattr_window (win self) window_idx) ;;
  _random_var <~ Random.lift (getattr_random_var (win self) window_idx) ;;
  a <~ Random.randint (fst _window - _random_var) (fst _window + _random_var) ;;
  b <~ Random.randint (snd _window - _random_var) (snd _window + _random_var) ;;
  Random.ret (if a <? 0 then 0 else a, if b >? 1440 then 1440 else b).

(** [Appliance.rand_total_time_of_use]. *)
Definition rand_total_time_of_use (self : t) (rand_window_1 rand_window_2 rand_window_3 : Z * Z)
    : Random.M Z :=
  random_var_t <~ random_variation (time_fraction_random_variability (cfg self)) 1 ;;
  u <~ Random.uniform (inject_Z (func_time (cfg self)))
         (inject_Z (Py.int (inject_Z (func_time (cfg self)) * random_var_t))) ;;
  let rand_time := Py.round u in
  let rand_time := if rand_time <? func_cycle (cfg self) then func_cycle (cfg self) else rand_time in
  let total_time :=
    (snd rand_window_1 - fst rand_window_1)
    + (snd rand_window_2 - fst rand_window_2)
    + (snd rand_window_3 - fst rand_window_3) in
  let rand_time :=
    if negb (Qle_bool (inject_Z rand_time) ((99 # 100) * inject_Z total_time))
    then Py.int ((99 # 100) * inject_Z total_time)
    else rand_time in
  if rand_time <? func_cycle (cfg self)
  then Random.raise (ValueError "The func_cycle you choose for appliance might be too large to fit in the available time for appliance usage, please either reduce func_cycle or increase the windows of use of the appliance")
  else Random.ret rand_time.

(** The list [indexes_choice] that [rand_switch_on_window] builds. *)
Definition indexes_choice (fs : list slice) (func_cycle : Z) : list Z :=
  flat_map (fun s =>
              if stop s - start s >=? func_cycle
              then Py.range (start s) (stop s - func_cycle + 1)
              else []) fs.

(** The search loop of [rand_switch_on_window]: the position of the
    first free spot [fs] with
    [fs.start <= switch_on <= fs.stop - self.func_cycle]. *)
Fixpoint find_switch_on_spot (fs : list slice) (i : nat) (switch_on func_cycle : Z)
    : option nat :=
  match fs with
  | [] => None
  | s :: fs' =>
      if (start s <=? switch_on) && (switch_on <=? stop s - func_cycle) then Some i
      else find_switch_on_spot fs' (S i) switch_on func_cycle
  end.

(** [Appliance.rand_switch_on_window]. *)
Definition rand_switch_on_window (self : t) (rand_time : Z) : Random.M (option (list Z)) :=
  let fs := free_spots (run self) in
  let fc := func_cycle (cfg self) in
  let choice := indexes_choice fs fc in
  let n_choices := Py.len choice in
  if n_choices >? 0 then
    k <~ Random.randint 0 (n_choices - 1) ;;
    switch_on <~ Random.lift (Py.getitem choice k) ;;
    match find_switch_on_spot fs 0 switch_on fc with
    | None => Random.raise (TypeError "list indices must be integers or slices, not NoneType")
    | Some spot_idx =>
        let spot := nth spot_idx fs {| start := 0; stop := 0 |} in
        let largest_duration := Z.min rand_time (stop spot - switch_on) in
        if largest_duration >? fc then
          u <~ Random.uniform (inject_Z fc) (inject_Z largest_duration) ;;
          Random.ret (Some (Np.arange switch_on (switch_on + Py.int u)))
        else if largest_duration =? fc then
          Random.ret (Some (Np.arange switch_on (switch_on + largest_duration)))
        else Random.raise (ValueError "There is something fishy with upper limit in switch on...")
    end
  else Random.ret None.

(** [Appliance.calc_coincident_switch_on]. *)
Definition calc_coincident_switch_on (self : t) (inside_peak_window : bool) : Random.M Z :=
  let '(s_peak, mu_peak, op_factor) := switch_on_parameters in
  let n := number (cfg self) in
  if inside_peak_window && String.eqb (fixed (cfg self)) "no" then
    g <~ Random.gauss (inject_Z n * mu_peak + (1 # 2)) (s_peak * inject_Z n * mu_peak) ;;
    Random.ret (Z.min n (Z.max 1 (Py.ceil g)))
  else if negb inside_peak_window && String.eqb (fixed (cfg self)) "no" then
    if n =? 0 then Random.raise (ZeroDivisionError "float division by zero")
    else
      prob <~ Random.uniform 0 ((inject_Z n - op_factor) / inject_Z n) ;;
      let on := filter (fun i => Qle_bool (inject_Z i / inject_Z n) prob) (Np.arange 0 n) in
      Random.ret (match on with
                  | [] => 1
                  | i :: on' => fold_right Z.max i on' + 1
                  end)
  else Random.ret n.

(** [self.wd_we_type in [day_type, 2]]. *)
Definition wd_we_type_allowed (self : t) (day_type : day_arg) : bool :=
  match day_type with
  | DayInt d => (wd_we_type (cfg self) =? d) || (wd_we_type (cfg self) =? 2)
  | DayList _ => wd_we_type (cfg self) =? 2
  end.

(** What one run of [generate_load_profile] drew: the randomised
    windows, the randomised time of use, and the switch-on events in the
    order they were written. The source does not keep it. *)
Record day_log : Type := {
  rand_windows : list (Z * Z);
  rand_time : Z;
  events : list (list Z)
}.

(** The two calls that follow the choice of a switch-on event. *)
Definition switch_on_event (self : t) (power : Q) (peak_time_range : list Z)
    (indexes : list Z) : Random.M t :=
  first <~ Random.lift (Py.getitem indexes 0) ;;
  last <~ Random.lift (Py.getitem indexes (-1)) ;;
  peak_first <~ Random.lift (Py.getitem peak_time_range 0) ;;
  peak_last <~ Random.lift (Py.getitem peak_time_range (-1)) ;;
  let inside_peak_window := within_peak_time_window first last peak_first peak_last in
  coincidence <~ calc_coincident_switch_on self inside_peak_window ;;
  update_daily_use self coincidence power indexes.

(** One turn of the [while] loop of [generate_load_profile]. The boolean
    is [false] on [break]. *)
Definition loop_body (self : t) (rand_time tot_time : Z) (power : Q)
    (peak_time_range : list Z) : Random.M (bool * t * Z * list (list Z)) :=
  oi <~ rand_switch_on_window self rand_time ;;
  match oi with
  | None => Random.ret (false, self, tot_time, [])
  | Some indexes =>
      let tot_time := tot_time + Py.len indexes in
      if tot_time >? rand_time then
        let indexes_adj := Py.drop_last indexes (tot_time - rand_time) in
        if Py.len indexes_adj >? 0 then
          self' <~ switch_on_event self power peak_time_range indexes_adj ;;
          Random.ret (false, self', tot_time, [indexes_adj])
        else Random.ret (false, self, tot_time, [])
      else
        self' <~ switch_on_event self power peak_time_range indexes ;;
        Random.ret (true, self', tot_time, [indexes])
  end.

(** The [while tot_time <= rand_time] loop. A turn that does not break
    adds at least one minute to [tot_time], so [rand_time - tot_time + 1]
    turns are enough: see [while_loop_fuel]. *)
Fixpoint while_loop (fuel : nat) (self : t) (rand_time tot_time : Z) (power : Q)
    (peak_time_range : list Z) : Random.M (t * list (list Z)) :=
  if tot_time <=? rand_time then
    match fuel with
    | O => Random.ret (self, [])
    | S fuel' =>
        r <~ loop_body self rand_time tot_time power peak_time_range ;;
        let '(continue, self', tot_time', ev) := r in
        if continue : bool then
          r' <~ while_loop fuel' self' rand_time tot_time' power peak_time_range ;;
          Random.ret (fst r', ev ++ snd r')
        else Random.ret (self', ev)
    end
  else Random.ret (self, []).

(** [Appliance.generate_load_profile]. [user_preference] is
    [self.user.user_preference]. The source returns nothing: the second
    component is the log of the run, [None] when the appliance is
    skipped. *)
Definition generate_load_profile (self : t) (user_preference : Z) (prof_i : Z)
    (peak_time_range : list Z) (day_type : day_arg) (power : Q)
    : Random.M (t * option day_log) :=
  let self := set_daily_use self (Np.zeros 1440) in
  rand_daily_pref <~ (if user_preference =? 0 then Random.ret 0
                      else Random.randint 1 user_preference) ;;
  u <~ Random.uniform 0 1 ;;
  if negb (Qle_bool u (occasional_use (cfg self)))
     || (negb (pref_index (cfg self) =? 0) && negb (rand_daily_pref =? pref_index (cfg self)))
     || negb (wd_we_type_allowed self day_type)
  then Random.ret (self, None)
  else
    rand_window_1 <~ calc_rand_window self 1 ;;
    rand_window_2 <~ calc_rand_window self 2 ;;
    rand_window_3 <~ calc_rand_window self 3 ;;
    let rand_windows := [rand_window_1; rand_window_2; rand_window_3] in
    rand_time <~ rand_total_time_of_use self rand_window_1 rand_window_2 rand_window_3 ;;
    if String.eqb (flat (cfg self)) "yes" then
      p <~ Random.lift (Py.getitem (Appliance.power self) prof_i) ;;
      let total_power_value := (p * inject_Z (number (cfg self)))%Q in
      d1 <~ Random.lift (Np.assign_full (Np.zeros 1440) rand_window_1 total_power_value) ;;
      d2 <~ Random.lift (Np.assign_full d1 rand_window_2 total_power_value) ;;
      d3 <~ Random.lift (Np.assign_full d2 rand_window_3 total_power_value) ;;
      Random.ret (set_daily_use self d3,
                  Some {| rand_windows := rand_windows; rand_time := rand_time; events := [] |})
    else
      d1 <~ Random.lift (Np.assign_full (Np.zeros 1440) rand_window_1 (1 # 1000)) ;;
      d2 <~ Random.lift (Np.assign_full d1 rand_window_2 (1 # 1000)) ;;
      d3 <~ Random.lift (Np.assign_full d2 rand_window_3 (1 # 1000)) ;;
      self <~ assign_random_cycles (set_daily_use self d3) ;;
      let self :=
        set_free_spots self
          (map (fun rw => {| start := fst rw; stop := snd rw |})
             (filter (fun rw => negb (fst rw =? snd rw)) rand_windows)) in
      r <~ while_loop (Z.to_nat (rand_time + 1)) self rand_time 0 power peak_time_range ;;
      Random.ret (fst r,
                  Some {| rand_windows := rand_windows; rand_time := rand_time;
                          events := snd r |}).

End Engine.

End Appliance.

(* ===================================================================== *)
(** * The utilities, as the specification describes them                  *)
(* ===================================================================== *)

Module SpecUtils.

(** Modelled from the spec: [ramp.core.utils.random_variation] is not
    among the sources. "[random_variation(var, norm=1)] returns
    [norm * uniform(1 - var, 1 + var)] when [var > 0], else [norm]." *)
Definition random_variation (var norm : Q) : Random.M Q :=
  if Qlt_le_dec 0 var
  then u <~ Random.uniform (1 - var) (1 + var) ;; Random.ret (norm * u)%Q
  else Random.ret norm.

(** Modelled from the spec: [ramp.core.utils.duty_cycle] is not among the
    sources. "Returns a concatenation of [p1] repeated
    [round(t1 * random_variation(r))] times and [p2] repeated
    [round(t2 * random_variation(r))] times (so duty lengths jitter
    independently)." *)
Definition duty_cycle (var : Q) (t1 : Z) (p1 : Q) (t2 : Z) (p2 : Q) : Random.M (list Q) :=
  v1 <~ random_variation var 1 ;;
  v2 <~ random_variation var 1 ;;
  Random.ret (repeat p1 (Z.to_nat (Py.round (inject_Z t1 * v1)))
              ++ repeat p2 (Z.to_nat (Py.round (inject_Z t2 * v2)))).

(** The draws of [n] minutes, each uniform between [p1] and [p2]. *)
Fixpoint uniform_minutes (n : nat) (p1 p2 : Q) : Random.M (list Q) :=
  match n with
  | O => Random.ret []
  | S n' =>
      x <~ Random.uniform p1 p2 ;;
      r <~ uniform_minutes n' p1 p2 ;;
      Random.ret (x :: r)
  end.

(** Modelled from the spec: [ramp.core.utils.random_choice] is not among
    the sources. "A [random_choice] variant instead of fixed [p1]/[p2]:
    at each minute the power is drawn uniformly between [p1] and [p2]";
    the minutes are those of [duty_cycle]. *)
Definition random_choice (var : Q) (t1 : Z) (p1 : Q) (t2 : Z) (p2 : Q) : Random.M (list Q) :=
  v1 <~ random_variation var 1 ;;
  v2 <~ random_variation var 1 ;;
  uniform_minutes (Z.to_nat (Py.round (inject_Z t1 * v1))
                   + Z.to_nat (Py.round (inject_Z t2 * v2))) p1 p2.

(** Modelled from the spec: [ramp.core.utils.within_peak_time_window] is
    not among the sources. "[inside_peak = I.first <= peak_range.last and
    I.last >= peak_range.first] (standard interval overlap)." *)
Definition within_peak_time_window (win_start win_stop peak_win_start peak_win_stop : Z)
    : bool :=
  (win_start <=? peak_win_stop) && (win_stop >=? peak_win_start).

(** Modelled from the spec: [ramp.core.constants.switch_on_parameters] is
    not among the sources, and the spec names the three constants
    without their values: they are arguments here. *)
#[export] Instance utils (s_peak mu_peak op_factor : Q) : Utils := {
  random_variation := SpecUtils.random_variation;
  duty_cycle := SpecUtils.duty_cycle;
  random_choice := SpecUtils.random_choice;
  within_peak_time_window := SpecUtils.within_peak_time_window;
  switch_on_parameters := (s_peak, mu_peak, op_factor)
}.

End SpecUtils.

(* ===================================================================== *)
(** * class User                                                          *)
(* ===================================================================== *)

Module User.

Record t : Type := {
  user_name : string;
  num_users : Z;
  user_preference : Z;
  load : option (list Q);
  App_list : list Appliance.t
}.

Definition set_App_list (self : t) (apps : list Appliance.t) : t :=
  {| user_name := user_name self; num_users := num_users self;
     user_preference := user_preference self; load := load self; App_list := apps |}.

Definition set_load (self : t) (l : list Q) : t :=
  {| user_name := user_name self; num_users := num_users self;
     user_preference := user_preference self; load := Some l; App_list := App_list self |}.

(** The loop of [User.maximum_profile]: [np.vstack] puts the profile of
    each appliance under the rows gathered so far, and refuses a row of
    another length. *)
Fixpoint stack_profiles (rows : list (list Q)) (apps : list Appliance.t)
    : result (list (list Q)) :=
  match apps with
  | [] => Ok rows
  | appliance :: apps' =>
      app_max_profile <- Appliance.maximum_profile appliance ;;
      if Nat.eqb (List.length app_max_profile) 1440
      then stack_profiles (rows ++ [app_max_profile]) apps'
      else Raise (ValueError "all the input array dimensions except for the concatenation axis must match exactly")
  end.

(** [np.sum(m, axis=0)] for the rows [m]. *)
Definition sum_axis0 (m : list (list Q)) : list Q :=
  match m with
  | [] => []
  | r :: m' => fold_left Np.add m' r
  end.

(** What [User.maximum_profile] returns. With one appliance or more the
    stacked rows are summed by [np.sum(.., axis=0)] to a 1-d array of
    1440 cells. Without any appliance nothing is stacked: the sum along
    axis 0 of the 1-d array of zeros is the scalar [0.0]. *)
Inductive max_profile : Type :=
| Scalar (x : Q)
| Profile (a : list Q).

(** [User.maximum_profile]. *)
Definition maximum_profile (self : t) : result max_profile :=
  match App_list self with
  | [] => Ok (Scalar (Np.sum (Np.zeros 1440) * inject_Z (num_users self)))
  | _ :: _ =>
      rows <- stack_profiles [Np.zeros 1440] (App_list self) ;;
      Ok (Profile (Np.scale (sum_axis0 rows) (inject_Z (num_users self))))
  end.

Section Engine.

Context {U : Utils}.

(** The loop over [self.App_list] of [generate_single_load_profile]. It
    returns the appliances as the calls leave them, and [single_load]. *)
Fixpoint apps_loop (apps : list Appliance.t) (user_preference : Z) (prof_i : Z)
    (peak_time_range : list Z) (day_type : day_arg) (single_load : list Q)
    : Random.M (list Appliance.t * list Q) :=
  match apps with
  | [] => Random.ret ([], single_load)
  | App :: apps' =>
      power <~ Random.lift (Py.getitem (Appliance.power App) prof_i) ;;
      r <~ Appliance.generate_load_profile App user_preference prof_i peak_time_range
             day_type power ;;
      match Appliance.daily_use (Appliance.run (fst r)) with
      | None => Random.raise (TypeError "unsupported operand type(s) for +: 'float' and 'NoneType'")
      | Some d =>
          r' <~ apps_loop apps' user_preference prof_i peak_time_range day_type
                  (Np.add single_load d) ;;
          Random.ret (fst r :: fst r', snd r')
      end
  end.

(** [User.generate_single_load_profile]. *)
Definition generate_single_load_profile (self : t) (prof_i : Z) (peak_time_range : list Z)
    (day_type : day_arg) : Random.M (t * list Q) :=
  if negb (Py.in_range prof_i 0 365)
  then Random.raise (ValueError "prof_i should be an integer in range of 0 to 364")
  else
    r <~ apps_loop (App_list self) (user_preference self) prof_i peak_time_range day_type
           (Np.zeros 1440) ;;
    Random.ret (set_App_list self (fst r), snd r).

(** The loop [for _ in range(self.num_users)] of
    [generate_aggregated_load_profile]. *)
Fixpoint users_loop (n : nat) (self : t) (prof_i : Z) (peak_time_range : list Z)
    (day_type : day_arg) (load : list Q) : Random.M (t * list Q) :=
  match n with
  | O => Random.ret (self, load)
  | S n' =>
      r <~ generate_single_load_profile self prof_i peak_time_range day_type ;;
      users_loop n' (fst r) prof_i peak_time_range day_type (Np.add load (snd r))
  end.

(** [User.generate_aggregated_load_profile]. *)
Definition generate_aggregated_load_profile (self : t) (prof_i : Z)
    (peak_time_range : list Z) (day_type : day_arg) : Random.M (t * list Q) :=
  if negb (Py.in_range prof_i 0 365)
  then Random.raise (ValueError "prof_i should be an integer in range of 0 to 364")
  else
    r <~ users_loop (Z.to_nat (num_users self)) self prof_i peak_time_range day_type
           (Np.zeros 1440) ;;
    Random.ret (set_load (fst r) (snd r), snd r).

End Engine.

End User.

(* ===================================================================== *)
(** * class UseCase                                                       *)
(* ===================================================================== *)

Module UseCase.

Record t : Type := {
  name : string;
  users : list User.t
}.

(** A task of the parallel mode: [(app, (day_id, peak_time_range,
    day_type))], with [app.user.user_preference] next to the
    appliance. *)
Record task : Type := {
  task_app : Appliance.t;
  task_user_preference : Z;
  task_day_id : Z;
  task_peak_time_range : list Z;
  task_day_type : day_arg
}.

(** [day_types[day_id]]. *)
Definition day_types_getitem (day_types : day_arg) (day_id : Z) : result day_arg :=
  match day_types with
  | DayInt _ => Raise (TypeError "'int' object is not subscriptable")
  | DayList l => d <- Py.getitem l day_id ;; Ok (DayInt d)
  end.

(** The tasks of one day, in the order of the three inner loops. *)
Definition day_tasks (self : t) (day_id : Z) (peak_time_range : list Z) (day_type : day_arg)
    : list task :=
  flat_map (fun user =>
    flat_map (fun app =>
      repeat {| task_app := app;
                task_user_preference := User.user_preference user;
                task_day_id := day_id;
                task_peak_time_range := peak_time_range;
                task_day_type := day_type |}
             (Z.to_nat (User.num_users user)))
      (User.App_list user))
    (users self).

(** The loop that builds [tasks]. *)
Fixpoint build_tasks (self : t) (days : list Z) (peak_time_range : list Z)
    (day_types : day_arg) : result (list task) :=
  match days with
  | [] => Ok []
  | day_id :: days' =>
      day_type <- day_types_getitem day_types day_id ;;
      rest <- build_tasks self days' peak_time_range day_types ;;
      Ok (day_tasks self day_id peak_time_range day_type ++ rest)
  end.

(** [daily_profiles_dict], a dict from the day to the list of the loads
    received for it. *)
Definition profiles_dict : Type := list (Z * list (list Q)).

Fixpoint dict_append (d : profiles_dict) (prof_i : Z) (daily_load : list Q) : profiles_dict :=
  match d with
  | [] => [(prof_i, [daily_load])]
  | (k, v) :: d' =>
      if k =? prof_i then (k, v ++ [daily_load]) :: d'
      else (k, v) :: dict_append d' prof_i daily_load
  end.

Fixpoint dict_getitem (d : profiles_dict) (day_id : Z) : result (list (list Q)) :=
  match d with
  | [] => Raise (KeyError day_id)
  | (k, v) :: d' => if k =? day_id then Ok v else dict_getitem d' day_id
  end.

(** The rows [daily_profiles[day_id, :]], for the days of [days]. *)
Fixpoint sum_days (d : profiles_dict) (days : list Z) : result (list (list Q)) :=
  match days with
  | [] => Ok []
  | day_id :: days' =>
      loads <- dict_getitem d day_id ;;
      rest <- sum_days d days' ;;
      Ok (User.sum_axis0 loads :: rest)
  end.

Section Engine.

Context {U : Utils}.

(** The loop over [self.users] of [generate_daily_load_profiles]; the
    source passes [day_types] itself to the user. *)
Fixpoint users_loop (us : list User.t) (prof_i : Z) (peak_time_range : list Z)
    (day_types : day_arg) (usecase_load : list Q) : Random.M (list User.t * list Q) :=
  match us with
  | [] => Random.ret ([], usecase_load)
  | user :: us' =>
      r <~ User.generate_aggregated_load_profile user prof_i peak_time_range day_types ;;
      r' <~ users_loop us' prof_i peak_time_range day_types (Np.add usecase_load (snd r)) ;;
      Random.ret (fst r :: fst r', snd r')
  end.

(** The loop over [range(num_profiles)] of
    [generate_daily_load_profiles]. *)
Fixpoint profiles_loop (self : t) (days : list Z) (peak_time_range : list Z)
    (day_types : day_arg) : Random.M (t * list (list Q)) :=
  match days with
  | [] => Random.ret (self, [])
  | prof_i :: days' =>
      r <~ users_loop (users self) prof_i peak_time_range day_types (Np.zeros 1440) ;;
      r' <~ profiles_loop {| name := name self; users := fst r |} days' peak_time_range
              day_types ;;
      Random.ret (fst r', snd r :: snd r')
  end.

(** [UseCase.generate_daily_load_profiles]. *)
Definition generate_daily_load_profiles (self : t) (num_profiles : Z)
    (peak_time_range : list Z) (day_types : day_arg) : Random.M (t * list (list Q)) :=
  profiles_loop self (Py.range 0 num_profiles) peak_time_range day_types.

(** [single_appliance_daily_load_profile], the function of a task. *)
Definition single_appliance_daily_load_profile (tk : task) : Random.M (Z * list Q) :=
  power <~ Random.lift (Py.getitem (Appliance.power (task_app tk)) (task_day_id tk)) ;;
  r <~ Appliance.generate_load_profile (task_app tk) (task_user_preference tk)
         (task_day_id tk) (task_peak_time_range tk) (task_day_type tk) power ;;
  match Appliance.daily_use (Appliance.run (fst r)) with
  | None => Random.raise (TypeError "daily_use is None")
  | Some d => Random.ret (task_day_id tk, d)
  end.

(** The pool: the results of the tasks are gathered into the dict as
    they come. The tasks are run here in the order of [tasks], which is
    one of the orders of [imap_unordered]. *)
Fixpoint run_tasks (tasks : list task) (d : profiles_dict) : Random.M profiles_dict :=
  match tasks with
  | [] => Random.ret d
  | tk :: tasks' =>
      r <~ single_appliance_daily_load_profile tk ;;
      run_tasks tasks' (dict_append d (fst r) (snd r))
  end.

(** [UseCase.generate_daily_load_profiles_parallel]. After the pool,
    [np.zeros((num_profiles, 1440))] refuses a negative number of
    rows. *)
Definition generate_daily_load_profiles_parallel (self : t) (num_profiles : Z)
    (peak_time_range : list Z) (day_types : day_arg) : Random.M (list (list Q)) :=
  tasks <~ Random.lift (build_tasks self (Py.range 0 num_profiles) peak_time_range day_types) ;;
  daily_profiles_dict <~ run_tasks tasks [] ;;
  if num_profiles <? 0
  then Random.raise (ValueError "negative dimensions are not allowed")
  else Random.lift (sum_days daily_profiles_dict (Py.range 0 num_profiles)).

End Engine.

End UseCase.

(* ===================================================================== *)
(** * ramp.core.stochastic_process                                        *)
(* ===================================================================== *)

Module StochasticProcess.

(** What [np.squeeze(np.argwhere(..))] yields: the column of [n]
    positions becomes a 1-d array, except that a column of one position
    becomes a 0-d array. *)
Inductive ndarray : Type :=
| Arr0 (x : Z)
| Arr1 (l : list Z).

Definition squeeze (column : list Z) : ndarray :=
  match column with
  | [x] => Arr0 x
  | l => Arr1 l
  end.

(** [np.amax(a)]. *)
Definition amax (a : list Q) : Q :=
  fold_right (fun x m => if Qle_bool m x then x else m) (hd 0%Q a) a.

(** The loop of [np.argwhere(a == m)]; [t] is the position of the head
    of [a]. *)
Fixpoint argwhere_from (t : Z) (a : list Q) (m : Q) : list Z :=
  match a with
  | [] => []
  | x :: a' => if Qeq_bool x m then t :: argwhere_from (t + 1) a' m
               else argwhere_from (t + 1) a' m
  end.

Definition argwhere (a : list Q) (m : Q) : list Z := argwhere_from 0 a m.

(** [np.average(w)]. *)
Definition average (w : ndarray) : Q :=
  match w with
  | Arr0 x => inject_Z x
  | Arr1 l => Appliance.mean_indexes l
  end.

(** [w[i]]. *)
Definition nd_getitem (w : ndarray) (i : Z) : result Z :=
  match w with
  | Arr0 _ => Raise (IndexError "too many indices for array: array is 0-dimensional, but 1 were indexed")
  | Arr1 l => Py.getitem l i
  end.

(** [tot_max_profile + user.maximum_profile]: a scalar is added to
    every cell. *)
Definition add_max_profile (tot_max_profile : list Q) (p : User.max_profile) : list Q :=
  match p with
  | User.Scalar x => map (fun v => (v + x)%Q) tot_max_profile
  | User.Profile a => Np.add tot_max_profile a
  end.

(** The loop that adds up the maximum profiles of the users. *)
Fixpoint total_maximum_profile (user_list : list User.t) (tot_max_profile : list Q)
    : result (list Q) :=
  match user_list with
  | [] => Ok tot_max_profile
  | user :: user_list' =>
      p <- User.maximum_profile user ;;
      total_maximum_profile user_list' (add_max_profile tot_max_profile p)
  end.

(** The peak window of [calc_peak_time_range]. *)
Definition peak_window_of (tot_max_profile : list Q) : ndarray :=
  squeeze (argwhere tot_max_profile (amax tot_max_profile)).

(** [calc_peak_time_range]. *)
Definition calc_peak_time_range (user_list : list User.t) (peak_enlarge : Q)
    : Random.M (list Z) :=
  tot_max_profile <~ Random.lift (total_maximum_profile user_list (Np.zeros 1440)) ;;
  let peak_window := peak_window_of tot_max_profile in
  let mu := Py.round (average peak_window) in
  w_last <~ Random.lift (nd_getitem peak_window (-1)) ;;
  w_first <~ Random.lift (nd_getitem peak_window 0) ;;
  g <~ Random.normalvariate (inject_Z mu) ((1 / 3) * inject_Z (w_last - w_first)) ;;
  let peak_time := Py.round g in
  g' <~ Random.gauss (inject_Z peak_time) (peak_enlarge * inject_Z peak_time) ;;
  let rand_peak_enlarge := Py.round (Qabs (inject_Z peak_time - g')) in
  Random.ret (Np.arange (peak_time - rand_peak_enlarge) (peak_time + rand_peak_enlarge)).

End StochasticProcess.

(* ===================================================================== *)
(** * ramp.post_process.post_process                                      *)
(* ===================================================================== *)

Module PostProcess.

(** [Profile_avg + pr]: cell by cell for a profile of the length of
    [Profile_avg]; a profile of one cell is added to every cell; numpy
    refuses the other lengths. *)
Definition add_profile (Profile_avg pr : list Q) : result (list Q) :=
  if Nat.eqb (List.length pr) (List.length Profile_avg) then Ok (Np.add Profile_avg pr)
  else match pr with
       | [x] => Ok (map (fun v => (v + x)%Q) Profile_avg)
       | _ => Raise (ValueError "operands could not be broadcast together")
       end.

(** The loop [for pr in stoch_profiles: Profile_avg = Profile_avg + pr]. *)
Fixpoint sum_loop (Profile_avg : list Q) (stoch_profiles : list (list Q))
    : result (list Q) :=
  match stoch_profiles with
  | [] => Ok Profile_avg
  | pr :: rest =>
      a <- add_profile Profile_avg pr ;;
      sum_loop a rest
  end.

(** The loop [for iii in stoch_profiles: Profile_series =
    np.append(Profile_series, iii)]. *)
Definition series_loop (stoch_profiles : list (list Q)) : list Q :=
  fold_left (fun Profile_series iii => Profile_series ++ iii) stoch_profiles [].

(** [Profile_formatting]. Without any profile numpy divides the zeros by
    zero, which gives 1440 cells of [nan] (and a warning, no error):
    [None] stands for that array. *)
Definition Profile_formatting (stoch_profiles : list (list Q))
    : result (option (list Q) * list (list Q) * list Q) :=
  total <- sum_loop (Np.zeros 1440) stoch_profiles ;;
  let Profile_avg :=
    match stoch_profiles with
    | [] => None
    | _ :: _ => Some (map (fun v => (v / inject_Z (Py.len stoch_profiles))%Q) total)
    end in
  let Profile_kW := map (fun kW => map (fun v => (v / 1000)%Q) kW) stoch_profiles in
  Ok (Profile_avg, Profile_kW, series_loop stoch_profiles).

End PostProcess.

(* ===================================================================== *)
(** * Inputs of the scenarios                                             *)
(* ===================================================================== *)

Module Examples.

Import Appliance.

(** [pd.read_json] on a text that is no JSON table. *)
Definition no_json (_ : string) : result Np.DataFrame :=
  Raise (ValueError "Expected object or value").

(** Scenario S1: two lamps of 100 W, flat, on from 08:00 to 10:00. *)
Definition lamp_config : config :=
  {| name := "lamp"; number := 2; num_windows := 1; func_time := 120;
     time_fraction_random_variability := 0; func_cycle := 1;
     fixed := "no"; fixed_cycle := 0; occasional_use := 1; flat := "yes";
     thermal_p_var := 0; pref_index := 0; wd_we_type := 2 |}.

(** The appliance right after [Appliance(user, number=2, power=100, ...)]. *)
Definition new_lamp : t :=
  {| cfg := lamp_config;
     power := map (fun one => (100 * one)%Q) (Np.ones 366);
     win := initial_win; cyc := initial_cyc; run := initial_run |}.

(** A table of one column and 365 rows of 100 W, and one of 366 rows. *)
Definition frame_365 : Np.DataFrame :=
  {| Np.nrows := 365; Np.columns := [repeat (100 # 1) 365] |}.

Definition frame_366 : Np.DataFrame :=
  {| Np.nrows := 366; Np.columns := [repeat (100 # 1) 366] |}.

(** The lamps of scenario S1 when they are used on weekdays only. *)
Definition weekday_lamp_config : config :=
  {| name := "lamp"; number := 2; num_windows := 1; func_time := 120;
     time_fraction_random_variability := 0; func_cycle := 1;
     fixed := "no"; fixed_cycle := 0; occasional_use := 1; flat := "yes";
     thermal_p_var := 0; pref_index := 0; wd_we_type := 0 |}.

Definition new_weekday_lamp : t :=
  {| cfg := weekday_lamp_config;
     power := map (fun one => (100 * one)%Q) (Np.ones 366);
     win := initial_win; cyc := initial_cyc; run := initial_run |}.

(** A kettle of 100 W, not flat, that runs for one minute a day. *)
Definition kettle_config : config :=
  {| name := "kettle"; number := 1; num_windows := 1; func_time := 1;
     time_fraction_random_variability := 0; func_cycle := 1;
     fixed := "no"; fixed_cycle := 0; occasional_use := 1; flat := "no";
     thermal_p_var := 0; pref_index := 0; wd_we_type := 2 |}.

Definition new_kettle : t :=
  {| cfg := kettle_config;
     power := map (fun one => (100 * one)%Q) (Np.ones 366);
     win := initial_win; cyc := initial_cyc; run := initial_run |}.

(** A user category of one member that owns the appliances [apps]. *)
Definition household (apps : list t) : User.t :=
  {| User.user_name := "household"; User.num_users := 1; User.user_preference := 0;
     User.load := None; User.App_list := apps |}.

(** An appliance whose free spots are [fs]. *)
Definition with_free_spots (fs : list slice) : t := set_free_spots new_kettle fs.

(** The use case of one user category. *)
Definition village (u : User.t) : UseCase.t := {| UseCase.name := "village"; UseCase.users := [u] |}.

(** A fridge with one duty cycle, in the middle of a run: nothing is
    written yet and the cycle of the day is 200 W for a minute, then 5 W
    for two. *)
Definition fridge_config : config :=
  {| name := "fridge"; number := 1; num_windows := 1; func_time := 1440;
     time_fraction_random_variability := 0; func_cycle := 30;
     fixed := "yes"; fixed_cycle := 1; occasional_use := 1; flat := "no";
     thermal_p_var := 0; pref_index := 0; wd_we_type := 2 |}.

(** The fridge at the start of a day: its one duty cycle is a minute at
    200 W, then two minutes at 5 W, without variation. *)
Definition fridge : t :=
  {| cfg := fridge_config;
     power := map (fun one => (200 * one)%Q) (Np.ones 366);
     win := initial_win;
     cyc := {| p_11 := 200; t_11 := 1; p_12 := 5; t_12 := 2; r_c1 := 0;
               p_21 := 0; t_21 := 0; p_22 := 0; t_22 := 0; r_c2 := 0;
               p_31 := 0; t_31 := 0; p_32 := 0; t_32 := 0; r_c3 := 0;
               cw11 := (0, 0); cw12 := (0, 0);
               cw21 := (0, 0); cw22 := (0, 0);
               cw31 := (0, 0); cw32 := (0, 0) |};
     run := {| daily_use := Some (Np.zeros 1440); free_spots := [];
               random_cycle1 := []; random_cycle2 := []; random_cycle3 := [] |} |}.

Definition running_fridge : t :=
  {| cfg := fridge_config;
     power := map (fun one => (200 * one)%Q) (Np.ones 366);
     win := initial_win; cyc := initial_cyc;
     run := {| daily_use := Some (Np.zeros 1440); free_spots := [];
               random_cycle1 := [200; 5; 5]%Q; random_cycle2 := [200; 5; 5]%Q;
               random_cycle3 := [200; 5; 5]%Q |} |}.

End Examples.

(* ===================================================================== *)
(** * Predicates and values of the statements                             *)
(* ===================================================================== *)

(** A window of the data model: [0 <= start <= end <= 1440]. *)
Definition valid_window (w : Z * Z) : Prop := 0 <= fst w <= snd w /\ snd w <= 1440.

(** The three windows of a run as free spots. *)
Definition spots_of (rand_windows : list (Z * Z)) : list slice :=
  map (fun rw => {| start := fst rw; stop := snd rw |})
    (filter (fun rw => negb (fst rw =? snd rw)) rand_windows).

(** The profile of a flat run on the windows [w1], [w2], [w3]. *)
Definition flat_profile (w1 w2 w3 : Z * Z) (v : Q) : list Q :=
  Np.fill_from 0
    (Np.fill_from 0 (Np.fill_from 0 (Np.zeros 1440) (fst w1) (snd w1) v) (fst w2) (snd w2) v)
    (fst w3) (snd w3) v.

(** An appliance without any jitter and that is used every day. *)
Record steady (self : Appliance.t) : Prop := {
  steady_var_1 : Appliance.random_var_1 (Appliance.win self) = 0;
  steady_var_2 : Appliance.random_var_2 (Appliance.win self) = 0;
  steady_var_3 : Appliance.random_var_3 (Appliance.win self) = 0;
  steady_window_1 : valid_window (Appliance.window_1 (Appliance.win self));
  steady_window_2 : valid_window (Appliance.window_2 (Appliance.win self));
  steady_window_3 : valid_window (Appliance.window_3 (Appliance.win self));
  steady_time : (Appliance.time_fraction_random_variability (Appliance.cfg self) <= 0)%Q;
  steady_use : (1 <= Appliance.occasional_use (Appliance.cfg self))%Q;
  steady_pref : Appliance.pref_index (Appliance.cfg self) = 0
}.

(** The time of use of a steady appliance. *)
Definition steady_rand_time (self : Appliance.t) : Z :=
  let ft := Appliance.func_time (Appliance.cfg self) in
  let fc := Appliance.func_cycle (Appliance.cfg self) in
  let rand_time := if ft <? fc then fc else ft in
  let width w := snd w - fst w in
  let total_time :=
    width (Appliance.window_1 (Appliance.win self))
    + width (Appliance.window_2 (Appliance.win self))
    + width (Appliance.window_3 (Appliance.win self)) in
  if negb (Qle_bool (inject_Z rand_time) ((99 # 100) * inject_Z total_time))
  then Py.int ((99 # 100) * inject_Z total_time)
  else rand_time.

(** The profile [d'] is [d] at every minute that no event of [evs]
    holds. *)
Definition untouched (evs : list (list Z)) (d d' : list Q) : Prop :=
  List.length d' = List.length d
  /\ forall t, 0 <= t -> (forall e, In e evs -> ~ In t e) -> Np.get d' t = Np.get d t.

(** Every free spot starts at minute 0 or later. *)
Definition spots_nonneg (self : Appliance.t) : Prop :=
  Forall (fun sp => 0 <= start sp) (Appliance.free_spots (Appliance.run self)).

(** [daily_use[t]] of an appliance, and the sum of it over appliances. *)
Definition daily_at (a : Appliance.t) (t : Z) : Q :=
  match Appliance.daily_use (Appliance.run a) with
  | Some d => Np.get d t
  | None => 0%Q
  end.

Definition sum_daily (apps : list Appliance.t) (t : Z) : Q :=
  fold_right (fun a acc => (daily_at a t + acc)%Q) 0%Q apps.

(** The error of the guard [prof_i not in range(365)]. *)
Definition prof_i_error : exn :=
  ValueError "prof_i should be an integer in range of 0 to 364".

(** A computation that never raises the error of the guard. *)
Definition rquiet {A : Type} (r : result A) : Prop := r <> Raise prof_i_error.

Definition quiet {A : Type} (m : Random.M A) : Prop := forall s, rquiet (m s).

(** Utilities that never raise the error of the guard. *)
Record quiet_utils (U : Utils) : Prop := {
  quiet_random_variation : forall var norm, quiet (random_variation var norm);
  quiet_duty_cycle : forall var t1 p1 t2 p2, quiet (duty_cycle var t1 p1 t2 p2);
  quiet_random_choice : forall var t1 p1 t2 p2, quiet (random_choice var t1 p1 t2 p2)
}.

(** The maximum profile of an appliance at the minute [t], and the sum
    of it over appliances. *)
Definition app_max_at (a : Appliance.t) (t : Z) : Q :=
  match Appliance.maximum_profile a with
  | Ok p => Np.get p t
  | Raise _ => 0%Q
  end.

Definition sum_app_max (apps : list Appliance.t) (t : Z) : Q :=
  fold_right (fun a acc => (app_max_at a t + acc)%Q) 0%Q apps.

(** Every day of the dict of the parallel mode holds one load or more,
    each of 1440 cells. *)
Definition dict_rows_wf (d : UseCase.profiles_dict) : Prop :=
  Forall (fun kv => snd kv <> [] /\ Forall (fun r => List.length r = 1440%nat) (snd kv)) d.

(** The sum of the profiles [ps] at the minute [t]. *)
Definition sum_rows (ps : list (list Q)) (t : Z) : Q :=
  fold_right (fun r acc => (Np.get r t + acc)%Q) 0%Q ps.

(** Utilities that return on every input. *)
Record returning_utils (U : Utils) : Prop := {
  returns_random_variation :
    forall var norm s, exists v s', random_variation var norm s = Ok (v, s');
  returns_duty_cycle :
    forall var t1 p1 t2 p2 s, exists c s', duty_cycle var t1 p1 t2 p2 s = Ok (c, s');
  returns_random_choice :
    forall var t1 p1 t2 p2 s, exists c s', random_choice var t1 p1 t2 p2 s = Ok (c, s')
}.

(** The width of a window, and what is left of it when both ends move
    inwards by [rv] minutes. *)
Definition width (w : Z * Z) : Z := snd w - fst w.

Definition narrowed (w : Z * Z) (rv : Z) : Z := width w - 2 * rv.

(** An appliance that is ready for a day: its windows lie in the day,
    the jitter of a window is at most half its width, there is one
    appliance or more, a cycle lasts a minute or more, and 99 % of the
    windows at their narrowest hold a cycle. *)
Record ready (self : Appliance.t) : Prop := {
  ready_window_1 : valid_window (Appliance.window_1 (Appliance.win self));
  ready_window_2 : valid_window (Appliance.window_2 (Appliance.win self));
  ready_window_3 : valid_window (Appliance.window_3 (Appliance.win self));
  ready_var_1 : 0 <= Appliance.random_var_1 (Appliance.win self)
                /\ 0 <= narrowed (Appliance.window_1 (Appliance.win self))
                          (Appliance.random_var_1 (Appliance.win self));
  ready_var_2 : 0 <= Appliance.random_var_2 (Appliance.win self)
                /\ 0 <= narrowed (Appliance.window_2 (Appliance.win self))
                          (Appliance.random_var_2 (Appliance.win self));
  ready_var_3 : 0 <= Appliance.random_var_3 (Appliance.win self)
                /\ 0 <= narrowed (Appliance.window_3 (Appliance.win self))
                          (Appliance.random_var_3 (Appliance.win self));
  ready_number : 1 <= Appliance.number (Appliance.cfg self);
  ready_cycle : 1 <= Appliance.func_cycle (Appliance.cfg self);
  ready_room :
    (inject_Z (Appliance.func_cycle (Appliance.cfg self))
     <= (99 # 100)
        * inject_Z (narrowed (Appliance.window_1 (Appliance.win self))
                      (Appliance.random_var_1 (Appliance.win self))
                    + narrowed (Appliance.window_2 (Appliance.win self))
                        (Appliance.random_var_2 (Appliance.win self))
                    + narrowed (Appliance.window_3 (Appliance.win self))
                        (Appliance.random_var_3 (Appliance.win self))))%Q
}.

(** A free spot lies within one of the windows [ws]. *)
Definition spot_within (ws : list (Z * Z)) (sp : slice) : Prop :=
  exists w, In w ws /\ fst w <= start sp /\ stop sp <= snd w.

Definition spots_within (ws : list (Z * Z)) (self : Appliance.t) : Prop :=
  Forall (spot_within ws) (Appliance.free_spots (Appliance.run self)).

(** A switch-on event: [n > 0] consecutive minutes from [a] on, all of
    one of the windows [ws]. *)
Definition event_within (ws : list (Z * Z)) (e : list Z) : Prop :=
  exists a n w,
    0 < n /\ e = Np.arange a (a + n) /\ In w ws /\ fst w <= a /\ a + n <= snd w.

(** The minutes of use that a list of events adds up to. *)
Definition total_length (evs : list (list Z)) : Z :=
  fold_right (fun e acc => Py.len e + acc) 0 evs.

(** The state of an appliance in the loop of a day: the free spots lie
    within the windows [ws] and the profile has 1440 cells. *)
Definition day_state (ws : list (Z * Z)) (self : Appliance.t) : Prop :=
  spots_within ws self
  /\ exists d, Appliance.daily_use (Appliance.run self) = Some d
               /\ List.length d = 1440%nat.

(** One call of [Appliance.generate_load_profile] by the loops of a use
    case: the appliance as the call finds it, the appliance as the call
    leaves it, and the log of the run ([None] for a skipped run). *)
Record app_run : Type := {
  run_in : Appliance.t;
  run_out : Appliance.t;
  run_log : option Appliance.day_log
}.

(** The sum at the minute [t] of the profiles that the calls left. *)
Definition sum_runs (runs : list app_run) (t : Z) : Q :=
  fold_right (fun r acc => (daily_at (run_out r) t + acc)%Q) 0%Q runs.

(** The sentinels of the calls [runs] are terms of [sum_runs]: for a
    call of [runs] on an appliance that is not flat, at a minute of a
    randomised window of its log that no event of the log holds,
    [sum_runs] is 0.001 plus the sum over the other calls. *)
Definition sentinels_kept (runs : list app_run) : Prop :=
  forall r log t,
    In r runs ->
    Appliance.flat (Appliance.cfg (run_in r)) <> "yes"%string ->
    run_log r = Some log ->
    0 <= t < 1440 ->
    existsb (fun rw => Appliance.in_window rw t) (Appliance.rand_windows log) = true ->
    (forall e, In e (Appliance.events log) -> ~ In t e) ->
    exists before after,
      runs = before ++ r :: after
      /\ (sum_runs runs t == (1 # 1000) + sum_runs (before ++ after) t)%Q.

Section Runs.

Context {U : Utils}.

(** The call [r] is a call of [generate_load_profile] on [run_in r] at
    the power of some day, which returned [run_out r] and [run_log r]. *)
Definition genuine_run (peak_time_range : list Z) (day_type : day_arg) (r : app_run) : Prop :=
  exists user_preference prof_i power s s',
    Py.getitem (Appliance.power (run_in r)) prof_i = Ok power
    /\ Appliance.generate_load_profile (run_in r) user_preference prof_i peak_time_range
         day_type power s = Ok ((run_out r, run_log r), s').

(** The calls of the loop over the appliances of one member, in the
    order of [App_list]: each appliance is run at [power[prof_i]], from
    the state in which the call before it left the generator. *)
Inductive apps_ran (user_preference prof_i : Z) (peak_time_range : list Z)
    (day_type : day_arg)
    : list Appliance.t -> Random.state -> list app_run -> Random.state -> Prop :=
| apps_ran_nil : forall s,
    apps_ran user_preference prof_i peak_time_range day_type [] s [] s
| apps_ran_cons : forall App apps power s App' olog s1 runs s2,
    Py.getitem (Appliance.power App) prof_i = Ok power ->
    Appliance.generate_load_profile App user_preference prof_i peak_time_range day_type
      power s = Ok ((App', olog), s1) ->
    apps_ran user_preference prof_i peak_time_range day_type apps s1 runs s2 ->
    apps_ran user_preference prof_i peak_time_range day_type (App :: apps) s
      ({| run_in := App; run_out := App'; run_log := olog |} :: runs) s2.

(** The calls for the [n] members of a user category, one list of calls
    for each member: a member runs the appliances as the member before
    left them. *)
Inductive members_ran (prof_i : Z) (peak_time_range : list Z) (day_type : day_arg)
    : nat -> User.t -> Random.state -> list (list app_run) -> User.t -> Random.state
      -> Prop :=
| members_ran_O : forall self s,
    members_ran prof_i peak_time_range day_type O self s [] self s
| members_ran_S : forall n self s runs s1 members self' s',
    apps_ran (User.user_preference self) prof_i peak_time_range day_type
      (User.App_list self) s runs s1 ->
    members_ran prof_i peak_time_range day_type n
      (User.set_App_list self (map run_out runs)) s1 members self' s' ->
    members_ran prof_i peak_time_range day_type (S n) self s (runs :: members) self' s'.

(** The calls for the user categories of a use case on one day, one list
    of members for each category. A category is left with the appliances
    of its last member and with its load of the day in [load]. *)
Inductive users_ran (prof_i : Z) (peak_time_range : list Z) (day_types : day_arg)
    : list User.t -> Random.state -> list (list (list app_run)) -> list User.t
      -> Random.state -> Prop :=
| users_ran_nil : forall s,
    users_ran prof_i peak_time_range day_types [] s [] [] s
| users_ran_cons : forall user us s members user1 s1 load day us' s2,
    members_ran prof_i peak_time_range day_types (Z.to_nat (User.num_users user))
      user s members user1 s1 ->
    List.length load = 1440%nat ->
    (forall t, 0 <= t < 1440 -> (Np.get load t == sum_runs (concat members) t)%Q) ->
    users_ran prof_i peak_time_range day_types us s1 day us' s2 ->
    users_ran prof_i peak_time_range day_types (user :: us) s (members :: day)
      (User.set_load user1 load :: us') s2.

(** The calls of the days [days] of a use case, one list of categories
    for each day: a day runs the users as the day before left them. *)
Inductive days_ran (peak_time_range : list Z) (day_types : day_arg)
    : list Z -> list User.t -> Random.state -> list (list (list (list app_run)))
      -> list User.t -> Random.state -> Prop :=
| days_ran_nil : forall us s,
    days_ran peak_time_range day_types [] us s [] us s
| days_ran_cons : forall prof_i days us s day us1 s1 traces us' s',
    users_ran prof_i peak_time_range day_types us s day us1 s1 ->
    days_ran peak_time_range day_types days us1 s1 traces us' s' ->
    days_ran peak_time_range day_types (prof_i :: days) us s (day :: traces) us' s'.

End Runs.

(* ===================================================================== *)
(** * Lemmas on the Python and numpy layer                                *)
(* ===================================================================== *)

Lemma bind_Ok {A B : Type} (r : result A) (k : A -> result B) (b : B) :
  Py.bind r k = Ok b -> exists a, r = Ok a /\ k a = Ok b.
Proof.
  destruct r as [a | e]; simpl; intros H; [eauto | discriminate].
Qed.

Lemma rbind_Ok {A B : Type} (m : Random.M A) (k : A -> Random.M B) s b s' :
  Random.bind m k s = Ok (b, s') ->
  exists a s1, m s = Ok (a, s1) /\ k a s1 = Ok (b, s').
Proof.
  unfold Random.bind. destruct (m s) as [[a s1] | e]; intros H; [eauto | discriminate].
Qed.

Lemma rlift_Ok {A : Type} (r : result A) s a s' :
  Random.lift r s = Ok (a, s') -> r = Ok a /\ s' = s.
Proof.
  unfold Random.lift. destruct r; intros H; inversion H; auto.
Qed.

Lemma rret_Ok {A : Type} (x : A) s a s' :
  Random.ret x s = Ok (a, s') -> a = x /\ s' = s.
Proof.
  unfold Random.ret. intros H; inversion H; auto.
Qed.

Lemma fill_from_length t a lo hi v :
  List.length (Np.fill_from t a lo hi v) = List.length a.
Proof.
  revert t; induction a as [| x a IH]; intros t; simpl; [reflexivity | now rewrite IH].
Qed.

Lemma fill_from_nth a : forall t n lo hi v,
  (n < List.length a)%nat ->
  nth n (Np.fill_from t a lo hi v) 0%Q
  = if (lo <=? t + Z.of_nat n) && (t + Z.of_nat n <? hi) then v else nth n a 0%Q.
Proof.
  induction a as [| x a IH]; intros t n lo hi v Hn; simpl in Hn; [lia |].
  destruct n as [| n]; simpl Np.fill_from; cbn [nth].
  - now rewrite Z.add_0_r.
  - rewrite IH by lia. now replace (t + 1 + Z.of_nat n) with (t + Z.of_nat (S n)) by lia.
Qed.

(** What [a[w0:w1] = np.full(..)] writes when the window lies in the
    array. *)
Lemma assign_full_spec a w v a' :
  Np.assign_full a w v = Ok a' ->
  0 <= fst w -> snd w <= Py.len a ->
  List.length a' = List.length a
  /\ fst w <= snd w
  /\ forall t, 0 <= t < Py.len a ->
       Np.get a' t = if Appliance.in_window w t then v else Np.get a t.
Proof.
  unfold Np.assign_full, Py.len. intros H Hlo Hhi.
  destruct (snd w - fst w <? 0) eqn:Hn; [discriminate |].
  apply Z.ltb_ge in Hn.
  assert (E1 : Np.clip_bound (Z.of_nat (List.length a)) (fst w) = fst w).
  { unfold Np.clip_bound. destruct (fst w <? 0) eqn:E; [apply Z.ltb_lt in E; lia | lia]. }
  assert (E2 : Np.clip_bound (Z.of_nat (List.length a)) (snd w) = snd w).
  { unfold Np.clip_bound. destruct (snd w <? 0) eqn:E; [apply Z.ltb_lt in E; lia | lia]. }
  rewrite E1, E2 in H.
  destruct ((snd w - fst w =? Z.max 0 (snd w - fst w)) || (snd w - fst w =? 1));
    [| discriminate].
  inversion H; subst a'; clear H.
  split; [apply fill_from_length |]. split; [lia |].
  intros t Ht. unfold Np.get, Appliance.in_window.
  rewrite fill_from_nth by lia.
  now rewrite Z.add_0_l, Z2Nat.id by lia.
Qed.

(** A well-formed window is always assigned. *)
Lemma assign_full_total a w v :
  0 <= fst w <= snd w -> snd w <= Py.len a ->
  exists a', Np.assign_full a w v = Ok a'.
Proof.
  unfold Np.assign_full, Py.len, Np.clip_bound. intros H1 H2.
  destruct (snd w - fst w <? 0) eqn:Hn; [apply Z.ltb_lt in Hn; lia |].
  destruct (fst w <? 0) eqn:E; [apply Z.ltb_lt in E; lia |].
  destruct (snd w <? 0) eqn:E'; [apply Z.ltb_lt in E'; lia |].
  rewrite !Z.min_l by lia.
  rewrite Z.max_r by lia. rewrite Z.eqb_refl. simpl. eauto.
Qed.

Lemma zeros_length n : List.length (Np.zeros n) = n.
Proof. apply repeat_length. Qed.

Lemma zeros_get n t : Np.get (Np.zeros n) t = 0%Q.
Proof.
  unfold Np.get, Np.zeros.
  destruct (Nat.lt_ge_cases (Z.to_nat t) n) as [H | H].
  - now rewrite nth_repeat_lt.
  - now rewrite nth_overflow by (rewrite repeat_length; lia).
Qed.

Lemma scale_length a x : List.length (Np.scale a x) = List.length a.
Proof. apply length_map. Qed.

Lemma scale_get a x t :
  0 <= t < Py.len a -> Np.get (Np.scale a x) t = (Np.get a t * x)%Q.
Proof.
  unfold Np.get, Np.scale, Py.len. intros H.
  rewrite (nth_indep _ 0%Q (0 * x)%Q) by (rewrite length_map; lia).
  now rewrite (map_nth (fun v => (v * x)%Q)).
Qed.

(* ===================================================================== *)
(** * Theoretical maximum profile of an appliance                         *)
(* ===================================================================== *)

(** What [windows] leaves in the appliance. *)
Lemma windows_Ok self w1 w2 rvw w3 self' :
  Appliance.windows self w1 w2 rvw w3 = Ok self' ->
  exists d1 d2 d3,
    Np.assign_full (Np.zeros 1440) (Appliance.window_1 (Appliance.win self')) (1 # 1000) = Ok d1
    /\ Np.assign_full d1 (Appliance.window_2 (Appliance.win self')) (1 # 1000) = Ok d2
    /\ Np.assign_full d2 (Appliance.window_3 (Appliance.win self')) (1 # 1000) = Ok d3
    /\ Appliance.daily_use (Appliance.run self') = Some d3
    /\ Appliance.power self' = Appliance.power self
    /\ Appliance.cfg self' = Appliance.cfg self.
Proof.
  unfold Appliance.windows. intros H.
  apply bind_Ok in H as (win2 & _ & H).
  apply bind_Ok in H as (win3 & _ & H).
  apply bind_Ok in H as (wt & _ & H).
  destruct (wt <? Appliance.func_time (Appliance.cfg self)); [discriminate |].
  apply bind_Ok in H as (d1 & H1 & H).
  apply bind_Ok in H as (d2 & H2 & H).
  apply bind_Ok in H as (d3 & H3 & H).
  exists d1, d2, d3.
  destruct (Appliance.fixed_cycle (Appliance.cfg self) =? 1);
    inversion H; subst self'; simpl; auto 10.
Qed.

(** C1, as the code has it: after [windows], on windows of the data
    model, the maximum profile of an appliance has 1440 cells; a minute
    of one of the three windows holds [0.001 * mean(power) * number], the
    window mask times the mean power times the number of copies, and
    every other minute holds zero. *)
Theorem maximum_profile_is_scaled_window_mask :
  forall self w1 w2 rvw w3 self',
    Appliance.windows self w1 w2 rvw w3 = Ok self' ->
    valid_window (Appliance.window_1 (Appliance.win self')) ->
    valid_window (Appliance.window_2 (Appliance.win self')) ->
    valid_window (Appliance.window_3 (Appliance.win self')) ->
    exists prof,
      Appliance.maximum_profile self' = Ok prof
      /\ List.length prof = 1440%nat
      /\ forall t, 0 <= t < 1440 ->
           (Np.get prof t ==
            if Appliance.in_windows self' t
            then (1 # 1000) * Np.mean (Appliance.power self')
                 * inject_Z (Appliance.number (Appliance.cfg self'))
            else 0)%Q.
Proof.
  intros self w1 w2 rvw w3 self' H V1 V2 V3.
  destruct (windows_Ok _ _ _ _ _ _ H) as (d1 & d2 & d3 & H1 & H2 & H3 & Hd & _ & _).
  unfold valid_window in V1, V2, V3.
  apply assign_full_spec in H1 as (L1 & _ & G1);
    [| lia | unfold Py.len; rewrite zeros_length; lia].
  apply assign_full_spec in H2 as (L2 & _ & G2);
    [| lia | unfold Py.len; rewrite L1, zeros_length; lia].
  apply assign_full_spec in H3 as (L3 & _ & G3);
    [| lia | unfold Py.len; rewrite L2, L1, zeros_length; lia].
  rewrite zeros_length in L1.
  unfold Appliance.maximum_profile. rewrite Hd.
  eexists; split; [reflexivity |]. split.
  - rewrite !scale_length. congruence.
  - intros t Ht.
    rewrite scale_get by (unfold Py.len; rewrite scale_length; lia).
    rewrite scale_get by (unfold Py.len; lia).
    rewrite G3 by (unfold Py.len; lia).
    rewrite G2 by (unfold Py.len; lia).
    rewrite G1 by (unfold Py.len; rewrite zeros_length; lia).
    rewrite zeros_get. unfold Appliance.in_windows.
    destruct (Appliance.in_window (Appliance.window_3 (Appliance.win self')) t);
      destruct (Appliance.in_window (Appliance.window_2 (Appliance.win self')) t);
      destruct (Appliance.in_window (Appliance.window_1 (Appliance.win self')) t);
      simpl; try reflexivity; ring.
Qed.

(** The theorem at the lamps of scenario S1. *)
Lemma maximum_profile_is_scaled_window_mask_witness :
  exists self' prof,
    Appliance.windows Examples.new_lamp (Some (480, 600)) None 0 None = Ok self'
    /\ Appliance.maximum_profile self' = Ok prof
    /\ (Np.get prof 500 == 1 # 5)%Q
    /\ (Np.get prof 700 == 0)%Q.
Proof.
  destruct (Appliance.windows Examples.new_lamp (Some (480, 600)) None 0 None)
    as [self' | e] eqn:E; [| vm_compute in E; discriminate].
  destruct (maximum_profile_is_scaled_window_mask _ _ _ _ _ _ E) as (prof & Hp & _ & Hv).
  - vm_compute in E. inversion E. unfold valid_window. simpl. lia.
  - vm_compute in E. inversion E. unfold valid_window. simpl. lia.
  - vm_compute in E. inversion E. unfold valid_window. simpl. lia.
  - exists self', prof. split; [reflexivity |]. split; [exact Hp |]. split.
    + rewrite (Hv 500) by lia. vm_compute in E. inversion E. vm_compute. reflexivity.
    + rewrite (Hv 700) by lia. vm_compute in E. inversion E. vm_compute. reflexivity.
Defined.

(** C1 as the specification states it fails: at 08:00 the two lamps of
    100 W hold [0.2] in their maximum profile, not
    [mean(power) * number = 200]. *)
Lemma maximum_profile_not_mean_power_times_number :
  exists self' prof,
    Appliance.windows Examples.new_lamp (Some (480, 600)) None 0 None = Ok self'
    /\ Appliance.maximum_profile self' = Ok prof
    /\ Appliance.in_windows self' 480 = true
    /\ (Np.mean (Appliance.power self')
        * inject_Z (Appliance.number (Appliance.cfg self')) == 200)%Q
    /\ (Np.get prof 480 == 1 # 5)%Q
    /\ ~ (Np.get prof 480 ==
          Np.mean (Appliance.power self')
          * inject_Z (Appliance.number (Appliance.cfg self')))%Q.
Proof.
  eexists; eexists.
  split; [vm_compute; reflexivity |].
  split; [vm_compute; reflexivity |].
  split; [vm_compute; reflexivity |].
  split; [vm_compute; reflexivity |].
  split; [vm_compute; reflexivity |].
  vm_compute. discriminate.
Qed.

(* ===================================================================== *)
(** * The power series of an appliance                                    *)
(* ===================================================================== *)

(** C2, as the code has it: the constructor accepts a number, which it
    broadcasts to 366 days; a table of shape (365, 1), of which it keeps
    the 365 cells of the column; and a JSON text, of which it keeps the
    first column of the decoded table whatever its length. It rejects a
    table of any other shape and every other value, a plain sequence of
    numbers included. *)
Theorem init_power_accepts :
  forall (read_json : string -> result Np.DataFrame) (c : Appliance.config),
    (forall x, exists a,
        Appliance.__init__ read_json c (Appliance.PowerNumber x) = Ok a
        /\ List.length (Appliance.power a) = 366%nat
        /\ Forall (fun v => v == x)%Q (Appliance.power a))
    /\ (forall df, Np.frame_wf df -> Np.shape df = (365%nat, 1%nat) ->
        exists a,
          Appliance.__init__ read_json c (Appliance.PowerFrame df) = Ok a
          /\ Np.columns df = [Appliance.power a]
          /\ List.length (Appliance.power a) = 365%nat)
    /\ (forall df, Np.shape df <> (365%nat, 1%nat) ->
        Appliance.__init__ read_json c (Appliance.PowerFrame df)
        = Raise (ValueError "wrong size of array. array size should be (365,1)."))
    /\ (forall s df col rest, read_json s = Ok df -> Np.columns df = col :: rest ->
        exists a,
          Appliance.__init__ read_json c (Appliance.PowerStr s) = Ok a
          /\ Appliance.power a = col)
    /\ (forall l,
        Appliance.__init__ read_json c (Appliance.PowerOther l)
        = Raise (ValueError "wrong data type for power.")).
Proof.
  intros read_json c. repeat split.
  - intros x. eexists. split; [reflexivity |]. cbn [Appliance.power]. split.
    + unfold Np.ones. now rewrite length_map, repeat_length.
    + apply Forall_forall. intros v Hv. apply in_map_iff in Hv as (one & <- & Hone).
      apply repeat_spec in Hone. subst one. ring.
  - intros df Hwf Hs. unfold Np.shape in Hs. inversion Hs as [[Hr Hc]].
    unfold Np.frame_wf in Hwf.
    destruct (Np.columns df) as [| col [| col' rest]] eqn:Hcols; simpl in Hc; try discriminate.
    unfold Appliance.__init__, Appliance.init_power, Np.shape, Np.values_col0.
    rewrite Hcols, Hr. simpl. eexists. split; [reflexivity |]. simpl. split; [reflexivity |].
    inversion Hwf; subst. congruence.
  - intros df Hs. unfold Appliance.__init__, Appliance.init_power.
    destruct (Nat.eqb (fst (Np.shape df)) 365 && Nat.eqb (snd (Np.shape df)) 1)%bool eqn:E;
      [| reflexivity].
    apply andb_true_iff in E as [E1 E2].
    apply Nat.eqb_eq in E1. apply Nat.eqb_eq in E2.
    destruct (Np.shape df) as [r k]. simpl in E1, E2. subst. now contradiction Hs.
  - intros s df col rest Hj Hcols. unfold Appliance.__init__, Appliance.init_power.
    rewrite Hj. simpl. unfold Np.values_col0. rewrite Hcols. simpl. eauto.
Qed.

(** The theorem at a table of 365 rows. *)
Lemma init_power_accepts_witness :
  exists a,
    Appliance.__init__ Examples.no_json Examples.lamp_config
      (Appliance.PowerFrame Examples.frame_365) = Ok a
    /\ Np.columns Examples.frame_365 = [Appliance.power a]
    /\ List.length (Appliance.power a) = 365%nat.
Proof.
  destruct (init_power_accepts Examples.no_json Examples.lamp_config)
    as (_ & H & _).
  apply (H Examples.frame_365).
  - repeat constructor.
  - reflexivity.
Defined.

(** C2 as the specification states it fails: a sequence of 366 numbers
    is rejected, as a list and as a table, and the series kept from the
    table the constructor does accept has 365 cells, not 366. *)
Lemma init_power_rejects_366 :
  Appliance.__init__ Examples.no_json Examples.lamp_config
    (Appliance.PowerOther (repeat (100 # 1) 366))
  = Raise (ValueError "wrong data type for power.")
  /\ Appliance.__init__ Examples.no_json Examples.lamp_config
       (Appliance.PowerFrame Examples.frame_366)
     = Raise (ValueError "wrong size of array. array size should be (365,1).")
  /\ exists a,
       Appliance.__init__ Examples.no_json Examples.lamp_config
         (Appliance.PowerFrame Examples.frame_365) = Ok a
       /\ List.length (Appliance.power a) <> 366%nat.
Proof.
  split; [reflexivity |]. split; [reflexivity |].
  eexists. split; [reflexivity |]. vm_compute. discriminate.
Qed.

(* ===================================================================== *)
(** * Lemmas on indexing and ranges                                       *)
(* ===================================================================== *)

Lemma getitem_first {A : Type} (x : A) l : Py.getitem (x :: l) 0 = Ok x.
Proof. reflexivity. Qed.

Lemma getitem_nonneg {A : Type} (l : list A) i :
  0 <= i < Py.len l -> exists x, Py.getitem l i = Ok x /\ nth_error l (Z.to_nat i) = Some x.
Proof.
  unfold Py.getitem, Py.len. intros H.
  destruct (i <? 0) eqn:E; [apply Z.ltb_lt in E; lia |].
  destruct (nth_error l (Z.to_nat i)) as [x |] eqn:En.
  - exists x. destruct (0 <=? i) eqn:E0; [auto | apply Z.leb_gt in E0; lia].
  - apply nth_error_None in En. lia.
Qed.

Lemma getitem_last {A : Type} (l : list A) :
  l <> [] ->
  exists x, Py.getitem l (-1) = Ok x
            /\ nth_error l (List.length l - 1) = Some x.
Proof.
  unfold Py.getitem, Py.len. intros H. change (-1 <? 0) with true. cbv iota.
  assert (Hl : (0 < List.length l)%nat) by (destruct l; [congruence | simpl; lia]).
  replace (Z.to_nat (-1 + Z.of_nat (List.length l))) with (List.length l - 1)%nat by lia.
  destruct (nth_error l (List.length l - 1)) as [x |] eqn:En.
  - exists x. destruct (0 <=? -1 + Z.of_nat (List.length l)) eqn:E0;
      [auto | apply Z.leb_gt in E0; lia].
  - apply nth_error_None in En. lia.
Qed.

Lemma getitem_Ok_In {A : Type} (l : list A) i x : Py.getitem l i = Ok x -> In x l.
Proof.
  unfold Py.getitem.
  destruct (nth_error l _) as [y |] eqn:En; [| discriminate].
  destruct (0 <=? _); [| discriminate].
  intros H; inversion H; subst. eapply nth_error_In; eauto.
Qed.

Lemma getitem_Ok_nonempty {A : Type} (l : list A) i x : Py.getitem l i = Ok x -> 0 < Py.len l.
Proof.
  intros H. apply getitem_Ok_In in H. unfold Py.len. destruct l; [contradiction | simpl; lia].
Qed.

Lemma round_nonneg x : (0 <= x)%Q -> 0 <= Py.round x.
Proof.
  intros H. unfold Py.round.
  assert (0 <= Qfloor x) by (rewrite <- (Qfloor_Z 0); now apply Qfloor_resp_le).
  destruct (Qcompare _ _); [destruct (Z.even _) | |]; lia.
Qed.

Lemma range_length a b : List.length (Py.range a b) = Z.to_nat (b - a).
Proof. unfold Py.range. now rewrite length_map, length_seq. Qed.

Lemma range_In a b x : In x (Py.range a b) <-> a <= x < b.
Proof.
  unfold Py.range. rewrite in_map_iff. split.
  - intros (k & <- & Hk). apply in_seq in Hk. lia.
  - intros H. exists (Z.to_nat (x - a)). split; [lia |]. apply in_seq. lia.
Qed.

Lemma range_nth_error a b k :
  (k < Z.to_nat (b - a))%nat -> nth_error (Py.range a b) k = Some (a + Z.of_nat k).
Proof.
  intros H. unfold Py.range. rewrite nth_error_map, nth_error_seq.
  destruct (Nat.ltb_spec k (Z.to_nat (b - a))); [reflexivity | lia].
Qed.

Lemma arange_first a b : a < b -> Py.getitem (Np.arange a b) 0 = Ok a.
Proof.
  intros H. destruct (getitem_nonneg (Np.arange a b) 0) as (x & Hx & Hn).
  - unfold Py.len, Np.arange. rewrite range_length. lia.
  - unfold Np.arange in Hn. rewrite range_nth_error in Hn by lia.
    rewrite Hx. inversion Hn. f_equal. simpl. lia.
Qed.

Lemma arange_last a b : a < b -> Py.getitem (Np.arange a b) (-1) = Ok (b - 1).
Proof.
  intros H. destruct (getitem_last (Np.arange a b)) as (x & Hx & Hn).
  - intros E. apply (f_equal (@List.length Z)) in E. unfold Np.arange in E.
    rewrite range_length in E. simpl in E. lia.
  - unfold Np.arange in Hn. rewrite range_length in Hn. rewrite range_nth_error in Hn by lia.
    rewrite Hx. inversion Hn. f_equal. lia.
Qed.

(* ===================================================================== *)
(** * The peak time range                                                 *)
(* ===================================================================== *)

(** When the total maximum profile has its maximum at one minute only,
    [calc_peak_time_range] raises [IndexError] before it draws
    anything. *)
Lemma calc_peak_time_range_single_argmax user_list peak_enlarge tot m s :
  StochasticProcess.total_maximum_profile user_list (Np.zeros 1440) = Ok tot ->
  StochasticProcess.argwhere tot (StochasticProcess.amax tot) = [m] ->
  StochasticProcess.calc_peak_time_range user_list peak_enlarge s
  = Raise (IndexError "too many indices for array: array is 0-dimensional, but 1 were indexed").
Proof.
  intros Ht Ha. unfold StochasticProcess.calc_peak_time_range, Random.bind.
  rewrite Ht. simpl. unfold StochasticProcess.peak_window_of. rewrite Ha. reflexivity.
Qed.

(** When the peak window has two minutes or more, the range returned is
    [arange(peak_time - e, peak_time + e)] for the two rounded draws. *)
Lemma calc_peak_time_range_two_or_more user_list peak_enlarge tot m1 m2 w s :
  StochasticProcess.total_maximum_profile user_list (Np.zeros 1440) = Ok tot ->
  StochasticProcess.argwhere tot (StochasticProcess.amax tot) = m1 :: m2 :: w ->
  exists peak_time e s',
    StochasticProcess.calc_peak_time_range user_list peak_enlarge s
    = Ok (Np.arange (peak_time - e) (peak_time + e), s')
    /\ 0 <= e.
Proof.
  intros Ht Ha. unfold StochasticProcess.calc_peak_time_range, Random.bind.
  rewrite Ht. simpl Random.lift. unfold StochasticProcess.peak_window_of. rewrite Ha.
  cbn [StochasticProcess.squeeze StochasticProcess.nd_getitem].
  destruct (getitem_last (m1 :: m2 :: w)) as (l & El & _); [discriminate |].
  rewrite El, getitem_first.
  unfold Random.normalvariate, Random.gauss, Random.ret.
  do 3 eexists. split; [reflexivity |].
  apply round_nonneg, Qabs_nonneg.
Qed.

(** C3, the failing input: a household with two kettles, one that may
    run in [480, 541) and one that may run in [540, 600). Each kettle
    yields a daily profile, but the two windows share minute 540 only:
    the maximum of the community profile is at that minute alone, the
    peak window is a 0-d array, and [calc_peak_time_range] raises
    [IndexError] whatever the generator draws. *)
Theorem calc_peak_time_range_fails_on_one_minute_peak :
  forall peak_enlarge s,
  exists kettle1 kettle2 tot,
    Appliance.windows Examples.new_kettle (Some (480, 541)) None 0 None = Ok kettle1
    /\ Appliance.windows Examples.new_kettle (Some (540, 600)) None 0 None = Ok kettle2
    /\ (exists self1 log1 s1,
          Appliance.generate_load_profile (U := SpecUtils.utils (1 # 2) (1 # 2) (1 # 2))
            kettle1 0 0 [500; 501] (DayInt 0) 100 [] = Ok ((self1, Some log1), s1))
    /\ (exists self2 log2 s2,
          Appliance.generate_load_profile (U := SpecUtils.utils (1 # 2) (1 # 2) (1 # 2))
            kettle2 0 0 [500; 501] (DayInt 0) 100 [] = Ok ((self2, Some log2), s2))
    /\ StochasticProcess.total_maximum_profile [Examples.household [kettle1; kettle2]]
         (Np.zeros 1440) = Ok tot
    /\ StochasticProcess.peak_window_of tot = StochasticProcess.Arr0 540
    /\ StochasticProcess.calc_peak_time_range [Examples.household [kettle1; kettle2]]
         peak_enlarge s
       = Raise (IndexError "too many indices for array: array is 0-dimensional, but 1 were indexed").
Proof.
  intros peak_enlarge s.
  destruct (Appliance.windows Examples.new_kettle (Some (480, 541)) None 0 None)
    as [kettle1 |] eqn:E1; [| vm_compute in E1; discriminate].
  destruct (Appliance.windows Examples.new_kettle (Some (540, 600)) None 0 None)
    as [kettle2 |] eqn:E2; [| vm_compute in E2; discriminate].
  destruct (StochasticProcess.total_maximum_profile [Examples.household [kettle1; kettle2]]
              (Np.zeros 1440)) as [tot |] eqn:Et;
    [| vm_compute in E1; inversion E1; subst kettle1;
       vm_compute in E2; inversion E2; subst kettle2; vm_compute in Et; discriminate].
  assert (Ha : StochasticProcess.argwhere tot (StochasticProcess.amax tot) = [540]).
  { vm_compute in E1. inversion E1; subst kettle1.
    vm_compute in E2. inversion E2; subst kettle2.
    vm_compute in Et. inversion Et; subst tot. vm_compute. reflexivity. }
  exists kettle1, kettle2, tot. split; [reflexivity |]. split; [reflexivity |].
  split.
  { vm_compute in E1. inversion E1; subst kettle1. do 3 eexists. vm_compute. reflexivity. }
  split.
  { vm_compute in E2. inversion E2; subst kettle2. do 3 eexists. vm_compute. reflexivity. }
  split; [exact Et |]. split.
  { unfold StochasticProcess.peak_window_of. now rewrite Ha. }
  eapply calc_peak_time_range_single_argmax; eauto.
Qed.

(** An empty peak time range is not tolerated either: the first
    switch-on event of a day reads [peak_time_range[0]]. *)
Lemma switch_on_event_empty_peak_range {U : Utils} self power i indexes s :
  Appliance.switch_on_event self power [] (i :: indexes) s
  = Raise (IndexError "index out of range").
Proof.
  unfold Appliance.switch_on_event, Random.bind, Random.lift.
  rewrite getitem_first.
  destruct (getitem_last (i :: indexes)) as (l & El & _); [discriminate |].
  rewrite El. reflexivity.
Qed.

(* ===================================================================== *)
(** * The free spots                                                      *)
(* ===================================================================== *)

(** Removing from a spot an interval that ends where the spot ends
    leaves the empty spot [slice(stop, stop)] in the list: the code
    compares the last minute of the interval, which is inclusive, with
    the exclusive [stop]. *)
Lemma update_leaves_empty_spot a b self :
  a < b ->
  Appliance.free_spots (Appliance.run self) = [{| start := a; stop := b |}] ->
  exists self',
    Appliance.update_available_time_for_switch_on_events self (Np.arange a b) = Ok self'
    /\ Appliance.free_spots (Appliance.run self') = [{| start := b; stop := b |}].
Proof.
  intros Hab Hfs. unfold Appliance.update_available_time_for_switch_on_events.
  rewrite Hfs.
  rewrite (arange_first a b Hab), (arange_last a b Hab). simpl Py.bind.
  cbn [Appliance.find_spot_to_split start stop].
  replace (a >=? a) with true by (symmetry; apply Z.geb_le; lia).
  replace (b - 1 <=? b) with true by (symmetry; apply Z.leb_le; lia).
  cbn [andb nth start stop].
  rewrite Z.eqb_refl.
  replace (b - 1 =? b) with false by (symmetry; apply Z.eqb_neq; lia).
  cbn [andb]. eexists. split; [reflexivity |].
  simpl. replace (b - 1 + 1) with b by lia. reflexivity.
Qed.

(** C4, the failing inputs. (1) The free spot [10, 20) and the event that
    takes all its minutes: the empty spot [20, 20) is left in the list.
    (2) The same spot and the event of its last minute, 19: the spot is
    split into [10, 19) and the empty [20, 20). (3) The adjacent free
    spots [10, 20) and [20, 30) and the event of minute 20: the search
    stops at the first spot, which is put back, and minute 20 stays
    free. *)
Theorem update_available_time_off_by_one :
  (exists self',
      Appliance.update_available_time_for_switch_on_events
        (Examples.with_free_spots [{| start := 10; stop := 20 |}]) (Np.arange 10 20)
      = Ok self'
      /\ Appliance.free_spots (Appliance.run self') = [{| start := 20; stop := 20 |}])
  /\ (exists self',
      Appliance.update_available_time_for_switch_on_events
        (Examples.with_free_spots [{| start := 10; stop := 20 |}]) (Np.arange 19 20)
      = Ok self'
      /\ Appliance.free_spots (Appliance.run self')
         = [{| start := 10; stop := 19 |}; {| start := 20; stop := 20 |}])
  /\ (exists self',
      Appliance.update_available_time_for_switch_on_events
        (Examples.with_free_spots [{| start := 10; stop := 20 |}; {| start := 20; stop := 30 |}])
        (Np.arange 20 21)
      = Ok self'
      /\ Appliance.free_spots (Appliance.run self')
         = [{| start := 10; stop := 20 |}; {| start := 20; stop := 30 |}]).
Proof.
  split; [| split]; eexists; (split; [vm_compute; reflexivity | reflexivity]).
Qed.

(* ===================================================================== *)
(** * Lemmas on the generator                                             *)
(* ===================================================================== *)

Lemma random_spec s :
  exists u, Random.random s = Ok (u, snd (Random.next s)) /\ (0 <= u)%Q /\ (u < 1)%Q.
Proof.
  unfold Random.random. eexists. split; [reflexivity |].
  set (q := fst (Random.next s)).
  pose proof (Qfloor_le q) as Hl. pose proof (Qlt_floor q) as Hr.
  rewrite inject_Z_plus in Hr. change (inject_Z 1) with 1%Q in Hr. split; lra.
Qed.

Lemma uniform_spec a b s :
  exists x, Random.uniform a b s = Ok (x, snd (Random.next s))
            /\ ((a <= b)%Q -> (a <= x)%Q /\ (x <= b)%Q)
            /\ ((b <= a)%Q -> (b <= x)%Q /\ (x <= a)%Q).
Proof.
  destruct (random_spec s) as (u & Hu & H0 & H1).
  unfold Random.uniform, Random.bind. rewrite Hu. unfold Random.ret.
  eexists. split; [reflexivity |]. split; intros Hab; split; nra.
Qed.

Lemma randint_spec a b s :
  a <= b ->
  exists k, Random.randint a b s = Ok (k, snd (Random.next s)) /\ a <= k <= b.
Proof.
  intros Hab. destruct (random_spec s) as (u & Hu & H0 & H1).
  unfold Random.randint. destruct (b <? a) eqn:E; [apply Z.ltb_lt in E; lia |].
  unfold Random.bind. rewrite Hu. unfold Random.ret.
  eexists. split; [reflexivity |].
  assert (Hn : (0 < inject_Z (b - a + 1))%Q).
  { replace 0%Q with (inject_Z 0) by reflexivity. rewrite <- Zlt_Qlt. lia. }
  assert (L : 0 <= Qfloor (u * inject_Z (b - a + 1))).
  { rewrite <- (Qfloor_Z 0). apply Qfloor_resp_le. change (inject_Z 0) with 0%Q. nra. }
  assert (R : Qfloor (u * inject_Z (b - a + 1)) < b - a + 1).
  { rewrite Zlt_Qlt. eapply Qle_lt_trans; [apply Qfloor_le |]. nra. }
  lia.
Qed.

Lemma randint_Ok a b s k s' :
  Random.randint a b s = Ok (k, s') -> a <= k <= b /\ s' = snd (Random.next s).
Proof.
  intros H. destruct (Z.le_gt_cases a b) as [Hab | Hab].
  - destruct (randint_spec a b s Hab) as (k' & Hk & Hr). rewrite Hk in H.
    inversion H; subst. auto.
  - unfold Random.randint in H. destruct (b <? a) eqn:E; [discriminate |].
    apply Z.ltb_ge in E. lia.
Qed.

(** [int(x)] of a float that lies between two integers lies between
    them. *)
Lemma int_between lo hi x :
  (inject_Z lo <= x)%Q -> (x <= inject_Z hi)%Q -> lo <= Py.int x <= hi.
Proof.
  intros Hlo Hhi. unfold Py.int. destruct (Qlt_le_dec x 0) as [Hx | Hx].
  - split.
    + rewrite <- (Qceiling_Z lo). now apply Qceiling_resp_le.
    + rewrite <- (Qceiling_Z hi). now apply Qceiling_resp_le.
  - split.
    + rewrite <- (Qfloor_Z lo). now apply Qfloor_resp_le.
    + rewrite <- (Qfloor_Z hi). now apply Qfloor_resp_le.
Qed.

(* ===================================================================== *)
(** * The coincidence rule                                                *)
(* ===================================================================== *)

Lemma fold_max_bounds lo hi i l :
  lo <= i <= hi -> Forall (fun x => lo <= x <= hi) l ->
  lo <= fold_right Z.max i l <= hi.
Proof.
  intros Hi Hl. induction Hl as [| x l Hx Hl IH]; simpl; [exact Hi | lia].
Qed.

(** C7: for an appliance with one copy or more, the coincidence is
    [number] when [fixed] is ['yes'], wherever the event lies and
    without any draw; in every branch it is an integer of
    [1 .. number], so it is 1 when [number] is 1. The bound on
    [op_factor] is not needed. *)
Theorem calc_coincident_switch_on_range :
  forall (U : Utils) self inside_peak_window s,
    1 <= Appliance.number (Appliance.cfg self) ->
    exists c s',
      Appliance.calc_coincident_switch_on self inside_peak_window s = Ok (c, s')
      /\ 1 <= c <= Appliance.number (Appliance.cfg self)
      /\ (Appliance.fixed (Appliance.cfg self) = "yes"%string ->
          c = Appliance.number (Appliance.cfg self) /\ s' = s)
      /\ (Appliance.number (Appliance.cfg self) = 1 -> c = 1).
Proof.
  intros U self inside s Hn. unfold Appliance.calc_coincident_switch_on.
  destruct switch_on_parameters as [[s_peak mu_peak] op_factor].
  set (n := Appliance.number (Appliance.cfg self)) in *.
  assert (Hyes : Appliance.fixed (Appliance.cfg self) = "yes"%string ->
                 String.eqb (Appliance.fixed (Appliance.cfg self)) "no" = false).
  { intros E. rewrite E. reflexivity. }
  destruct (String.eqb (Appliance.fixed (Appliance.cfg self)) "no") eqn:Ef.
  - (* fixed == 'no' *)
    assert (Hno : Appliance.fixed (Appliance.cfg self) <> "yes"%string).
    { intros E. apply Hyes in E. congruence. }
    destruct inside; cbn [andb negb].
    + unfold Random.bind, Random.gauss, Random.ret.
      do 2 eexists. split; [reflexivity |]. repeat split; try lia; tauto.
    + destruct (n =? 0) eqn:E0; [apply Z.eqb_eq in E0; lia |].
      destruct (uniform_spec 0 ((inject_Z n - op_factor) / inject_Z n) s) as (p & Hp & _).
      unfold Random.bind. rewrite Hp. unfold Random.ret.
      do 2 eexists. split; [reflexivity |].
      set (on := filter _ _).
      assert (Hon : Forall (fun x => 0 <= x <= n - 1) on).
      { apply Forall_forall. intros x Hx. subst on. apply filter_In in Hx as [Hx _].
        unfold Np.arange in Hx. apply range_In in Hx. lia. }
      assert (Hc : 1 <= match on with [] => 1 | i :: on' => fold_right Z.max i on' + 1 end <= n).
      { destruct on as [| i on']; [lia |].
        inversion Hon; subst.
        pose proof (fold_max_bounds 0 (n - 1) i on' ltac:(lia) ltac:(assumption)). lia. }
      repeat split; try lia; tauto.
  - (* fixed != 'no' *)
    rewrite !andb_false_r. unfold Random.ret.
    do 2 eexists. split; [reflexivity |]. repeat split; lia.
Qed.

(** The theorem at the two lamps of scenario S1, off peak. *)
Lemma calc_coincident_switch_on_range_witness :
  exists c s',
    Appliance.calc_coincident_switch_on (U := SpecUtils.utils (1 # 2) (1 # 2) (1 # 2))
      Examples.new_lamp false [1 # 3] = Ok (c, s')
    /\ 1 <= c <= 2.
Proof.
  destruct (calc_coincident_switch_on_range (SpecUtils.utils (1 # 2) (1 # 2) (1 # 2))
              Examples.new_lamp false [1 # 3]) as (c & s' & H & Hc & _).
  - simpl. lia.
  - exists c, s'. split; [exact H | exact Hc].
Defined.

(* ===================================================================== *)
(** * The choice of a switch-on window                                    *)
(* ===================================================================== *)

Lemma range_empty a b : b <= a -> Py.range a b = [].
Proof.
  intros H. unfold Py.range. replace (Z.to_nat (b - a)) with 0%nat by lia. reflexivity.
Qed.

(** The candidates are the minutes [s.start .. s.stop - func_cycle] of
    all the free spots, in the order of the spots. *)
Lemma indexes_choice_concat fs fc :
  Appliance.indexes_choice fs fc
  = flat_map (fun s => Py.range (start s) (stop s - fc + 1)) fs.
Proof.
  unfold Appliance.indexes_choice. induction fs as [| sp fs IH]; simpl; [reflexivity |].
  rewrite IH. f_equal.
  destruct (stop sp - start sp >=? fc) eqn:E; [reflexivity |].
  symmetry. apply range_empty.
  rewrite Z.geb_leb in E. apply Z.leb_gt in E. lia.
Qed.

Lemma indexes_choice_In fs fc x :
  In x (Appliance.indexes_choice fs fc)
  <-> exists sp, In sp fs /\ start sp <= x <= stop sp - fc.
Proof.
  rewrite indexes_choice_concat, in_flat_map. split.
  - intros (sp & Hsp & Hx). apply range_In in Hx. exists sp. split; [exact Hsp | lia].
  - intros (sp & Hsp & Hx). exists sp. split; [exact Hsp |]. apply range_In. lia.
Qed.

Lemma indexes_choice_nil fs fc :
  Appliance.indexes_choice fs fc = [] <-> forall sp, In sp fs -> stop sp - start sp < fc.
Proof.
  split.
  - intros E sp Hsp. destruct (Z.lt_ge_cases (stop sp - start sp) fc) as [H | H]; [exact H |].
    exfalso. assert (Hin : In (start sp) (Appliance.indexes_choice fs fc)).
    { apply indexes_choice_In. exists sp. split; [exact Hsp | lia]. }
    rewrite E in Hin. contradiction.
  - intros H. destruct (Appliance.indexes_choice fs fc) as [| x l] eqn:E; [reflexivity |].
    exfalso. assert (Hin : In x (Appliance.indexes_choice fs fc)) by (rewrite E; now left).
    apply indexes_choice_In in Hin as (sp & Hsp & Hx). specialize (H sp Hsp). lia.
Qed.

(** The search of [rand_switch_on_window] finds a spot when one holds
    the minute, and the spot it finds holds it. *)
Lemma find_switch_on_spot_Some fs : forall i0 x fc j,
  Appliance.find_switch_on_spot fs i0 x fc = Some j ->
  (i0 <= j)%nat /\ (j - i0 < List.length fs)%nat
  /\ forall d, let sp := nth (j - i0) fs d in
       In sp fs /\ start sp <= x <= stop sp - fc.
Proof.
  induction fs as [| sp fs IH]; intros i0 x fc j H; simpl in H; [discriminate |].
  destruct ((start sp <=? x) && (x <=? stop sp - fc)) eqn:E.
  - inversion H; subst j. replace (i0 - i0)%nat with 0%nat by lia. simpl.
    apply andb_true_iff in E as [E1 E2]. apply Z.leb_le in E1. apply Z.leb_le in E2.
    repeat split; try lia. now left.
  - apply IH in H as (H1 & H2 & H3).
    replace (j - i0)%nat with (S (j - S i0)) by lia. simpl.
    repeat split; try lia; destruct (H3 d) as (Ha & Hb); auto; lia.
Qed.

Lemma find_switch_on_spot_exists fs : forall i0 x fc,
  (exists sp, In sp fs /\ start sp <= x <= stop sp - fc) ->
  exists j, Appliance.find_switch_on_spot fs i0 x fc = Some j.
Proof.
  induction fs as [| sp fs IH]; intros i0 x fc (sp' & Hin & Hx); [contradiction |].
  simpl. destruct ((start sp <=? x) && (x <=? stop sp - fc)) eqn:E; [eauto |].
  destruct Hin as [-> | Hin].
  - apply andb_false_iff in E as [E | E]; apply Z.leb_gt in E; lia.
  - apply IH. eauto.
Qed.

(** The time of use that [rand_total_time_of_use] returns leaves room for
    a cycle. *)
Lemma rand_total_time_of_use_ge {U : Utils} self rw1 rw2 rw3 s0 rand_time s1 :
  Appliance.rand_total_time_of_use self rw1 rw2 rw3 s0 = Ok (rand_time, s1) ->
  Appliance.func_cycle (Appliance.cfg self) <= rand_time.
Proof.
  unfold Appliance.rand_total_time_of_use. intros H.
  apply rbind_Ok in H as (v & s2 & _ & H).
  apply rbind_Ok in H as (u & s3 & _ & H).
  cbv zeta in H.
  match type of H with
  | (if ?c then _ else _) _ = _ => destruct c eqn:E; [discriminate |]
  end.
  apply rret_Ok in H as [-> _]. now apply Z.ltb_ge in E.
Qed.

(** The switch-on window when a candidate exists and the time of use
    leaves room for a cycle. *)
Lemma rand_switch_on_window_Some self rand_time s :
  Appliance.func_cycle (Appliance.cfg self) <= rand_time ->
  Appliance.indexes_choice (Appliance.free_spots (Appliance.run self))
    (Appliance.func_cycle (Appliance.cfg self)) <> [] ->
  exists k switch_on L sp s',
    Appliance.rand_switch_on_window self rand_time s
    = Ok (Some (Np.arange switch_on (switch_on + L)), s')
    /\ Random.randint 0
         (Py.len (Appliance.indexes_choice (Appliance.free_spots (Appliance.run self))
                    (Appliance.func_cycle (Appliance.cfg self))) - 1) s
       = Ok (k, snd (Random.next s))
    /\ Py.getitem (Appliance.indexes_choice (Appliance.free_spots (Appliance.run self))
                     (Appliance.func_cycle (Appliance.cfg self))) k = Ok switch_on
    /\ In sp (Appliance.free_spots (Appliance.run self))
    /\ start sp <= switch_on
    /\ switch_on + L <= stop sp
    /\ Appliance.func_cycle (Appliance.cfg self) <= L
    /\ L <= Z.min rand_time (stop sp - switch_on).
Proof.
  intros Hrt Hne. unfold Appliance.rand_switch_on_window.
  set (fs := Appliance.free_spots (Appliance.run self)) in *.
  set (fc := Appliance.func_cycle (Appliance.cfg self)) in *.
  set (choice := Appliance.indexes_choice fs fc) in *.
  assert (Hlen : 0 < Py.len choice).
  { unfold Py.len. destruct choice; [congruence | simpl; lia]. }
  destruct (Py.len choice >? 0) eqn:E; [| rewrite Z.gtb_ltb in E; apply Z.ltb_ge in E; lia].
  destruct (randint_spec 0 (Py.len choice - 1) s ltac:(lia)) as (k & Hk & Hkr).
  destruct (getitem_nonneg choice k ltac:(lia)) as (switch_on & Hg & Hn).
  assert (Hin : In switch_on choice) by (eapply nth_error_In; eauto).
  apply indexes_choice_In in Hin.
  destruct (find_switch_on_spot_exists fs 0 switch_on fc Hin) as (j & Hj).
  destruct (find_switch_on_spot_Some fs 0 switch_on fc j Hj) as (_ & _ & Hsp).
  specialize (Hsp {| start := 0; stop := 0 |}). rewrite Nat.sub_0_r in Hsp.
  cbv zeta in Hsp. destruct Hsp as (Hsp_in & Hsp).
  set (sp := nth j fs {| start := 0; stop := 0 |}) in *.
  unfold Random.bind at 1. rewrite Hk.
  unfold Random.bind at 1. unfold Random.lift at 1. rewrite Hg.
  rewrite Hj. fold sp.
  set (largest := Z.min rand_time (stop sp - switch_on)).
  destruct (largest >? fc) eqn:Eg.
  - rewrite Z.gtb_ltb in Eg. apply Z.ltb_lt in Eg.
    destruct (uniform_spec (inject_Z fc) (inject_Z largest) (snd (Random.next s)))
      as (u & Hu & Hur & _).
    unfold Random.bind. rewrite Hu. unfold Random.ret.
    destruct Hur as [Hu1 Hu2]; [rewrite <- Zle_Qle; lia |].
    pose proof (int_between fc largest u Hu1 Hu2) as Hint.
    exists k, switch_on, (Py.int u), sp. eexists.
    split; [reflexivity |]. repeat split; auto; try lia.
  - rewrite Z.gtb_ltb in Eg. apply Z.ltb_ge in Eg.
    assert (Hl : largest = fc) by lia.
    destruct (largest =? fc) eqn:Ee; [| apply Z.eqb_neq in Ee; lia].
    unfold Random.ret.
    exists k, switch_on, largest, sp. eexists.
    split; [reflexivity |]. repeat split; auto; try lia.
Qed.

(** C5: with the time of use that [rand_total_time_of_use] returned,
    [rand_switch_on_window] returns [None] exactly when no free spot has
    [func_cycle] minutes. Otherwise it returns the minutes
    [switch_on .. switch_on + L - 1], where [switch_on] is the candidate
    at the position that [randint(0, n - 1)] draws in the concatenation
    of the ranges [s.start .. s.stop - func_cycle] of the free spots,
    the interval lies in one free spot, and
    [func_cycle <= L <= min(rand_time, stop - switch_on)]. *)
Theorem rand_switch_on_window_spec :
  forall (U : Utils) self rw1 rw2 rw3 s0 rand_time s1 s,
    Appliance.rand_total_time_of_use self rw1 rw2 rw3 s0 = Ok (rand_time, s1) ->
    let fs := Appliance.free_spots (Appliance.run self) in
    let fc := Appliance.func_cycle (Appliance.cfg self) in
    let candidates := flat_map (fun sp => Py.range (start sp) (stop sp - fc + 1)) fs in
    ((exists s', Appliance.rand_switch_on_window self rand_time s = Ok (None, s'))
     <-> (forall sp, In sp fs -> stop sp - start sp < fc))
    /\ ((exists sp, In sp fs /\ fc <= stop sp - start sp) ->
        exists k switch_on L sp s',
          Appliance.rand_switch_on_window self rand_time s
          = Ok (Some (Np.arange switch_on (switch_on + L)), s')
          /\ Random.randint 0 (Py.len candidates - 1) s = Ok (k, snd (Random.next s))
          /\ Py.getitem candidates k = Ok switch_on
          /\ In sp fs
          /\ start sp <= switch_on
          /\ switch_on + L <= stop sp
          /\ fc <= L
          /\ L <= Z.min rand_time (stop sp - switch_on)).
Proof.
  intros U self rw1 rw2 rw3 s0 rand_time s1 s Hrt fs fc candidates.
  apply rand_total_time_of_use_ge in Hrt. fold fc in Hrt.
  assert (Hc : candidates = Appliance.indexes_choice fs fc)
    by (symmetry; apply indexes_choice_concat).
  assert (Hsome : (exists sp, In sp fs /\ fc <= stop sp - start sp) ->
                  Appliance.indexes_choice fs fc <> []).
  { intros (sp & Hin & Hsp) E. rewrite indexes_choice_nil in E. specialize (E sp Hin). lia. }
  split; [split |].
  - intros (s' & Hnone) sp Hin.
    destruct (Z.lt_ge_cases (stop sp - start sp) fc) as [H | H]; [exact H |].
    exfalso. assert (Hne : Appliance.indexes_choice fs fc <> []) by (apply Hsome; eauto).
    destruct (rand_switch_on_window_Some self rand_time s Hrt Hne)
      as (k & sw & L & sp' & s'' & Hr & _).
    rewrite Hr in Hnone. discriminate.
  - intros Hall. exists s. unfold Appliance.rand_switch_on_window.
    fold fs. fold fc. apply indexes_choice_nil in Hall. rewrite Hall. reflexivity.
  - intros Hex. rewrite Hc. apply rand_switch_on_window_Some; auto.
Qed.

(** The theorem at a kettle with the free spot [480, 600), whose time of
    use is one minute. *)
Lemma rand_switch_on_window_spec_witness :
  Appliance.rand_total_time_of_use (U := SpecUtils.utils (1 # 2) (1 # 2) (1 # 2))
    (Examples.with_free_spots [{| start := 480; stop := 600 |}])
    (480, 600) (0, 0) (0, 0) [] = Ok (1, [])
  /\ exists switch_on L s',
       Appliance.rand_switch_on_window
         (Examples.with_free_spots [{| start := 480; stop := 600 |}]) 1 [1 # 2]
       = Ok (Some (Np.arange switch_on (switch_on + L)), s')
       /\ 480 <= switch_on /\ switch_on + L <= 600 /\ 1 <= L <= 1.
Proof.
  assert (H0 : Appliance.rand_total_time_of_use (U := SpecUtils.utils (1 # 2) (1 # 2) (1 # 2))
                 (Examples.with_free_spots [{| start := 480; stop := 600 |}])
                 (480, 600) (0, 0) (0, 0) [] = Ok (1, [])) by (vm_compute; reflexivity).
  split; [exact H0 |].
  destruct (rand_switch_on_window_spec _ _ _ _ _ _ _ _ [1 # 2] H0) as [_ H].
  destruct H as (k & switch_on & L & sp & s' & Hr & _ & _ & Hin & H1 & H2 & H3 & H4).
  - exists {| start := 480; stop := 600 |}. split; [now left | simpl; lia].
  - destruct Hin as [<- | []]. simpl in H1, H2, H3, H4.
    exists switch_on, L, s'. split; [exact Hr |]. lia.
Defined.

(* ===================================================================== *)
(** * The daily profile of an appliance                                   *)
(* ===================================================================== *)

Lemma calc_rand_window_Ok {U : Utils} self i s w s' :
  Appliance.calc_rand_window self i s = Ok (w, s') -> 0 <= fst w /\ snd w <= 1440.
Proof.
  unfold Appliance.calc_rand_window. intros H.
  apply rbind_Ok in H as (w0 & s1 & _ & H).
  apply rbind_Ok in H as (rv & s2 & _ & H).
  apply rbind_Ok in H as (a & s3 & _ & H).
  apply rbind_Ok in H as (b & s4 & _ & H).
  apply rret_Ok in H as [-> _]. simpl.
  destruct (a <? 0) eqn:Ea; destruct (b >? 1440) eqn:Eb;
    rewrite ?Z.gtb_ltb in Eb;
    try apply Z.ltb_ge in Ea; try apply Z.ltb_ge in Eb; lia.
Qed.

(** How a run that is not skipped went. *)
Lemma generate_load_profile_Ok {U : Utils} self user_preference prof_i peak_time_range
    day_type power s self' log s' :
  Appliance.generate_load_profile self user_preference prof_i peak_time_range day_type power s
  = Ok ((self', Some log), s') ->
  let self0 := Appliance.set_daily_use self (Np.zeros 1440) in
  exists rw1 rw2 rw3 s1 s2,
    Appliance.rand_windows log = [rw1; rw2; rw3]
    /\ (0 <= fst rw1 /\ snd rw1 <= 1440)
    /\ (0 <= fst rw2 /\ snd rw2 <= 1440)
    /\ (0 <= fst rw3 /\ snd rw3 <= 1440)
    /\ Appliance.rand_total_time_of_use self0 rw1 rw2 rw3 s1
       = Ok (Appliance.rand_time log, s2)
    /\ if String.eqb (Appliance.flat (Appliance.cfg self)) "yes"
       then exists p d1 d2 d3,
           Py.getitem (Appliance.power self) prof_i = Ok p
           /\ Np.assign_full (Np.zeros 1440) rw1
                (p * inject_Z (Appliance.number (Appliance.cfg self)))%Q = Ok d1
           /\ Np.assign_full d1 rw2
                (p * inject_Z (Appliance.number (Appliance.cfg self)))%Q = Ok d2
           /\ Np.assign_full d2 rw3
                (p * inject_Z (Appliance.number (Appliance.cfg self)))%Q = Ok d3
           /\ self' = Appliance.set_daily_use self0 d3
           /\ Appliance.events log = []
           /\ s' = s2
       else exists d1 d2 d3 selfc s3,
           Np.assign_full (Np.zeros 1440) rw1 (1 # 1000) = Ok d1
           /\ Np.assign_full d1 rw2 (1 # 1000) = Ok d2
           /\ Np.assign_full d2 rw3 (1 # 1000) = Ok d3
           /\ Appliance.assign_random_cycles (Appliance.set_daily_use self0 d3) s2
              = Ok (selfc, s3)
           /\ Appliance.while_loop (Z.to_nat (Appliance.rand_time log + 1))
                (Appliance.set_free_spots selfc (spots_of [rw1; rw2; rw3]))
                (Appliance.rand_time log) 0 power peak_time_range s3
              = Ok ((self', Appliance.events log), s').
Proof.
  intros H self0. unfold Appliance.generate_load_profile in H. cbv zeta in H.
  fold self0 in H.
  apply rbind_Ok in H as (pref & sa & _ & H).
  apply rbind_Ok in H as (u & sb & _ & H).
  match type of H with
  | (if ?c then _ else _) _ = _ => destruct c; [apply rret_Ok in H as [H _]; discriminate |]
  end.
  apply rbind_Ok in H as (rw1 & sc & H1 & H).
  apply rbind_Ok in H as (rw2 & sd & H2 & H).
  apply rbind_Ok in H as (rw3 & s1 & H3 & H).
  apply rbind_Ok in H as (rand_time & s2 & Ht & H).
  apply calc_rand_window_Ok in H1. apply calc_rand_window_Ok in H2.
  apply calc_rand_window_Ok in H3.
  exists rw1, rw2, rw3, s1, s2.
  change (Appliance.flat (Appliance.cfg self0)) with (Appliance.flat (Appliance.cfg self)) in H.
  destruct (String.eqb (Appliance.flat (Appliance.cfg self)) "yes").
  - apply rbind_Ok in H as (p & s3 & Hp & H). apply rlift_Ok in Hp as [Hp ->].
    apply rbind_Ok in H as (d1 & s4 & Hd1 & H). apply rlift_Ok in Hd1 as [Hd1 ->].
    apply rbind_Ok in H as (d2 & s5 & Hd2 & H). apply rlift_Ok in Hd2 as [Hd2 ->].
    apply rbind_Ok in H as (d3 & s6 & Hd3 & H). apply rlift_Ok in Hd3 as [Hd3 ->].
    apply rret_Ok in H as [H ->]. inversion H; subst self' log; clear H. simpl.
    repeat (split; [assumption || reflexivity |]).
    exists p, d1, d2, d3. auto 10.
  - apply rbind_Ok in H as (d1 & s4 & Hd1 & H). apply rlift_Ok in Hd1 as [Hd1 ->].
    apply rbind_Ok in H as (d2 & s5 & Hd2 & H). apply rlift_Ok in Hd2 as [Hd2 ->].
    apply rbind_Ok in H as (d3 & s6 & Hd3 & H). apply rlift_Ok in Hd3 as [Hd3 ->].
    apply rbind_Ok in H as (selfc & s3 & Hc & H).
    apply rbind_Ok in H as (r & s7 & Hw & H).
    apply rret_Ok in H as [H ->]. inversion H; subst self' log; clear H. simpl.
    repeat (split; [assumption || reflexivity |]).
    exists d1, d2, d3, selfc, s3. destruct r as [r1 r2]. auto 10.
Qed.

Lemma assign_full_valid a w v :
  0 <= fst w <= snd w -> snd w <= Py.len a ->
  Np.assign_full a w v = Ok (Np.fill_from 0 a (fst w) (snd w) v).
Proof.
  unfold Np.assign_full, Py.len, Np.clip_bound. intros H1 H2.
  destruct (snd w - fst w <? 0) eqn:Hn; [apply Z.ltb_lt in Hn; lia |].
  destruct (fst w <? 0) eqn:E; [apply Z.ltb_lt in E; lia |].
  destruct (snd w <? 0) eqn:E'; [apply Z.ltb_lt in E'; lia |].
  rewrite !Z.min_l by lia.
  rewrite Z.max_r by lia. rewrite Z.eqb_refl. reflexivity.
Qed.

Lemma round_Qeq x z : (x == inject_Z z)%Q -> Py.round x = z.
Proof.
  intros E. unfold Py.round.
  assert (Hf : Qfloor x = z) by (rewrite (Qfloor_comp x (inject_Z z) E); apply Qfloor_Z).
  rewrite Hf.
  assert (C : (x - inject_Z z ?= 1 # 2)%Q = Lt).
  { apply Qlt_alt. rewrite E.
    setoid_replace (inject_Z z - inject_Z z)%Q with 0%Q by ring. reflexivity. }
  now rewrite C.
Qed.

Lemma int_Qeq x z : (x == inject_Z z)%Q -> Py.int x = z.
Proof.
  intros E. pose proof (int_between z z x) as H.
  assert (z <= Py.int x <= z) by (apply H; rewrite E; apply Qle_refl). lia.
Qed.

Lemma randint_point a s : Random.randint a a s = Ok (a, snd (Random.next s)).
Proof.
  destruct (randint_spec a a s ltac:(lia)) as (k & Hk & Hr).
  replace k with a in Hk by lia. exact Hk.
Qed.

Lemma next_skipn n s : snd (Random.next (skipn n s)) = skipn (S n) s.
Proof.
  assert (Htl : forall l, snd (Random.next l) = tl l) by (intros []; reflexivity).
  rewrite Htl. revert s. induction n as [| n IH]; intros [| q s]; try reflexivity.
  exact (IH s).
Qed.

Lemma flat_profile_get w1 w2 w3 v t :
  0 <= t < 1440 ->
  Np.get (flat_profile w1 w2 w3 v) t
  = if Appliance.in_window w1 t || Appliance.in_window w2 t || Appliance.in_window w3 t
    then v else 0%Q.
Proof.
  intros Ht. unfold flat_profile, Np.get, Appliance.in_window.
  rewrite !fill_from_nth by (rewrite ?fill_from_length, zeros_length; lia).
  rewrite Z.add_0_l, Z2Nat.id by lia.
  fold (Np.get (Np.zeros 1440) t). rewrite zeros_get.
  destruct ((fst w3 <=? t) && (t <? snd w3)); destruct ((fst w2 <=? t) && (t <? snd w2));
    destruct ((fst w1 <=? t) && (t <? snd w1)); reflexivity.
Qed.

Section SteadyRuns.

Variables s_peak mu_peak op_factor : Q.

#[local] Instance spec_utils : Utils := SpecUtils.utils s_peak mu_peak op_factor.

Lemma calc_rand_window_steady self i w s :
  Appliance.getattr_window (Appliance.win self) i = Ok w ->
  Appliance.getattr_random_var (Appliance.win self) i = Ok 0 ->
  valid_window w ->
  Appliance.calc_rand_window self i s = Ok (w, skipn 2 s).
Proof.
  intros Hw Hv [V1 V2]. unfold Appliance.calc_rand_window, Random.bind.
  rewrite Hw, Hv. simpl Random.lift. cbv iota beta.
  rewrite !Z.sub_0_r, !Z.add_0_r, !randint_point. unfold Random.ret.
  destruct (fst w <? 0) eqn:E1; [apply Z.ltb_lt in E1; lia |].
  destruct (snd w >? 1440) eqn:E2; [rewrite Z.gtb_ltb in E2; apply Z.ltb_lt in E2; lia |].
  rewrite <- surjective_pairing.
  change (snd (Random.next s)) with (snd (Random.next (skipn 0 s))).
  now rewrite !next_skipn.
Qed.

Lemma rand_total_time_of_use_steady self s :
  (Appliance.time_fraction_random_variability (Appliance.cfg self) <= 0)%Q ->
  Appliance.func_cycle (Appliance.cfg self) <= steady_rand_time self ->
  Appliance.rand_total_time_of_use self
    (Appliance.window_1 (Appliance.win self))
    (Appliance.window_2 (Appliance.win self))
    (Appliance.window_3 (Appliance.win self)) s
  = Ok (steady_rand_time self, skipn 1 s).
Proof.
  intros Hv Hfc. unfold Appliance.rand_total_time_of_use.
  unfold Random.bind at 1. cbn [random_variation spec_utils SpecUtils.utils].
  unfold SpecUtils.random_variation.
  destruct (Qlt_le_dec 0 _) as [Hlt | _]; [lra |].
  unfold Random.ret at 1.
  set (ft := Appliance.func_time (Appliance.cfg self)).
  assert (Ei : Py.int (inject_Z ft * 1) = ft) by (apply int_Qeq; ring).
  rewrite Ei.
  destruct (uniform_spec (inject_Z ft) (inject_Z ft) s) as (u & Hu & Hur & _).
  unfold Random.bind. rewrite Hu.
  assert (Er : Py.round u = ft).
  { apply round_Qeq. destruct Hur as [H1 H2]; [apply Qle_refl |]. now apply Qle_antisym. }
  rewrite Er. fold (steady_rand_time self).
  unfold steady_rand_time in *. fold ft in Hfc |- *. cbv zeta in *.
  match goal with
  | |- (if ?c then _ else _) _ = _ => destruct c eqn:E; [apply Z.ltb_lt in E; lia |]
  end.
  unfold Random.ret.
  change (snd (Random.next s)) with (snd (Random.next (skipn 0 s))).
  now rewrite next_skipn.
Qed.

(** A flat and steady appliance that the day type allows always runs. It
    draws eight times, all before the windows are filled, and its
    profile is [flat_profile]. *)
Lemma generate_load_profile_flat_steady self prof_i peak_time_range day_type power p s :
  steady self ->
  Appliance.flat (Appliance.cfg self) = "yes"%string ->
  Appliance.wd_we_type_allowed self day_type = true ->
  Appliance.func_cycle (Appliance.cfg self) <= steady_rand_time self ->
  Py.getitem (Appliance.power self) prof_i = Ok p ->
  Appliance.generate_load_profile self 0 prof_i peak_time_range day_type power s
  = Ok ((Appliance.set_daily_use (Appliance.set_daily_use self (Np.zeros 1440))
           (flat_profile (Appliance.window_1 (Appliance.win self))
              (Appliance.window_2 (Appliance.win self))
              (Appliance.window_3 (Appliance.win self))
              (p * inject_Z (Appliance.number (Appliance.cfg self)))%Q),
         Some {| Appliance.rand_windows :=
                   [Appliance.window_1 (Appliance.win self);
                    Appliance.window_2 (Appliance.win self);
                    Appliance.window_3 (Appliance.win self)];
                 Appliance.rand_time := steady_rand_time self;
                 Appliance.events := [] |}),
        skipn 8 s).
Proof.
  intros St Hflat Hday Hfc Hp. destruct St.
  unfold Appliance.generate_load_profile. cbv zeta.
  set (self0 := Appliance.set_daily_use self (Np.zeros 1440)).
  change (0 =? 0) with true. cbv iota.
  unfold Random.bind at 1. unfold Random.ret at 1.
  destruct (uniform_spec 0 1 s) as (u & Hu & Hur & _).
  unfold Random.bind at 1. rewrite Hu.
  destruct Hur as [_ Hu1]; [lra |].
  assert (Hocc : Qle_bool u (Appliance.occasional_use (Appliance.cfg self0)) = true).
  { apply Qle_bool_iff. simpl. lra. }
  rewrite Hocc.
  change (Appliance.pref_index (Appliance.cfg self0))
    with (Appliance.pref_index (Appliance.cfg self)).
  rewrite steady_pref0.
  change (Appliance.wd_we_type_allowed self0 day_type)
    with (Appliance.wd_we_type_allowed self day_type).
  rewrite Hday. cbn [negb andb orb Z.eqb].
  change (snd (Random.next s)) with (snd (Random.next (skipn 0 s))).
  rewrite next_skipn.
  unfold Random.bind at 1.
  rewrite (calc_rand_window_steady self0 1 (Appliance.window_1 (Appliance.win self)))
    by (try reflexivity; unfold Appliance.getattr_random_var; simpl; congruence || assumption).
  unfold Random.bind at 1.
  rewrite (calc_rand_window_steady self0 2 (Appliance.window_2 (Appliance.win self)))
    by (try reflexivity; unfold Appliance.getattr_random_var; simpl; congruence || assumption).
  unfold Random.bind at 1.
  rewrite (calc_rand_window_steady self0 3 (Appliance.window_3 (Appliance.win self)))
    by (try reflexivity; unfold Appliance.getattr_random_var; simpl; congruence || assumption).
  rewrite !skipn_skipn. cbn [Nat.add].
  unfold Random.bind at 1.
  rewrite (rand_total_time_of_use_steady self0) by assumption.
  rewrite skipn_skipn. cbn [Nat.add].
  change (Appliance.flat (Appliance.cfg self0)) with (Appliance.flat (Appliance.cfg self)).
  rewrite Hflat. change (String.eqb "yes" "yes") with true. cbv iota.
  change (Appliance.power self0) with (Appliance.power self). rewrite Hp.
  unfold Random.bind at 1. unfold Random.lift at 1.
  destruct steady_window_4 as [Va Vb]. destruct steady_window_5 as [Vc Vd].
  destruct steady_window_6 as [Ve Vf].
  rewrite assign_full_valid by (unfold Py.len; rewrite ?zeros_length; lia).
  unfold Random.bind at 1. unfold Random.lift at 1.
  rewrite assign_full_valid by (unfold Py.len; rewrite ?fill_from_length, ?zeros_length; lia).
  unfold Random.bind at 1. unfold Random.lift at 1.
  rewrite assign_full_valid by (unfold Py.len; rewrite ?fill_from_length, ?zeros_length; lia).
  unfold Random.bind at 1. unfold Random.lift at 1.
  reflexivity.
Qed.

End SteadyRuns.

Lemma getitem_broadcast (f : Q -> Q) i :
  0 <= i < 366 -> Py.getitem (map f (Np.ones 366)) i = Ok (f 1%Q).
Proof.
  intros Hi.
  destruct (getitem_nonneg (map f (Np.ones 366)) i) as (x & Hx & Hn).
  - unfold Py.len, Np.ones. rewrite length_map, repeat_length. lia.
  - rewrite Hx. f_equal.
    rewrite nth_error_map in Hn. unfold Np.ones in Hn.
    rewrite nth_error_repeat in Hn by lia. simpl in Hn. congruence.
Qed.

(** The profile of a flat run that is not skipped. *)
Lemma generate_load_profile_flat_values :
  (forall (U : Utils) self user_preference prof_i peak_time_range day_type power s
          self' log s',
      Appliance.flat (Appliance.cfg self) = "yes"%string ->
      Appliance.generate_load_profile self user_preference prof_i peak_time_range
        day_type power s = Ok ((self', Some log), s') ->
      exists p d rw1 rw2 rw3 s1,
        Py.getitem (Appliance.power self) prof_i = Ok p
        /\ Appliance.daily_use (Appliance.run self') = Some d
        /\ List.length d = 1440%nat
        /\ Appliance.rand_windows log = [rw1; rw2; rw3]
        /\ (forall t, 0 <= t < 1440 ->
              Np.get d t
              = if Appliance.in_window rw1 t || Appliance.in_window rw2 t
                   || Appliance.in_window rw3 t
                then (p * inject_Z (Appliance.number (Appliance.cfg self)))%Q
                else 0%Q)
        /\ Appliance.events log = []
        /\ Appliance.rand_total_time_of_use (Appliance.set_daily_use self (Np.zeros 1440))
             rw1 rw2 rw3 s1 = Ok (Appliance.rand_time log, s')).
Proof.
  intros U self user_preference prof_i peak_time_range day_type power s self' log s'
    Hflat H.
  apply generate_load_profile_Ok in H.
  destruct H as (rw1 & rw2 & rw3 & s1 & s2 & Hw & B1 & B2 & B3 & Ht & H).
  rewrite Hflat in H. change (String.eqb "yes" "yes") with true in H. cbv iota in H.
  destruct H as (p & d1 & d2 & d3 & Hp & H1 & H2 & H3 & -> & He & ->).
  apply assign_full_spec in H1 as (L1 & _ & G1);
    [| lia | unfold Py.len; rewrite zeros_length; lia].
  apply assign_full_spec in H2 as (L2 & _ & G2);
    [| lia | unfold Py.len; rewrite L1, zeros_length; lia].
  apply assign_full_spec in H3 as (L3 & _ & G3);
    [| lia | unfold Py.len; rewrite L2, L1, zeros_length; lia].
  rewrite zeros_length in L1.
  exists p, d3, rw1, rw2, rw3, s1.
  repeat (split; [assumption || reflexivity || congruence |]).
  split; [| split; assumption].
  intros t Ht'.
  rewrite G3 by (unfold Py.len; lia).
  rewrite G2 by (unfold Py.len; lia).
  rewrite G1 by (unfold Py.len; rewrite zeros_length; lia).
  rewrite zeros_get.
  destruct (Appliance.in_window rw3 t); destruct (Appliance.in_window rw2 t);
    destruct (Appliance.in_window rw1 t); reflexivity.
Qed.

(** C6: a flat appliance that is not skipped holds
    [power[prof_i] * number] at the minutes of its three randomised
    windows and zero elsewhere; no switch-on event is written, and the
    generator is left where [rand_total_time_of_use] left it. In
    scenario S1 the run returns for every state of the generator, with
    200 at the minutes of [480, 600), zero elsewhere and a sum of
    24000. *)
Theorem generate_load_profile_flat :
  (forall (U : Utils) self user_preference prof_i peak_time_range day_type power s
          self' log s',
      Appliance.flat (Appliance.cfg self) = "yes"%string ->
      Appliance.generate_load_profile self user_preference prof_i peak_time_range
        day_type power s = Ok ((self', Some log), s') ->
      exists p d rw1 rw2 rw3 s1,
        Py.getitem (Appliance.power self) prof_i = Ok p
        /\ Appliance.daily_use (Appliance.run self') = Some d
        /\ List.length d = 1440%nat
        /\ Appliance.rand_windows log = [rw1; rw2; rw3]
        /\ (forall t, 0 <= t < 1440 ->
              Np.get d t
              = if Appliance.in_window rw1 t || Appliance.in_window rw2 t
                   || Appliance.in_window rw3 t
                then (p * inject_Z (Appliance.number (Appliance.cfg self)))%Q
                else 0%Q)
        /\ Appliance.events log = []
        /\ Appliance.rand_total_time_of_use (Appliance.set_daily_use self (Np.zeros 1440))
             rw1 rw2 rw3 s1 = Ok (Appliance.rand_time log, s'))
  /\ (exists lamp,
        Appliance.windows Examples.new_lamp (Some (480, 600)) None 0 None = Ok lamp
        /\ forall s_peak mu_peak op_factor prof_i peak_time_range day power s,
             0 <= prof_i < 366 ->
             exists self' log d,
               Appliance.generate_load_profile
                 (U := SpecUtils.utils s_peak mu_peak op_factor)
                 lamp 0 prof_i peak_time_range (DayInt day) power s
               = Ok ((self', Some log), skipn 8 s)
               /\ Appliance.daily_use (Appliance.run self') = Some d
               /\ (forall t, 480 <= t < 600 -> (Np.get d t == 200)%Q)
               /\ (forall t, 0 <= t < 480 \/ 600 <= t < 1440 -> (Np.get d t == 0)%Q)
               /\ (Np.sum d == 24000)%Q).
Proof.
  split.
  - exact generate_load_profile_flat_values.
  - destruct (Appliance.windows Examples.new_lamp (Some (480, 600)) None 0 None)
      as [lamp |] eqn:E; [| vm_compute in E; discriminate].
    exists lamp. split; [reflexivity |].
    assert (Hcfg : Appliance.cfg lamp = Examples.lamp_config)
      by (vm_compute in E; inversion E; reflexivity).
    assert (Hpow : Appliance.power lamp = Appliance.power Examples.new_lamp)
      by (vm_compute in E; inversion E; reflexivity).
    assert (Hwin : Appliance.win lamp
                   = {| Appliance.random_var_w := 0;
                        Appliance.window_1 := (480, 600);
                        Appliance.window_2 := (0, 0);
                        Appliance.window_3 := (0, 0);
                        Appliance.random_var_1 := 0;
                        Appliance.random_var_2 := 0;
                        Appliance.random_var_3 := 0 |})
      by (vm_compute in E; inversion E; reflexivity).
    clear E.
    intros s_peak mu_peak op_factor prof_i peak_time_range day power s Hi.
    assert (St : steady lamp).
    { constructor; rewrite ?Hwin, ?Hcfg; simpl; try reflexivity;
        try (unfold valid_window; simpl; lia); apply Qle_refl. }
    assert (Hp : Py.getitem (Appliance.power lamp) prof_i = Ok (100 * 1)%Q).
    { rewrite Hpow. apply (getitem_broadcast (fun one => (100 * one)%Q)). exact Hi. }
    pose proof (generate_load_profile_flat_steady s_peak mu_peak op_factor lamp prof_i
                  peak_time_range (DayInt day) power (100 * 1)%Q s St) as R.
    rewrite Hwin, Hcfg in R. cbn [Appliance.window_1 Appliance.window_2
      Appliance.window_3 Appliance.number Examples.lamp_config] in R.
    do 3 eexists. split; [apply R |].
    + reflexivity.
    + unfold Appliance.wd_we_type_allowed. rewrite Hcfg. simpl. apply orb_true_r.
    + unfold steady_rand_time. rewrite Hwin, Hcfg. vm_compute. discriminate.
    + exact Hp.
    + split; [reflexivity |]. split; [| split].
      * intros t Ht. rewrite flat_profile_get by lia.
        unfold Appliance.in_window. simpl fst. simpl snd.
        destruct (480 <=? t) eqn:E1; [| apply Z.leb_gt in E1; lia].
        destruct (t <? 600) eqn:E2; [| apply Z.ltb_ge in E2; lia].
        reflexivity.
      * intros t Ht. rewrite flat_profile_get by lia.
        unfold Appliance.in_window. simpl fst. simpl snd.
        destruct ((480 <=? t) && (t <? 600)) eqn:E1.
        { apply andb_true_iff in E1 as [Ea Eb]. apply Z.leb_le in Ea.
          apply Z.ltb_lt in Eb. lia. }
        destruct ((0 <=? t) && (t <? 0)) eqn:E2.
        { apply andb_true_iff in E2 as [Ea Eb]. apply Z.ltb_lt in Eb. lia. }
        reflexivity.
      * vm_compute. reflexivity.
Qed.

(** The theorem at the lamps of scenario S1, on day 0 and with an
    exhausted generator. *)
Lemma generate_load_profile_flat_witness :
  exists lamp self' log d,
    Appliance.windows Examples.new_lamp (Some (480, 600)) None 0 None = Ok lamp
    /\ Appliance.generate_load_profile (U := SpecUtils.utils (1 # 2) (1 # 2) (1 # 2))
         lamp 0 0 [700; 701] (DayInt 0) 100 [] = Ok ((self', Some log), [])
    /\ Appliance.daily_use (Appliance.run self') = Some d
    /\ Np.get d 500 = (100 * 1 * inject_Z 2)%Q
    /\ Appliance.events log = [].
Proof.
  destruct (Appliance.windows Examples.new_lamp (Some (480, 600)) None 0 None)
    as [lamp |] eqn:E; [| vm_compute in E; discriminate].
  destruct (Appliance.generate_load_profile (U := SpecUtils.utils (1 # 2) (1 # 2) (1 # 2))
              lamp 0 0 [700; 701] (DayInt 0) 100 [])
    as [[[self' [log |]] s'] |] eqn:G;
    try (vm_compute in E; inversion E; subst lamp; vm_compute in G; discriminate).
  assert (Hs : s' = []).
  { vm_compute in E; inversion E; subst lamp; vm_compute in G. now inversion G. }
  subst s'.
  destruct generate_load_profile_flat as [Hgen _].
  destruct (Hgen (SpecUtils.utils (1 # 2) (1 # 2) (1 # 2)) lamp 0 0 [700; 701] (DayInt 0)
              100%Q [] self' log [])
    as (p & d & rw1 & rw2 & rw3 & s1 & Hp & Hd & _ & Hw & Hv & He & _).
  - vm_compute in E; inversion E; reflexivity.
  - exact G.
  - exists lamp, self', log, d. split; [reflexivity |]. split; [exact G |].
    split; [exact Hd |]. split; [| exact He].
    rewrite (Hv 500) by lia.
    assert (Hrw : rw1 = (480, 600)).
    { vm_compute in E; inversion E; subst lamp; vm_compute in G. inversion G; subst log.
      simpl in Hw. congruence. }
    subst rw1. change (Appliance.in_window (480, 600) 500) with true. cbn [orb].
    assert (Hpp : p = (100 * 1)%Q).
    { vm_compute in E; inversion E; subst lamp. vm_compute in Hp. inversion Hp.
      vm_compute. reflexivity. }
    assert (Hn : Appliance.number (Appliance.cfg lamp) = 2)
      by (vm_compute in E; inversion E; reflexivity).
    now rewrite Hpp, Hn.
Defined.

(* ===================================================================== *)
(** * What a switch-on event leaves untouched                             *)
(* ===================================================================== *)

Lemma set_item_length a : forall j x, List.length (Np.set_item a j x) = List.length a.
Proof.
  induction a as [| y a IH]; intros [| j] x; simpl; try reflexivity. now rewrite IH.
Qed.

Lemma set_item_nth_other a : forall j x n,
  n <> j -> nth n (Np.set_item a j x) 0%Q = nth n a 0%Q.
Proof.
  induction a as [| y a IH]; intros [| j] x [| n] H; simpl; try reflexivity;
    try congruence.
  apply IH. congruence.
Qed.

(** [np.put] writes at the indexes only. *)
Lemma put_from_spec ind : forall k a v a',
  Np.put_from k a ind v = Ok a' ->
  Forall (fun i => 0 <= i) ind ->
  List.length a' = List.length a
  /\ forall t, 0 <= t -> ~ In t ind -> Np.get a' t = Np.get a t.
Proof.
  induction ind as [| i ind IH]; intros k a v a' H Hpos.
  - inversion H; subst. auto.
  - inversion Hpos as [| ? ? Hi Hpos']; subst. simpl in H.
    destruct (i <? 0) eqn:E; [apply Z.ltb_lt in E; lia |].
    destruct ((0 <=? i) && (i <? Py.len a)); [| discriminate].
    apply IH in H as [L G]; [| exact Hpos'].
    rewrite set_item_length in L. split; [exact L |].
    intros t Ht Hin. rewrite G by (try assumption; intros Hc; apply Hin; now right).
    unfold Np.get. apply set_item_nth_other.
    intros Hc. apply Hin. left. lia.
Qed.

Lemma put_spec a ind v a' :
  Np.put a ind v = Ok a' ->
  Forall (fun i => 0 <= i) ind ->
  List.length a' = List.length a
  /\ forall t, 0 <= t -> ~ In t ind -> Np.get a' t = Np.get a t.
Proof.
  unfold Np.put. destruct v as [| x v].
  - intros H _. inversion H; subst. auto.
  - apply put_from_spec.
Qed.

Lemma untouched_refl d : untouched [] d d.
Proof. split; auto. Qed.

Lemma untouched_trans e1 e2 d d1 d2 :
  untouched e1 d d1 -> untouched e2 d1 d2 -> untouched (e1 ++ e2) d d2.
Proof.
  intros [L1 G1] [L2 G2]. split; [congruence |].
  intros t Ht H. rewrite G2, G1; auto; intros e He; apply H, in_app_iff; auto.
Qed.

Lemma Forall_firstn_skipn {A : Type} (P : A -> Prop) n l :
  Forall P l -> Forall P (firstn n l) /\ Forall P (skipn n l).
Proof. intros H. apply Forall_app. now rewrite firstn_skipn. Qed.

Lemma Forall_list_pop P l i : Forall P l -> Forall P (Appliance.list_pop l i).
Proof.
  intros H. unfold Appliance.list_pop. apply Forall_app. split.
  - now apply Forall_firstn_skipn.
  - now apply Forall_firstn_skipn.
Qed.

Lemma Forall_list_insert P l i x : Forall P l -> P x -> Forall P (Appliance.list_insert l i x).
Proof.
  intros H Hx. unfold Appliance.list_insert. apply Forall_app. split.
  - now apply Forall_firstn_skipn.
  - constructor; [exact Hx |]. now apply Forall_firstn_skipn.
Qed.

(** [update_available_time_for_switch_on_events] changes the free spots
    only. *)
Lemma update_available_time_frame self indexes self' :
  Appliance.update_available_time_for_switch_on_events self indexes = Ok self' ->
  Forall (fun i => 0 <= i) indexes ->
  spots_nonneg self ->
  Appliance.daily_use (Appliance.run self') = Appliance.daily_use (Appliance.run self)
  /\ Appliance.cfg self' = Appliance.cfg self
  /\ spots_nonneg self'.
Proof.
  unfold Appliance.update_available_time_for_switch_on_events, spots_nonneg.
  intros H Hidx Hsp.
  destruct (Appliance.free_spots (Appliance.run self)) as [| sp0 fs0] eqn:Efs.
  { inversion H; subst. rewrite Efs. auto. }
  rewrite <- Efs in *. clear Efs sp0 fs0.
  apply bind_Ok in H as (first & Hf & H).
  apply bind_Ok in H as (last & Hl & H).
  apply getitem_Ok_In in Hf. apply getitem_Ok_In in Hl.
  rewrite Forall_forall in Hidx.
  pose proof (Hidx _ Hf) as Hf0. pose proof (Hidx _ Hl) as Hl0.
  destruct (Appliance.find_spot_to_split _ 0 first last) as [spot_idx |].
  2:{ inversion H; subst. auto. }
  set (fs := Appliance.free_spots (Appliance.run self)) in *.
  set (sp := nth spot_idx fs {| start := 0; stop := 0 |}) in *.
  assert (Hs : 0 <= start sp).
  { subst sp. destruct (Nat.lt_ge_cases spot_idx (List.length fs)) as [Hlt | Hge].
    - now apply Forall_nth.
    - rewrite nth_overflow by lia. simpl. lia. }
  inversion H; subst self'; clear H. simpl.
  split; [reflexivity |]. split; [reflexivity |].
  destruct ((first =? start sp) && (last =? stop sp)).
  { now apply Forall_list_pop. }
  destruct (first =? start sp).
  { apply Forall_list_insert; [now apply Forall_list_pop | simpl; lia]. }
  destruct (last =? stop sp).
  { apply Forall_list_insert; [now apply Forall_list_pop | simpl; lia]. }
  apply Forall_list_insert; [| simpl; lia].
  apply Forall_list_insert; [now apply Forall_list_pop | simpl; lia].
Qed.

Section Untouched.

Context {U : Utils}.

Lemma update_daily_use_frame self coincidence power indexes s self' s' d :
  Appliance.update_daily_use self coincidence power indexes s = Ok (self', s') ->
  Forall (fun i => 0 <= i) indexes ->
  spots_nonneg self ->
  Appliance.daily_use (Appliance.run self) = Some d ->
  exists d',
    Appliance.daily_use (Appliance.run self') = Some d'
    /\ untouched [indexes] d d'
    /\ Appliance.cfg self' = Appliance.cfg self
    /\ spots_nonneg self'.
Proof.
  unfold Appliance.update_daily_use. intros H Hidx Hsp Hd. rewrite Hd in H.
  apply rbind_Ok in H as (d' & s1 & Hput & H).
  apply rlift_Ok in H as [H ->].
  assert (Hp : exists v, Np.put d indexes v = Ok d').
  { destruct (Appliance.fixed_cycle (Appliance.cfg self) >? 0).
    - apply rlift_Ok in Hput as [Hput _]. eauto.
    - apply rbind_Ok in Hput as (v & s2 & _ & Hput).
      apply rlift_Ok in Hput as [Hput _]. eauto. }
  destruct Hp as (v & Hp). apply put_spec in Hp as [L G]; [| exact Hidx].
  apply update_available_time_frame in H as (Hd' & Hc & Hs'); [| exact Hidx | exact Hsp].
  exists d'. split; [rewrite Hd'; reflexivity |]. split; [| split; assumption].
  split; [exact L |]. intros t Ht Hn. apply G; [exact Ht |]. apply Hn. now left.
Qed.

Lemma switch_on_event_frame self power peak_time_range indexes s self' s' d :
  Appliance.switch_on_event self power peak_time_range indexes s = Ok (self', s') ->
  Forall (fun i => 0 <= i) indexes ->
  spots_nonneg self ->
  Appliance.daily_use (Appliance.run self) = Some d ->
  0 < Py.len indexes
  /\ exists d',
      Appliance.daily_use (Appliance.run self') = Some d'
      /\ untouched [indexes] d d'
      /\ Appliance.cfg self' = Appliance.cfg self
      /\ spots_nonneg self'.
Proof.
  unfold Appliance.switch_on_event. intros H Hidx Hsp Hd.
  apply rbind_Ok in H as (first & s1 & Hf & H). apply rlift_Ok in Hf as [Hf _].
  apply rbind_Ok in H as (last & s2 & _ & H).
  apply rbind_Ok in H as (pf & s3 & _ & H).
  apply rbind_Ok in H as (pl & s4 & _ & H).
  apply rbind_Ok in H as (c & s5 & _ & H).
  split; [eapply getitem_Ok_nonempty; eauto |].
  eapply update_daily_use_frame; eauto.
Qed.

End Untouched.

(** The minutes of a switch-on window are minutes of free spots. *)
Lemma rand_switch_on_window_nonneg self rand_time s indexes s' :
  Appliance.rand_switch_on_window self rand_time s = Ok (Some indexes, s') ->
  spots_nonneg self ->
  Forall (fun i => 0 <= i) indexes.
Proof.
  unfold Appliance.rand_switch_on_window, spots_nonneg. intros H Hsp.
  set (fs := Appliance.free_spots (Appliance.run self)) in *.
  set (fc := Appliance.func_cycle (Appliance.cfg self)) in *.
  destruct (Py.len (Appliance.indexes_choice fs fc) >? 0);
    [| apply rret_Ok in H as [H _]; discriminate].
  apply rbind_Ok in H as (k & s1 & _ & H).
  apply rbind_Ok in H as (switch_on & s2 & Hg & H).
  apply rlift_Ok in Hg as [Hg _]. apply getitem_Ok_In in Hg.
  apply indexes_choice_In in Hg as (sp & Hin & Hsw).
  rewrite Forall_forall in Hsp. specialize (Hsp sp Hin). simpl in Hsp.
  assert (Hr : forall L, Forall (fun i => 0 <= i) (Np.arange switch_on (switch_on + L))).
  { intros L. apply Forall_forall. intros i Hi. unfold Np.arange in Hi.
    apply range_In in Hi. lia. }
  destruct (Appliance.find_switch_on_spot fs 0 switch_on fc) as [j |]; [| discriminate].
  match type of H with
  | (if ?c then _ else _) _ = _ => destruct c
  end.
  - apply rbind_Ok in H as (u & s3 & _ & H). apply rret_Ok in H as [H _].
    inversion H; subst. apply Hr.
  - match type of H with
    | (if ?c then _ else _) _ = _ => destruct c; [| discriminate]
    end.
    apply rret_Ok in H as [H _]. inversion H; subst. apply Hr.
Qed.

Section Loop.

Context {U : Utils}.

Lemma drop_last_nonneg (indexes : list Z) k :
  Forall (fun i => 0 <= i) indexes -> Forall (fun i => 0 <= i) (Py.drop_last indexes k).
Proof. intros H. unfold Py.drop_last. now apply Forall_firstn_skipn. Qed.

(** A turn of the loop that does not break adds a minute or more to
    [tot_time]. *)
Lemma loop_body_progress self rand_time tot_time power peak_time_range s self' tot' ev s' :
  Appliance.loop_body self rand_time tot_time power peak_time_range s
  = Ok ((true, self', tot', ev), s') ->
  tot_time < tot' <= rand_time.
Proof.
  unfold Appliance.loop_body. intros H.
  apply rbind_Ok in H as ([indexes |] & s1 & _ & H);
    [| apply rret_Ok in H as [H _]; discriminate].
  cbv zeta in H.
  destruct (tot_time + Py.len indexes >? rand_time) eqn:E.
  - destruct (Py.len (Py.drop_last indexes _) >? 0).
    + apply rbind_Ok in H as (self1 & s2 & _ & H). apply rret_Ok in H as [H _]. discriminate.
    + apply rret_Ok in H as [H _]. discriminate.
  - apply rbind_Ok in H as (self1 & s2 & Hs & H). apply rret_Ok in H as [H _].
    inversion H; subst. rewrite Z.gtb_ltb in E. apply Z.ltb_ge in E.
    unfold Appliance.switch_on_event in Hs.
    apply rbind_Ok in Hs as (first & s3 & Hf & _). apply rlift_Ok in Hf as [Hf _].
    apply getitem_Ok_nonempty in Hf. lia.
Qed.

Lemma loop_body_frame self rand_time tot_time power peak_time_range s continue self' tot'
    ev s' d :
  Appliance.loop_body self rand_time tot_time power peak_time_range s
  = Ok ((continue, self', tot', ev), s') ->
  spots_nonneg self ->
  Appliance.daily_use (Appliance.run self) = Some d ->
  exists d',
    Appliance.daily_use (Appliance.run self') = Some d'
    /\ untouched ev d d'
    /\ Appliance.cfg self' = Appliance.cfg self
    /\ spots_nonneg self'.
Proof.
  unfold Appliance.loop_body. intros H Hsp Hd.
  apply rbind_Ok in H as ([indexes |] & s1 & Hr & H).
  2:{ apply rret_Ok in H as [H _]. inversion H; subst.
      exists d. auto using untouched_refl. }
  apply rand_switch_on_window_nonneg in Hr; [| exact Hsp].
  cbv zeta in H.
  destruct (tot_time + Py.len indexes >? rand_time).
  - destruct (Py.len (Py.drop_last indexes _) >? 0).
    + apply rbind_Ok in H as (self1 & s2 & Hs & H). apply rret_Ok in H as [H _].
      inversion H; subst.
      eapply switch_on_event_frame in Hs as [_ Hs]; eauto using drop_last_nonneg.
    + apply rret_Ok in H as [H _]. inversion H; subst.
      exists d. auto using untouched_refl.
  - apply rbind_Ok in H as (self1 & s2 & Hs & H). apply rret_Ok in H as [H _].
    inversion H; subst.
    eapply switch_on_event_frame in Hs as [_ Hs]; eauto.
Qed.

Lemma while_loop_O self rand_time tot_time power peak_time_range :
  Appliance.while_loop 0 self rand_time tot_time power peak_time_range
  = Random.ret (self, []).
Proof. simpl. now destruct (tot_time <=? rand_time). Qed.

Lemma while_loop_S fuel self rand_time tot_time power peak_time_range :
  Appliance.while_loop (S fuel) self rand_time tot_time power peak_time_range
  = if tot_time <=? rand_time then
      r <~ Appliance.loop_body self rand_time tot_time power peak_time_range ;;
      let '(continue, self', tot_time', ev) := r in
      if continue : bool then
        r' <~ Appliance.while_loop fuel self' rand_time tot_time' power peak_time_range ;;
        Random.ret (fst r', ev ++ snd r')
      else Random.ret (self', ev)
    else Random.ret (self, []).
Proof. reflexivity. Qed.

(** The loop writes at the minutes of its events only. *)
Lemma while_loop_frame fuel : forall self rand_time tot_time power peak_time_range s
    self' evs s' d,
  Appliance.while_loop fuel self rand_time tot_time power peak_time_range s
  = Ok ((self', evs), s') ->
  spots_nonneg self ->
  Appliance.daily_use (Appliance.run self) = Some d ->
  exists d',
    Appliance.daily_use (Appliance.run self') = Some d'
    /\ untouched evs d d'
    /\ Appliance.cfg self' = Appliance.cfg self.
Proof.
  induction fuel as [| fuel IH]; intros self rand_time tot_time power peak_time_range s
    self' evs s' d H Hsp Hd.
  - rewrite while_loop_O in H. apply rret_Ok in H as [H _]. inversion H; subst.
    exists d. auto using untouched_refl.
  - rewrite while_loop_S in H. destruct (tot_time <=? rand_time).
    2:{ apply rret_Ok in H as [H _]. inversion H; subst.
        exists d. auto using untouched_refl. }
    apply rbind_Ok in H as ([[[continue self1] tot1] ev] & s1 & Hb & H).
    eapply loop_body_frame in Hb as (d1 & Hd1 & Hu1 & Hc1 & Hsp1); eauto.
    destruct continue.
    + apply rbind_Ok in H as ([self2 evs2] & s2 & Hw & H).
      apply rret_Ok in H as [H _]. inversion H; subst. simpl.
      eapply IH in Hw as (d2 & Hd2 & Hu2 & Hc2); eauto.
      exists d2. split; [exact Hd2 |]. split; [eapply untouched_trans; eauto | congruence].
    + apply rret_Ok in H as [H _]. inversion H; subst. eauto.
Qed.

(** Fuel: once the fuel covers the minutes left, more fuel changes
    nothing, so the turn that finds the fuel exhausted is never
    reached. *)
Lemma while_loop_fuel fuel : forall self rand_time tot_time power peak_time_range s,
  (Z.to_nat (rand_time - tot_time + 1) <= fuel)%nat ->
  Appliance.while_loop (S fuel) self rand_time tot_time power peak_time_range s
  = Appliance.while_loop fuel self rand_time tot_time power peak_time_range s.
Proof.
  induction fuel as [| fuel IH]; intros self rand_time tot_time power peak_time_range s Hf.
  - rewrite while_loop_S, while_loop_O.
    destruct (tot_time <=? rand_time) eqn:E; [apply Z.leb_le in E; lia | reflexivity].
  - rewrite (while_loop_S (S fuel)), (while_loop_S fuel).
    destruct (tot_time <=? rand_time) eqn:E; [| reflexivity].
    unfold Random.bind at 1 3.
    destruct (Appliance.loop_body self rand_time tot_time power peak_time_range s)
      as [[[[[continue self1] tot1] ev] s1] |] eqn:Hb; [| reflexivity].
    destruct continue; [| reflexivity].
    apply loop_body_progress in Hb.
    unfold Random.bind. rewrite IH by lia. reflexivity.
Qed.

(** The fuel that [generate_load_profile] gives is enough. *)
Lemma while_loop_enough k self rand_time power peak_time_range s :
  Appliance.while_loop (k + Z.to_nat (rand_time + 1)) self rand_time 0 power
    peak_time_range s
  = Appliance.while_loop (Z.to_nat (rand_time + 1)) self rand_time 0 power
      peak_time_range s.
Proof.
  induction k as [| k IH]; [reflexivity |].
  simpl Nat.add. rewrite while_loop_fuel by lia. exact IH.
Qed.

Lemma assign_random_cycles_frame self s self' s' :
  Appliance.assign_random_cycles self s = Ok (self', s') ->
  Appliance.daily_use (Appliance.run self') = Appliance.daily_use (Appliance.run self)
  /\ Appliance.cfg self' = Appliance.cfg self.
Proof.
  unfold Appliance.assign_random_cycles. intros H.
  destruct (Appliance.fixed_cycle (Appliance.cfg self) >=? 1);
    [| apply rret_Ok in H as [-> _]; auto].
  do 3 (apply rbind_Ok in H as (? & ? & _ & H)).
  destruct (Appliance.fixed_cycle (Appliance.cfg self) >=? 2);
    [| apply rret_Ok in H as [-> _]; auto].
  do 3 (apply rbind_Ok in H as (? & ? & _ & H)).
  destruct (Appliance.fixed_cycle (Appliance.cfg self) >=? 3);
    [| apply rret_Ok in H as [-> _]; auto].
  do 5 (apply rbind_Ok in H as (? & ? & _ & H)).
  apply rret_Ok in H as [-> _]; auto.
Qed.

End Loop.

(* ===================================================================== *)
(** * The sentinel minutes of a profile and the aggregates                *)
(* ===================================================================== *)

Lemma add_length a : forall b,
  List.length a = List.length b -> List.length (Np.add a b) = List.length a.
Proof.
  induction a as [| x a IH]; intros [| y b] H; simpl in *; try reflexivity; try discriminate.
  now rewrite IH by lia.
Qed.

Lemma add_nth a : forall b n,
  List.length a = List.length b -> (n < List.length a)%nat ->
  nth n (Np.add a b) 0%Q = (nth n a 0%Q + nth n b 0%Q)%Q.
Proof.
  induction a as [| x a IH]; intros [| y b] n H Hn; simpl in *; try lia.
  destruct n as [| n]; [reflexivity |]. apply IH; lia.
Qed.

Lemma add_get a b t :
  List.length a = List.length b -> 0 <= t < Py.len a ->
  Np.get (Np.add a b) t = (Np.get a t + Np.get b t)%Q.
Proof.
  unfold Np.get, Py.len. intros H Ht. apply add_nth; [exact H | lia].
Qed.

Section Aggregates.

Context {U : Utils}.

(** A skipped run leaves the zero profile. *)
Lemma generate_load_profile_skipped self user_preference prof_i peak_time_range day_type
    power s self' s' :
  Appliance.generate_load_profile self user_preference prof_i peak_time_range day_type
    power s = Ok ((self', None), s') ->
  self' = Appliance.set_daily_use self (Np.zeros 1440).
Proof.
  unfold Appliance.generate_load_profile. cbv zeta. intros H.
  apply rbind_Ok in H as (pref & sa & _ & H).
  apply rbind_Ok in H as (u & sb & _ & H).
  match type of H with
  | (if ?c then _ else _) _ = _ =>
      destruct c; [apply rret_Ok in H as [H _]; now inversion H |]
  end.
  do 4 (apply rbind_Ok in H as (? & ? & _ & H)).
  match type of H with
  | (if ?c then _ else _) _ = _ => destruct c
  end.
  - do 4 (apply rbind_Ok in H as (? & ? & _ & H)).
    apply rret_Ok in H as [H _]. discriminate.
  - do 5 (apply rbind_Ok in H as (? & ? & _ & H)).
    apply rret_Ok in H as [H _]. discriminate.
Qed.

Lemma spots_of_nonneg self rws :
  Forall (fun rw => 0 <= fst rw) rws ->
  spots_nonneg (Appliance.set_free_spots self (spots_of rws)).
Proof.
  intros H. unfold spots_nonneg, spots_of. simpl.
  apply Forall_forall. intros sp Hsp. apply in_map_iff in Hsp as (rw & <- & Hrw).
  apply filter_In in Hrw as [Hrw _]. rewrite Forall_forall in H. simpl. auto.
Qed.

(** The profile of a run that is neither skipped nor flat: the sentinel
    is at every minute of a randomised window that no event holds. *)
Lemma generate_load_profile_sentinel self user_preference prof_i peak_time_range day_type
    power s self' log s' :
  Appliance.flat (Appliance.cfg self) <> "yes"%string ->
  Appliance.generate_load_profile self user_preference prof_i peak_time_range day_type
    power s = Ok ((self', Some log), s') ->
  exists d,
    Appliance.daily_use (Appliance.run self') = Some d
    /\ List.length d = 1440%nat
    /\ forall t, 0 <= t < 1440 ->
         existsb (fun rw => Appliance.in_window rw t) (Appliance.rand_windows log) = true ->
         (forall e, In e (Appliance.events log) -> ~ In t e) ->
         Np.get d t = (1 # 1000)%Q.
Proof.
  intros Hflat H. apply generate_load_profile_Ok in H.
  destruct H as (rw1 & rw2 & rw3 & s1 & s2 & Hw & B1 & B2 & B3 & Ht & H).
  apply String.eqb_neq in Hflat. rewrite Hflat in H.
  destruct H as (d1 & d2 & d3 & selfc & s3 & H1 & H2 & H3 & Hc & Hl).
  apply assign_full_spec in H1 as (L1 & _ & G1);
    [| lia | unfold Py.len; rewrite zeros_length; lia].
  apply assign_full_spec in H2 as (L2 & _ & G2);
    [| lia | unfold Py.len; rewrite L1, zeros_length; lia].
  apply assign_full_spec in H3 as (L3 & _ & G3);
    [| lia | unfold Py.len; rewrite L2, L1, zeros_length; lia].
  rewrite zeros_length in L1.
  apply assign_random_cycles_frame in Hc as [Hd _]. simpl in Hd.
  eapply while_loop_frame with (d := d3) in Hl as (d & Hd' & [Ld Gd] & _).
  2:{ apply spots_of_nonneg. repeat constructor; lia. }
  2:{ simpl. exact Hd. }
  exists d. split; [exact Hd' |]. split; [congruence |].
  intros t Ht' Hin Hev. rewrite Gd by (lia || assumption).
  rewrite G3 by (unfold Py.len; lia).
  rewrite G2 by (unfold Py.len; lia).
  rewrite G1 by (unfold Py.len; rewrite zeros_length; lia).
  rewrite Hw in Hin. simpl in Hin. rewrite orb_false_r in Hin.
  destruct (Appliance.in_window rw3 t); [reflexivity |].
  destruct (Appliance.in_window rw2 t); [reflexivity |].
  destruct (Appliance.in_window rw1 t); [reflexivity | discriminate].
Qed.

(** Every run leaves a profile of 1440 cells. *)
Lemma generate_load_profile_length self user_preference prof_i peak_time_range day_type
    power s self' olog s' :
  Appliance.generate_load_profile self user_preference prof_i peak_time_range day_type
    power s = Ok ((self', olog), s') ->
  exists d, Appliance.daily_use (Appliance.run self') = Some d /\ List.length d = 1440%nat.
Proof.
  intros H. destruct olog as [log |].
  - destruct (string_dec (Appliance.flat (Appliance.cfg self)) "yes") as [Hf | Hf].
    + destruct (generate_load_profile_flat_values _ _ _ _ _ _ _ _ _ _ _ Hf H)
        as (p & d & _ & _ & _ & _ & _ & Hd & Hl & _).
      eauto.
    + destruct (generate_load_profile_sentinel _ _ _ _ _ _ _ _ _ _ Hf H) as (d & Hd & Hl & _).
      eauto.
  - apply generate_load_profile_skipped in H. subst self'. simpl.
    eexists. split; [reflexivity | apply zeros_length].
Qed.

End Aggregates.

#[local] Arguments Np.add : simpl never.
#[local] Arguments Np.zeros : simpl never.

Section Sums.

Context {U : Utils}.

Lemma apps_loop_sum apps : forall user_preference prof_i peak_time_range day_type load0 s
    apps' load s',
  User.apps_loop apps user_preference prof_i peak_time_range day_type load0 s
  = Ok ((apps', load), s') ->
  List.length load0 = 1440%nat ->
  List.length load = 1440%nat
  /\ forall t, 0 <= t < 1440 -> (Np.get load t == Np.get load0 t + sum_daily apps' t)%Q.
Proof.
  induction apps as [| App apps IH]; intros user_preference prof_i peak_time_range day_type
    load0 s apps' load s' H L0.
  - apply rret_Ok in H as [H _]. inversion H; subst. split; [exact L0 |].
    intros t _. simpl. ring.
  - simpl in H.
    apply rbind_Ok in H as (power & s1 & _ & H).
    apply rbind_Ok in H as ([App' olog] & s2 & Hg & H).
    apply generate_load_profile_length in Hg as (d & Hd & Ld).
    simpl in H. rewrite Hd in H.
    apply rbind_Ok in H as ([rest load1] & s3 & Hr & H).
    apply rret_Ok in H as [H _]. inversion H; subst; clear H.
    apply IH in Hr as [L1 G1]; [| rewrite add_length; congruence].
    split; [exact L1 |]. intros t Ht.
    rewrite G1 by exact Ht.
    rewrite add_get by (unfold Py.len; lia || congruence).
    simpl. unfold daily_at at 1. rewrite Hd. ring.
Qed.

(** The profile of one member of a user category is the sum, cell by
    cell, of the profiles of its appliances. *)
Lemma generate_single_load_profile_sum self prof_i peak_time_range day_type s self'
    single_load s' :
  User.generate_single_load_profile self prof_i peak_time_range day_type s
  = Ok ((self', single_load), s') ->
  List.length single_load = 1440%nat
  /\ User.num_users self' = User.num_users self
  /\ forall t, 0 <= t < 1440 ->
       (Np.get single_load t == sum_daily (User.App_list self') t)%Q.
Proof.
  unfold User.generate_single_load_profile. intros H.
  destruct (negb (Py.in_range prof_i 0 365)); [discriminate |].
  apply rbind_Ok in H as ([apps' load] & s1 & Ha & H).
  apply rret_Ok in H as [H _]. inversion H; subst; clear H.
  apply apps_loop_sum in Ha as [L G]; [| apply zeros_length].
  split; [exact L |]. split; [reflexivity |]. intros t Ht. simpl.
  rewrite G by exact Ht. rewrite zeros_get. ring.
Qed.

End Sums.

Lemma sum_runs_cons r runs t :
  sum_runs (r :: runs) t = (daily_at (run_out r) t + sum_runs runs t)%Q.
Proof. reflexivity. Qed.

Lemma sum_runs_app l1 l2 t :
  (sum_runs (l1 ++ l2) t == sum_runs l1 t + sum_runs l2 t)%Q.
Proof.
  induction l1 as [| r l1 IH]; [simpl; ring |].
  rewrite <- app_comm_cons, !sum_runs_cons, IH. ring.
Qed.

Section RunsOfTheLoops.

Context {U : Utils}.

(** The loop over the appliances makes the calls of [apps_ran], and adds
    the profile of each call to the load. *)
Lemma apps_loop_ran apps : forall user_preference prof_i peak_time_range day_type load0 s
    apps' load s',
  User.apps_loop apps user_preference prof_i peak_time_range day_type load0 s
  = Ok ((apps', load), s') ->
  List.length load0 = 1440%nat ->
  exists runs,
    apps_ran user_preference prof_i peak_time_range day_type apps s runs s'
    /\ apps' = map run_out runs
    /\ List.length load = 1440%nat
    /\ forall t, 0 <= t < 1440 -> (Np.get load t == Np.get load0 t + sum_runs runs t)%Q.
Proof.
  induction apps as [| App apps IH]; intros user_preference prof_i peak_time_range day_type
    load0 s apps' load s' H L0.
  - apply rret_Ok in H as [H ->]. inversion H; subst. exists [].
    split; [constructor |]. split; [reflexivity |]. split; [exact L0 |].
    intros t _. simpl. ring.
  - simpl in H.
    apply rbind_Ok in H as (power & s1 & Hp & H).
    apply rlift_Ok in Hp as [Hp ->].
    apply rbind_Ok in H as ([App' olog] & s2 & Hg & H).
    destruct (generate_load_profile_length _ _ _ _ _ _ _ _ _ _ Hg) as (d & Hd & Ld).
    simpl in H. rewrite Hd in H.
    apply rbind_Ok in H as ([rest load1] & s3 & Hr & H).
    apply rret_Ok in H as [H ->]. inversion H; subst; clear H.
    apply IH in Hr as (runs & Hruns & -> & L1 & G1); [| rewrite add_length; congruence].
    exists ({| run_in := App; run_out := App'; run_log := olog |} :: runs).
    split; [econstructor; eassumption |]. split; [reflexivity |]. split; [exact L1 |].
    intros t Ht. rewrite G1 by exact Ht.
    rewrite add_get by (unfold Py.len; lia || congruence).
    rewrite sum_runs_cons. unfold daily_at at 1. simpl. rewrite Hd. ring.
Qed.

Lemma generate_single_load_profile_ran self prof_i peak_time_range day_type s self'
    single_load s' :
  User.generate_single_load_profile self prof_i peak_time_range day_type s
  = Ok ((self', single_load), s') ->
  exists runs,
    apps_ran (User.user_preference self) prof_i peak_time_range day_type
      (User.App_list self) s runs s'
    /\ self' = User.set_App_list self (map run_out runs)
    /\ List.length single_load = 1440%nat
    /\ forall t, 0 <= t < 1440 -> (Np.get single_load t == sum_runs runs t)%Q.
Proof.
  unfold User.generate_single_load_profile. intros H.
  destruct (negb (Py.in_range prof_i 0 365)); [discriminate |].
  apply rbind_Ok in H as ([apps' load] & s1 & Ha & H).
  apply rret_Ok in H as [H ->]. inversion H; subst; clear H.
  apply apps_loop_ran in Ha as (runs & Hruns & -> & L & G); [| apply zeros_length].
  exists runs. split; [exact Hruns |]. split; [reflexivity |]. split; [exact L |].
  intros t Ht. simpl. rewrite G by exact Ht. rewrite zeros_get. ring.
Qed.

(** The loop over the members of a user category. *)
Lemma members_loop_ran n : forall self prof_i peak_time_range day_type load0 s self' load s',
  User.users_loop n self prof_i peak_time_range day_type load0 s = Ok ((self', load), s') ->
  List.length load0 = 1440%nat ->
  exists members,
    members_ran prof_i peak_time_range day_type n self s members self' s'
    /\ List.length load = 1440%nat
    /\ forall t, 0 <= t < 1440 ->
         (Np.get load t == Np.get load0 t + sum_runs (concat members) t)%Q.
Proof.
  induction n as [| n IH]; intros self prof_i peak_time_range day_type load0 s self' load s'
    H L0.
  - apply rret_Ok in H as [H ->]. inversion H; subst. exists [].
    split; [constructor |]. split; [exact L0 |]. intros t _. simpl. ring.
  - simpl in H.
    apply rbind_Ok in H as ([self1 single] & s1 & Hs & H).
    apply generate_single_load_profile_ran in Hs as (runs & Hruns & -> & L & G).
    simpl in H.
    apply IH in H as (members & Hm & L1 & G1); [| rewrite add_length; congruence].
    exists (runs :: members).
    split; [econstructor; eassumption |]. split; [exact L1 |].
    intros t Ht. rewrite G1 by exact Ht.
    rewrite add_get by (unfold Py.len; lia || congruence).
    rewrite G by exact Ht. cbn [concat]. rewrite ?concat_app, !sum_runs_app. ring.
Qed.

Lemma generate_aggregated_load_profile_ran self prof_i peak_time_range day_type s self'
    load s' :
  User.generate_aggregated_load_profile self prof_i peak_time_range day_type s
  = Ok ((self', load), s') ->
  exists members self1,
    members_ran prof_i peak_time_range day_type (Z.to_nat (User.num_users self)) self s
      members self1 s'
    /\ self' = User.set_load self1 load
    /\ List.length load = 1440%nat
    /\ forall t, 0 <= t < 1440 -> (Np.get load t == sum_runs (concat members) t)%Q.
Proof.
  unfold User.generate_aggregated_load_profile. intros H.
  destruct (negb (Py.in_range prof_i 0 365)); [discriminate |].
  apply rbind_Ok in H as ([self1 load1] & s1 & Hu & H).
  apply rret_Ok in H as [H ->]. inversion H; subst; clear H.
  apply members_loop_ran in Hu as (members & Hm & L & G); [| apply zeros_length].
  exists members, self1. split; [exact Hm |]. split; [reflexivity |]. split; [exact L |].
  intros t Ht. simpl. rewrite G by exact Ht. rewrite zeros_get. ring.
Qed.

(** The loop over the user categories of a use case. *)
Lemma usecase_users_loop_ran us : forall prof_i peak_time_range day_types load0 s us' load s',
  UseCase.users_loop us prof_i peak_time_range day_types load0 s = Ok ((us', load), s') ->
  List.length load0 = 1440%nat ->
  exists day,
    users_ran prof_i peak_time_range day_types us s day us' s'
    /\ List.length load = 1440%nat
    /\ forall t, 0 <= t < 1440 ->
         (Np.get load t == Np.get load0 t + sum_runs (concat (concat day)) t)%Q.
Proof.
  induction us as [| u us IH]; intros prof_i peak_time_range day_types load0 s us' load s'
    H L0.
  - apply rret_Ok in H as [H ->]. inversion H; subst. exists [].
    split; [constructor |]. split; [exact L0 |]. intros t _. simpl. ring.
  - simpl in H.
    apply rbind_Ok in H as ([u' l] & s1 & Hg & H).
    apply rbind_Ok in H as ([rest load1] & s2 & Hr & H).
    apply rret_Ok in H as [H ->]. inversion H; subst; clear H.
    apply generate_aggregated_load_profile_ran in Hg as (members & u1 & Hm & -> & L & G).
    simpl in Hr.
    apply IH in Hr as (day & Hday & L1 & G1); [| rewrite add_length; congruence].
    exists (members :: day).
    split; [econstructor; eassumption |]. split; [exact L1 |].
    intros t Ht. rewrite G1 by exact Ht.
    rewrite add_get by (unfold Py.len; lia || congruence).
    rewrite G by exact Ht. cbn [concat]. rewrite ?concat_app, !sum_runs_app. ring.
Qed.

(** The loop over the days of a use case. *)
Lemma profiles_loop_ran days : forall self peak_time_range day_types s self' profiles s',
  UseCase.profiles_loop self days peak_time_range day_types s = Ok ((self', profiles), s') ->
  exists traces,
    days_ran peak_time_range day_types days (UseCase.users self) s traces
      (UseCase.users self') s'
    /\ Forall2 (fun usecase_load day =>
                  List.length usecase_load = 1440%nat
                  /\ forall t, 0 <= t < 1440 ->
                       (Np.get usecase_load t == sum_runs (concat (concat day)) t)%Q)
         profiles traces.
Proof.
  induction days as [| prof_i days IH]; intros self peak_time_range day_types s self'
    profiles s' H.
  - apply rret_Ok in H as [H ->]. inversion H; subst. exists [].
    split; constructor.
  - simpl in H.
    apply rbind_Ok in H as ([us1 load] & s1 & Hu & H).
    apply rbind_Ok in H as ([self1 rest] & s2 & Hr & H).
    apply rret_Ok in H as [H ->]. inversion H; subst; clear H.
    apply usecase_users_loop_ran in Hu as (day & Hday & L & G); [| apply zeros_length].
    simpl in Hr. apply IH in Hr as (traces & Ht & HF). simpl in Ht.
    exists (day :: traces).
    split; [econstructor; eassumption |].
    constructor; [| exact HF]. split; [exact L |].
    intros t Ht'. simpl. rewrite G by exact Ht'. rewrite zeros_get. ring.
Qed.

(** Every call of the loops is a call of [generate_load_profile]. *)
Lemma apps_ran_genuine user_preference prof_i peak_time_range day_type apps s runs s' :
  apps_ran user_preference prof_i peak_time_range day_type apps s runs s' ->
  Forall (genuine_run peak_time_range day_type) runs.
Proof.
  induction 1 as [| App apps power s App' olog s1 runs s2 Hp Hg _ IH]; constructor;
    [| exact IH].
  exists user_preference, prof_i, power, s, s1. simpl. split; assumption.
Qed.

Lemma members_ran_genuine prof_i peak_time_range day_type n self s members self' s' :
  members_ran prof_i peak_time_range day_type n self s members self' s' ->
  Forall (genuine_run peak_time_range day_type) (concat members).
Proof.
  induction 1 as [| n self s runs s1 members self' s' Ha _ IH]; [constructor |].
  simpl. apply Forall_app. split; [| exact IH].
  eapply apps_ran_genuine; eassumption.
Qed.

Lemma users_ran_genuine prof_i peak_time_range day_types us s day us' s' :
  users_ran prof_i peak_time_range day_types us s day us' s' ->
  Forall (genuine_run peak_time_range day_types) (concat (concat day)).
Proof.
  induction 1 as [| user us s members user1 s1 load day us' s2 Hm _ _ _ IH];
    [constructor |].
  simpl. rewrite concat_app. apply Forall_app. split; [| exact IH].
  eapply members_ran_genuine; eassumption.
Qed.

Lemma days_ran_genuine peak_time_range day_types days us s traces us' s' :
  days_ran peak_time_range day_types days us s traces us' s' ->
  Forall (fun day => Forall (genuine_run peak_time_range day_types) (concat (concat day)))
    traces.
Proof.
  induction 1 as [| prof_i days us s day us1 s1 traces us' s' Hu _ IH]; constructor;
    [| exact IH].
  eapply users_ran_genuine; eassumption.
Qed.

(** The sentinel of a call is a term of the sum over the calls. *)
Lemma genuine_runs_keep_sentinels peak_time_range day_type runs :
  Forall (genuine_run peak_time_range day_type) runs -> sentinels_kept runs.
Proof.
  intros HF r log t Hin Hflat Hlog Ht Hw He.
  rewrite Forall_forall in HF.
  destruct (HF r Hin) as (user_preference & prof_i & power & s & s' & _ & Hg).
  rewrite Hlog in Hg.
  destruct (generate_load_profile_sentinel _ _ _ _ _ _ _ _ _ _ Hflat Hg)
    as (d & Hd & _ & Hv).
  apply in_split in Hin as (before & after & ->).
  exists before, after. split; [reflexivity |].
  rewrite !sum_runs_app, sum_runs_cons. unfold daily_at at 1. rewrite Hd.
  rewrite (Hv t Ht Hw He). ring.
Qed.

End RunsOfTheLoops.

(** C10: after a run that is neither skipped nor flat, every minute of a
    randomised window that no switch-on event holds has the sentinel
    0.001 in [daily_use]. The aggregates carry it. The profile of a
    member of a user category is made by one call of
    [generate_load_profile] for each appliance of [App_list], in order,
    and is at every minute the sum of the profiles that these calls
    left; the load of a user category is the same sum over the calls of
    all its [num_users] members, and the profile of a day of a use case
    the same sum over the calls of all the members of all its user
    categories on that day, for any number of days. In each of these
    sums the sentinel of a call is a term: at such a minute the
    aggregate is 0.001 plus the sum over the other calls. *)
Theorem sentinel_minutes_are_kept :
  forall (U : Utils),
    (forall self user_preference prof_i peak_time_range day_type power s self' log s',
        Appliance.flat (Appliance.cfg self) <> "yes"%string ->
        Appliance.generate_load_profile self user_preference prof_i peak_time_range
          day_type power s = Ok ((self', Some log), s') ->
        exists d,
          Appliance.daily_use (Appliance.run self') = Some d
          /\ List.length d = 1440%nat
          /\ forall t, 0 <= t < 1440 ->
               existsb (fun rw => Appliance.in_window rw t) (Appliance.rand_windows log)
               = true ->
               (forall e, In e (Appliance.events log) -> ~ In t e) ->
               Np.get d t = (1 # 1000)%Q)
    /\ (forall self prof_i peak_time_range day_type s self' single_load s',
        User.generate_single_load_profile self prof_i peak_time_range day_type s
        = Ok ((self', single_load), s') ->
        exists runs,
          apps_ran (User.user_preference self) prof_i peak_time_range day_type
            (User.App_list self) s runs s'
          /\ self' = User.set_App_list self (map run_out runs)
          /\ sentinels_kept runs
          /\ forall t, 0 <= t < 1440 -> (Np.get single_load t == sum_runs runs t)%Q)
    /\ (forall self prof_i peak_time_range day_type s self' load s',
        User.generate_aggregated_load_profile self prof_i peak_time_range day_type s
        = Ok ((self', load), s') ->
        exists members self1,
          members_ran prof_i peak_time_range day_type (Z.to_nat (User.num_users self))
            self s members self1 s'
          /\ self' = User.set_load self1 load
          /\ sentinels_kept (concat members)
          /\ forall t, 0 <= t < 1440 ->
               (Np.get load t == sum_runs (concat members) t)%Q)
    /\ (forall self num_profiles peak_time_range day_types s self' profiles s',
        UseCase.generate_daily_load_profiles self num_profiles peak_time_range day_types s
        = Ok ((self', profiles), s') ->
        exists traces,
          days_ran peak_time_range day_types (Py.range 0 num_profiles) (UseCase.users self)
            s traces (UseCase.users self') s'
          /\ Forall2 (fun usecase_load day =>
                        sentinels_kept (concat (concat day))
                        /\ forall t, 0 <= t < 1440 ->
                             (Np.get usecase_load t
                              == sum_runs (concat (concat day)) t)%Q)
               profiles traces).
Proof.
  intros U. split; [| split; [| split]].
  - intros. eapply generate_load_profile_sentinel; eauto.
  - intros self prof_i peak_time_range day_type s self' single_load s' H.
    apply generate_single_load_profile_ran in H as (runs & Hr & Hs & _ & G).
    exists runs. split; [exact Hr |]. split; [exact Hs |]. split; [| exact G].
    eapply genuine_runs_keep_sentinels, apps_ran_genuine, Hr.
  - intros self prof_i peak_time_range day_type s self' load s' H.
    apply generate_aggregated_load_profile_ran in H as (members & self1 & Hm & Hs & _ & G).
    exists members, self1. split; [exact Hm |]. split; [exact Hs |]. split; [| exact G].
    eapply genuine_runs_keep_sentinels, members_ran_genuine, Hm.
  - intros self num_profiles peak_time_range day_types s self' profiles s' H.
    unfold UseCase.generate_daily_load_profiles in H.
    apply profiles_loop_ran in H as (traces & Hd & HF).
    exists traces. split; [exact Hd |].
    apply days_ran_genuine in Hd. clear - Hd HF.
    induction HF as [| usecase_load day profiles traces [_ G] _ IH]; [constructor |].
    inversion Hd as [| ? ? Hg Hd']; subst.
    constructor; [| exact (IH Hd')].
    split; [| exact G]. eapply genuine_runs_keep_sentinels, Hg.
Qed.

(** The theorem at a village of one household that owns a kettle which
    may run from 08:00 to 08:10, on one day and with an exhausted
    generator: the kettle runs at 08:00, and the profile of the village
    has the sentinel at 08:05. *)
Lemma sentinel_minutes_are_kept_witness :
  exists kettle self' usecase_load,
    Appliance.windows Examples.new_kettle (Some (480, 490)) None 0 None = Ok kettle
    /\ UseCase.generate_daily_load_profiles (U := SpecUtils.utils (1 # 2) (1 # 2) (1 # 2))
         (Examples.village (Examples.household [kettle])) 1 [700; 701] (DayInt 0) []
       = Ok ((self', [usecase_load]), [])
    /\ (Np.get usecase_load 485 == 1 # 1000)%Q.
Proof.
  destruct (Appliance.windows Examples.new_kettle (Some (480, 490)) None 0 None)
    as [kettle |] eqn:E; [| vm_compute in E; discriminate].
  destruct (UseCase.generate_daily_load_profiles
              (U := SpecUtils.utils (1 # 2) (1 # 2) (1 # 2))
              (Examples.village (Examples.household [kettle])) 1 [700; 701] (DayInt 0) [])
    as [[[self' profiles] s'] |] eqn:G;
    [| vm_compute in E; inversion E; subst kettle; vm_compute in G; discriminate].
  destruct (sentinel_minutes_are_kept (SpecUtils.utils (1 # 2) (1 # 2) (1 # 2)))
    as (_ & _ & _ & Hcase).
  destruct (Hcase _ _ _ _ _ _ _ _ G) as (traces & Hd & HF).
  change (Py.range 0 1) with [0] in Hd.
  inversion Hd as [| ? ? ? ? day us1 s1 traces0 ? ? Hu Hd0]; subst.
  inversion Hd0; subst.
  inversion Hu as [| ? ? ? members user1 s2 load day0 us0 ? Hm _ _ Hu0]; subst.
  inversion Hu0; subst.
  change (Z.to_nat (User.num_users (Examples.household [kettle]))) with 1%nat in Hm.
  inversion Hm as [| ? ? ? runs s3 members0 ? ? Ha Hm0]; subst.
  inversion Hm0; subst.
  inversion Ha as [| ? ? power ? App' olog s4 runs0 ? Hp Hg Ha0]; subst.
  inversion Ha0; subst.
  inversion HF as [| usecase_load ? ? ? [Hkept Hsum] HF0]; subst.
  inversion HF0; subst.
  cbn [concat app] in Hkept, Hsum.
  assert (Hlog : s' = [] /\ exists log,
            olog = Some log /\ Appliance.events log = [[480]]
            /\ Appliance.rand_windows log = [(480, 490); (0, 0); (0, 0)]).
  { vm_compute in E; inversion E; subst kettle.
    vm_compute in Hp; inversion Hp; subst power.
    vm_compute in Hg; inversion Hg; subst. split; [reflexivity |].
    eexists. split; [reflexivity |]. split; reflexivity. }
  destruct Hlog as (-> & log & -> & Hev & Hrw).
  exists kettle, self', usecase_load. split; [reflexivity |]. split; [exact G |].
  destruct (Hkept _ log 485 (or_introl eq_refl)) as (before & after & Hsplit & Hval).
  - vm_compute in E; inversion E; simpl. discriminate.
  - reflexivity.
  - lia.
  - rewrite Hrw. reflexivity.
  - rewrite Hev. intros e [<- | []] [Hc | []]. discriminate.
  - rewrite Hsum by lia. rewrite Hval.
    destruct before as [| b before].
    + inversion Hsplit; subst. simpl. ring.
    + inversion Hsplit as [[Hb Hnil]]. destruct before; discriminate.
Defined.

(* ===================================================================== *)
(** * The guard on the day index                                          *)
(* ===================================================================== *)

Lemma rquiet_bind {A B : Type} (r : result A) (k : A -> result B) :
  rquiet r -> (forall a, rquiet (k a)) -> rquiet (Py.bind r k).
Proof.
  unfold rquiet. destruct r as [a | e]; simpl; intros Hr Hk; [apply Hk |].
  intros E. apply Hr. inversion E. reflexivity.
Qed.

Lemma quiet_bind {A B : Type} (m : Random.M A) (k : A -> Random.M B) :
  quiet m -> (forall a, quiet (k a)) -> quiet (Random.bind m k).
Proof.
  unfold quiet, rquiet, Random.bind. intros Hm Hk s.
  specialize (Hm s). destruct (m s) as [[a s1] | e]; [apply Hk |].
  intros E. apply Hm. inversion E. reflexivity.
Qed.

Lemma quiet_ret {A : Type} (a : A) : quiet (Random.ret a).
Proof. intros s. unfold rquiet, Random.ret. discriminate. Qed.

Lemma quiet_lift {A : Type} (r : result A) : rquiet r -> quiet (Random.lift r).
Proof.
  unfold quiet, rquiet, Random.lift. intros H s. destruct r as [a | e]; [discriminate |].
  intros E. apply H. inversion E. reflexivity.
Qed.

Lemma quiet_raise {A : Type} (e : exn) : e <> prof_i_error -> quiet (@Random.raise A e).
Proof. unfold quiet, rquiet, Random.raise. intros H s E. inversion E. contradiction. Qed.

Lemma quiet_random : quiet Random.random.
Proof. intros s. unfold rquiet, Random.random. discriminate. Qed.

Lemma quiet_gauss mu sigma : quiet (Random.gauss mu sigma).
Proof. intros s. unfold rquiet, Random.gauss. discriminate. Qed.

Lemma quiet_uniform a b : quiet (Random.uniform a b).
Proof.
  unfold Random.uniform. apply quiet_bind; [apply quiet_random | intros; apply quiet_ret].
Qed.

Lemma quiet_randint a b : quiet (Random.randint a b).
Proof.
  unfold Random.randint. destruct (b <? a).
  - apply quiet_raise. discriminate.
  - apply quiet_bind; [apply quiet_random | intros; apply quiet_ret].
Qed.

Lemma rquiet_getitem {A : Type} (l : list A) i : rquiet (Py.getitem l i).
Proof.
  unfold rquiet, Py.getitem. destruct (nth_error l _); [destruct (0 <=? _) |]; discriminate.
Qed.

Lemma rquiet_assign_full a w v : rquiet (Np.assign_full a w v).
Proof.
  unfold rquiet, Np.assign_full.
  destruct (_ <? 0); [discriminate |]. destruct (_ || _); discriminate.
Qed.

Lemma rquiet_put a ind v : rquiet (Np.put a ind v).
Proof.
  unfold Np.put. destruct v as [| x v]; [discriminate |].
  generalize 0%nat. revert a. induction ind as [| i ind IH]; intros a k; simpl.
  - discriminate.
  - destruct (_ && _); [apply IH | discriminate].
Qed.

Lemma rquiet_getattr_window w i : rquiet (Appliance.getattr_window w i).
Proof.
  unfold rquiet, Appliance.getattr_window.
  destruct (i =? 1); [discriminate |]. destruct (i =? 2); [discriminate |].
  destruct (i =? 3); discriminate.
Qed.

Lemma rquiet_getattr_random_var w i : rquiet (Appliance.getattr_random_var w i).
Proof.
  unfold rquiet, Appliance.getattr_random_var.
  destruct (i =? 1); [discriminate |]. destruct (i =? 2); [discriminate |].
  destruct (i =? 3); discriminate.
Qed.

Lemma rquiet_update_available_time self indexes :
  rquiet (Appliance.update_available_time_for_switch_on_events self indexes).
Proof.
  unfold Appliance.update_available_time_for_switch_on_events.
  destruct (Appliance.free_spots (Appliance.run self)) as [| sp fs]; [discriminate |].
  apply rquiet_bind; [apply rquiet_getitem | intros first].
  apply rquiet_bind; [apply rquiet_getitem | intros last].
  destruct (Appliance.find_spot_to_split _ _ _ _); discriminate.
Qed.

Create HintDb quiet.

#[local] Hint Resolve quiet_ret quiet_random quiet_gauss quiet_uniform quiet_randint
  rquiet_getitem rquiet_assign_full rquiet_put rquiet_getattr_window
  rquiet_getattr_random_var rquiet_update_available_time
  quiet_random_variation quiet_duty_cycle quiet_random_choice : quiet.

(** One step of a proof that a computation is quiet: close the goal
    with a known fact, or open the head construct. *)
Ltac quiet_step :=
  first
    [ solve [eauto with quiet]
    | apply quiet_bind; [| intros ?]
    | apply quiet_lift
    | apply quiet_raise; discriminate
    | apply rquiet_bind; [| intros ?]
    | match goal with
      | |- quiet (if ?c then _ else _) => destruct c
      | |- quiet (match ?x with _ => _ end) => destruct x
      | |- rquiet (if ?c then _ else _) => destruct c
      | |- rquiet (match ?x with _ => _ end) => destruct x
      | |- rquiet (Ok _) => discriminate
      | |- rquiet (Raise _) => discriminate
      end ].

Section Quiet.

Context {U : Utils} (QU : quiet_utils U).

Lemma quiet_assign_random_cycles self : quiet (Appliance.assign_random_cycles self).
Proof. unfold Appliance.assign_random_cycles. repeat quiet_step. Qed.

Lemma quiet_update_daily_use self c p indexes :
  quiet (Appliance.update_daily_use self c p indexes).
Proof. unfold Appliance.update_daily_use. repeat quiet_step. Qed.

Lemma quiet_calc_rand_window self i : quiet (Appliance.calc_rand_window self i).
Proof. unfold Appliance.calc_rand_window. repeat quiet_step. Qed.

Lemma quiet_rand_total_time_of_use self w1 w2 w3 :
  quiet (Appliance.rand_total_time_of_use self w1 w2 w3).
Proof. unfold Appliance.rand_total_time_of_use. repeat quiet_step. Qed.

Lemma quiet_rand_switch_on_window self rand_time :
  quiet (Appliance.rand_switch_on_window self rand_time).
Proof. unfold Appliance.rand_switch_on_window. repeat quiet_step. Qed.

Lemma quiet_calc_coincident_switch_on self inside :
  quiet (Appliance.calc_coincident_switch_on self inside).
Proof. unfold Appliance.calc_coincident_switch_on. repeat quiet_step. Qed.

#[local] Hint Resolve quiet_assign_random_cycles quiet_update_daily_use
  quiet_calc_rand_window quiet_rand_total_time_of_use quiet_rand_switch_on_window
  quiet_calc_coincident_switch_on : quiet.

Lemma quiet_switch_on_event self power peak_time_range indexes :
  quiet (Appliance.switch_on_event self power peak_time_range indexes).
Proof. unfold Appliance.switch_on_event. repeat quiet_step. Qed.

#[local] Hint Resolve quiet_switch_on_event : quiet.

Lemma quiet_loop_body self rand_time tot_time power peak_time_range :
  quiet (Appliance.loop_body self rand_time tot_time power peak_time_range).
Proof. unfold Appliance.loop_body. repeat quiet_step. Qed.

#[local] Hint Resolve quiet_loop_body : quiet.

Lemma quiet_while_loop fuel : forall self rand_time tot_time power peak_time_range,
  quiet (Appliance.while_loop fuel self rand_time tot_time power peak_time_range).
Proof.
  induction fuel as [| fuel IH]; intros.
  - rewrite while_loop_O. apply quiet_ret.
  - rewrite while_loop_S. repeat quiet_step.
Qed.

#[local] Hint Resolve quiet_while_loop : quiet.

Lemma quiet_generate_load_profile self user_preference prof_i peak_time_range day_type power :
  quiet (Appliance.generate_load_profile self user_preference prof_i peak_time_range
           day_type power).
Proof. unfold Appliance.generate_load_profile. cbv zeta. repeat quiet_step. Qed.

#[local] Hint Resolve quiet_generate_load_profile : quiet.

Lemma quiet_apps_loop apps : forall user_preference prof_i peak_time_range day_type load,
  quiet (User.apps_loop apps user_preference prof_i peak_time_range day_type load).
Proof.
  induction apps as [| App apps IH]; intros; simpl; repeat quiet_step.
Qed.

#[local] Hint Resolve quiet_apps_loop : quiet.

(** Inside the range the guard of [generate_single_load_profile]
    passes. *)
Lemma quiet_generate_single_load_profile self prof_i peak_time_range day_type :
  0 <= prof_i < 365 ->
  quiet (User.generate_single_load_profile self prof_i peak_time_range day_type).
Proof.
  intros H. unfold User.generate_single_load_profile, Py.in_range.
  replace ((0 <=? prof_i) && (prof_i <? 365)) with true
    by (symmetry; apply andb_true_iff; split; [apply Z.leb_le | apply Z.ltb_lt]; lia).
  cbn [negb]. repeat quiet_step.
Qed.

Lemma quiet_users_loop n : forall self prof_i peak_time_range day_type load,
  0 <= prof_i < 365 ->
  quiet (User.users_loop n self prof_i peak_time_range day_type load).
Proof.
  induction n as [| n IH]; intros; simpl.
  - apply quiet_ret.
  - apply quiet_bind; [now apply quiet_generate_single_load_profile | intros; now apply IH].
Qed.

Lemma quiet_generate_aggregated_load_profile self prof_i peak_time_range day_type :
  0 <= prof_i < 365 ->
  quiet (User.generate_aggregated_load_profile self prof_i peak_time_range day_type).
Proof.
  intros H. unfold User.generate_aggregated_load_profile, Py.in_range.
  replace ((0 <=? prof_i) && (prof_i <? 365)) with true
    by (symmetry; apply andb_true_iff; split; [apply Z.leb_le | apply Z.ltb_lt]; lia).
  cbn [negb]. apply quiet_bind; [now apply quiet_users_loop | intros; apply quiet_ret].
Qed.

End Quiet.

Lemma guard_fails prof_i :
  ~ 0 <= prof_i < 365 -> negb (Py.in_range prof_i 0 365) = true.
Proof.
  intros H. unfold Py.in_range. apply negb_true_iff, andb_false_iff.
  destruct (Z.lt_ge_cases prof_i 0); [left; apply Z.leb_gt; lia |].
  right. apply Z.ltb_ge. lia.
Qed.

(** The run of the lamps of scenario S1 on any day of the power series,
    for every state of the generator. *)
Lemma lamp_run lamp s_peak mu_peak op_factor prof_i peak_time_range day power s :
  Appliance.windows Examples.new_lamp (Some (480, 600)) None 0 None = Ok lamp ->
  0 <= prof_i < 366 ->
  Appliance.generate_load_profile (U := SpecUtils.utils s_peak mu_peak op_factor)
    lamp 0 prof_i peak_time_range (DayInt day) power s
  = Ok ((Appliance.set_daily_use (Appliance.set_daily_use lamp (Np.zeros 1440))
           (flat_profile (480, 600) (0, 0) (0, 0) (100 * 1 * inject_Z 2)%Q),
         Some {| Appliance.rand_windows := [(480, 600); (0, 0); (0, 0)];
                 Appliance.rand_time := steady_rand_time lamp;
                 Appliance.events := [] |}),
        skipn 8 s).
Proof.
  intros E Hi.
  assert (Hcfg : Appliance.cfg lamp = Examples.lamp_config)
    by (vm_compute in E; inversion E; reflexivity).
  assert (Hpow : Appliance.power lamp = Appliance.power Examples.new_lamp)
    by (vm_compute in E; inversion E; reflexivity).
  assert (Hwin : Appliance.win lamp
                 = {| Appliance.random_var_w := 0;
                      Appliance.window_1 := (480, 600);
                      Appliance.window_2 := (0, 0);
                      Appliance.window_3 := (0, 0);
                      Appliance.random_var_1 := 0;
                      Appliance.random_var_2 := 0;
                      Appliance.random_var_3 := 0 |})
    by (vm_compute in E; inversion E; reflexivity).
  clear E.
  assert (St : steady lamp).
  { constructor; rewrite ?Hwin, ?Hcfg; simpl; try reflexivity;
      try (unfold valid_window; simpl; lia); apply Qle_refl. }
  pose proof (generate_load_profile_flat_steady s_peak mu_peak op_factor lamp prof_i
                peak_time_range (DayInt day) power (100 * 1)%Q s St) as R.
  rewrite Hwin, Hcfg in R. cbn [Appliance.window_1 Appliance.window_2
    Appliance.window_3 Appliance.number Examples.lamp_config] in R.
  apply R.
  - reflexivity.
  - unfold Appliance.wd_we_type_allowed. rewrite Hcfg. simpl. apply orb_true_r.
  - unfold steady_rand_time. rewrite Hwin, Hcfg. vm_compute. discriminate.
  - rewrite Hpow. apply (getitem_broadcast (fun one => (100 * one)%Q)). exact Hi.
Qed.

(** The household of the lamps is served on every day of [0, 365). *)
Lemma lamp_household_served lamp s_peak mu_peak op_factor prof_i peak_time_range day s :
  Appliance.windows Examples.new_lamp (Some (480, 600)) None 0 None = Ok lamp ->
  0 <= prof_i < 365 ->
  exists self' single_load,
    User.generate_single_load_profile (U := SpecUtils.utils s_peak mu_peak op_factor)
      (Examples.household [lamp]) prof_i peak_time_range (DayInt day) s
    = Ok ((self', single_load), skipn 8 s)
    /\ (Np.get single_load 500 == 200)%Q.
Proof.
  intros E Hi. unfold User.generate_single_load_profile.
  replace (negb (Py.in_range prof_i 0 365)) with false.
  2:{ symmetry. apply negb_false_iff. unfold Py.in_range. apply andb_true_iff.
      split; [apply Z.leb_le | apply Z.ltb_lt]; lia. }
  cbn [User.apps_loop Examples.household User.App_list User.user_preference].
  assert (Hp : Py.getitem (Appliance.power lamp) prof_i = Ok (100 * 1)%Q).
  { assert (Hpow : Appliance.power lamp = Appliance.power Examples.new_lamp)
      by (vm_compute in E; inversion E; reflexivity).
    rewrite Hpow. apply (getitem_broadcast (fun one => (100 * one)%Q)). lia. }
  unfold Random.bind, Random.lift. rewrite Hp.
  rewrite (lamp_run lamp s_peak mu_peak op_factor prof_i peak_time_range day _ s E)
    by lia.
  cbn [fst snd Appliance.set_daily_use Appliance.set_run Appliance.run
       Appliance.daily_use].
  unfold Random.ret. do 2 eexists. split; [reflexivity |].
  cbn [fst snd].
  rewrite add_get by (unfold Py.len; rewrite ?fill_from_length, ?zeros_length;
                      unfold flat_profile; rewrite ?fill_from_length, ?zeros_length;
                      try reflexivity; lia).
  rewrite zeros_get, flat_profile_get by lia.
  vm_compute. reflexivity.
Qed.

(** C8, as the code has it: the two methods raise the error of the day
    index exactly when [prof_i] is out of [0, 365), so the days accepted
    are [0 .. 364] and day 365 is refused. The utilities are any that do
    not raise that error themselves. *)
Theorem day_index_guard :
  forall (U : Utils), quiet_utils U ->
  forall self prof_i peak_time_range day_type s,
    (0 <= prof_i < 365 ->
       User.generate_single_load_profile self prof_i peak_time_range day_type s
       <> Raise prof_i_error
       /\ User.generate_aggregated_load_profile self prof_i peak_time_range day_type s
          <> Raise prof_i_error)
    /\ (~ 0 <= prof_i < 365 ->
       User.generate_single_load_profile self prof_i peak_time_range day_type s
       = Raise prof_i_error
       /\ User.generate_aggregated_load_profile self prof_i peak_time_range day_type s
          = Raise prof_i_error).
Proof.
  intros U QU self prof_i peak_time_range day_type s. split; intros H; split.
  - now apply quiet_generate_single_load_profile.
  - now apply quiet_generate_aggregated_load_profile.
  - unfold User.generate_single_load_profile. now rewrite guard_fails.
  - unfold User.generate_aggregated_load_profile. now rewrite guard_fails.
Qed.

Lemma spec_utils_quiet s_peak mu_peak op_factor :
  quiet_utils (SpecUtils.utils s_peak mu_peak op_factor).
Proof.
  assert (Hrv : forall var norm, quiet (SpecUtils.random_variation var norm)).
  { intros. unfold SpecUtils.random_variation. repeat quiet_step. }
  constructor; cbn [random_variation duty_cycle random_choice SpecUtils.utils].
  - exact Hrv.
  - intros. unfold SpecUtils.duty_cycle. repeat quiet_step.
  - intros. unfold SpecUtils.random_choice.
    apply quiet_bind; [apply Hrv | intros v1].
    apply quiet_bind; [apply Hrv | intros v2].
    generalize (Z.to_nat (Py.round (inject_Z t1 * v1))
                + Z.to_nat (Py.round (inject_Z t2 * v2)))%nat.
    intros n. induction n as [| n IH]; simpl; repeat quiet_step.
Qed.

(** The theorem at the household of the lamps: day 364 passes the
    guard, and the call returns. *)
Lemma day_index_guard_witness :
  exists lamp,
    Appliance.windows Examples.new_lamp (Some (480, 600)) None 0 None = Ok lamp
    /\ User.generate_single_load_profile (U := SpecUtils.utils (1 # 2) (1 # 2) (1 # 2))
         (Examples.household [lamp]) 364 [700; 701] (DayInt 0) []
       <> Raise prof_i_error
    /\ exists self' single_load,
         User.generate_single_load_profile (U := SpecUtils.utils (1 # 2) (1 # 2) (1 # 2))
           (Examples.household [lamp]) 364 [700; 701] (DayInt 0) []
         = Ok ((self', single_load), []).
Proof.
  destruct (Appliance.windows Examples.new_lamp (Some (480, 600)) None 0 None)
    as [lamp |] eqn:E; [| vm_compute in E; discriminate].
  exists lamp. split; [reflexivity |]. split.
  - apply (day_index_guard (SpecUtils.utils (1 # 2) (1 # 2) (1 # 2))
             (spec_utils_quiet _ _ _) (Examples.household [lamp]) 364 [700; 701]
             (DayInt 0) []). lia.
  - destruct (lamp_household_served lamp (1 # 2) (1 # 2) (1 # 2) 364 [700; 701] 0 [] E)
      as (self' & single_load & H & _); [lia |]. eauto.
Defined.

(** C8 as the specification states it fails: day 365, which the claim
    takes as accepted, is refused by both methods with the error of the
    day index, although the power series of the lamps has a value for
    it. *)
Lemma day_365_is_refused :
  exists lamp,
    Appliance.windows Examples.new_lamp (Some (480, 600)) None 0 None = Ok lamp
    /\ Py.getitem (Appliance.power lamp) 365 = Ok (100 # 1)%Q
    /\ User.generate_single_load_profile (U := SpecUtils.utils (1 # 2) (1 # 2) (1 # 2))
         (Examples.household [lamp]) 365 [700; 701] (DayInt 0) []
       = Raise (ValueError "prof_i should be an integer in range of 0 to 364")
    /\ User.generate_aggregated_load_profile (U := SpecUtils.utils (1 # 2) (1 # 2) (1 # 2))
         (Examples.household [lamp]) 365 [700; 701] (DayInt 0) []
       = Raise (ValueError "prof_i should be an integer in range of 0 to 364").
Proof.
  eexists. split; [vm_compute; reflexivity |].
  split; [vm_compute; reflexivity |]. split; reflexivity.
Qed.

(* ===================================================================== *)
(** * The day type in the sequential and in the parallel mode             *)
(* ===================================================================== *)

(** Against the whole sequence of day types, only an appliance of every
    day is allowed: the day does not matter. *)
Lemma wd_we_type_allowed_list self l :
  Appliance.wd_we_type_allowed self (DayList l)
  = (Appliance.wd_we_type (Appliance.cfg self) =? 2).
Proof. reflexivity. Qed.

(** An appliance that the day type does not allow is skipped after one
    draw, whatever the draw. *)
Lemma generate_load_profile_not_allowed {U : Utils} self prof_i peak_time_range day_type
    power s :
  Appliance.wd_we_type_allowed self day_type = false ->
  Appliance.generate_load_profile self 0 prof_i peak_time_range day_type power s
  = Ok ((Appliance.set_daily_use self (Np.zeros 1440), None), skipn 1 s).
Proof.
  intros H. unfold Appliance.generate_load_profile. cbv zeta.
  change (0 =? 0) with true. cbv iota.
  unfold Random.bind at 1. unfold Random.ret at 1.
  destruct (uniform_spec 0 1 s) as (u & Hu & _).
  unfold Random.bind at 1. rewrite Hu.
  change (Appliance.wd_we_type_allowed (Appliance.set_daily_use self (Np.zeros 1440)) day_type)
    with (Appliance.wd_we_type_allowed self day_type).
  rewrite H. cbn [negb]. rewrite orb_true_r. unfold Random.ret.
  change (snd (Random.next s)) with (snd (Random.next (skipn 0 s))).
  now rewrite next_skipn.
Qed.

(** The load of a user category of one member and one appliance, when
    the appliance is not allowed. *)
Lemma household_skipped {U : Utils} (u : User.t) a prof_i peak_time_range day_type p s :
  User.num_users u = 1 ->
  User.user_preference u = 0 ->
  User.App_list u = [a] ->
  0 <= prof_i < 365 ->
  Py.getitem (Appliance.power a) prof_i = Ok p ->
  Appliance.wd_we_type_allowed a day_type = false ->
  User.generate_aggregated_load_profile u prof_i peak_time_range day_type s
  = Ok ((User.set_load
           (User.set_App_list u [Appliance.set_daily_use a (Np.zeros 1440)])
           (Np.add (Np.zeros 1440) (Np.add (Np.zeros 1440) (Np.zeros 1440))),
         Np.add (Np.zeros 1440) (Np.add (Np.zeros 1440) (Np.zeros 1440))),
        skipn 1 s).
Proof.
  intros Hn Hpref Happs Hi Hp Hday.
  assert (Hg : negb (Py.in_range prof_i 0 365) = false).
  { apply negb_false_iff. unfold Py.in_range. apply andb_true_iff.
    split; [apply Z.leb_le | apply Z.ltb_lt]; lia. }
  unfold User.generate_aggregated_load_profile. rewrite Hg, Hn.
  change (Z.to_nat 1) with 1%nat. cbn [User.users_loop].
  unfold User.generate_single_load_profile. rewrite Hg, Happs, Hpref.
  cbn [User.apps_loop].
  unfold Random.bind, Random.lift. rewrite Hp.
  rewrite (generate_load_profile_not_allowed a prof_i peak_time_range day_type p s Hday).
  cbn [fst snd Appliance.set_daily_use Appliance.set_run Appliance.run
       Appliance.daily_use].
  reflexivity.
Qed.

(** The run of a lamp of scenario S1, used every day or on weekdays
    only, on a day that its day type allows. *)
Lemma flat_lamp_run new lamp s_peak mu_peak op_factor prof_i peak_time_range day_type
    power s :
  new = Examples.new_lamp \/ new = Examples.new_weekday_lamp ->
  Appliance.windows new (Some (480, 600)) None 0 None = Ok lamp ->
  0 <= prof_i < 366 ->
  Appliance.wd_we_type_allowed lamp day_type = true ->
  Appliance.generate_load_profile (U := SpecUtils.utils s_peak mu_peak op_factor)
    lamp 0 prof_i peak_time_range day_type power s
  = Ok ((Appliance.set_daily_use (Appliance.set_daily_use lamp (Np.zeros 1440))
           (flat_profile (480, 600) (0, 0) (0, 0) (100 * 1 * inject_Z 2)%Q),
         Some {| Appliance.rand_windows := [(480, 600); (0, 0); (0, 0)];
                 Appliance.rand_time := steady_rand_time lamp;
                 Appliance.events := [] |}),
        skipn 8 s).
Proof.
  intros Hnew E Hi Hday.
  assert (Hcfg : Appliance.cfg lamp = Appliance.cfg new)
    by (destruct Hnew; subst new; vm_compute in E; inversion E; reflexivity).
  assert (Hpow : Appliance.power lamp = Appliance.power Examples.new_lamp)
    by (destruct Hnew; subst new; vm_compute in E; inversion E; reflexivity).
  assert (Hwin : Appliance.win lamp
                 = {| Appliance.random_var_w := 0;
                      Appliance.window_1 := (480, 600);
                      Appliance.window_2 := (0, 0);
                      Appliance.window_3 := (0, 0);
                      Appliance.random_var_1 := 0;
                      Appliance.random_var_2 := 0;
                      Appliance.random_var_3 := 0 |})
    by (destruct Hnew; subst new; vm_compute in E; inversion E; reflexivity).
  clear E.
  assert (St : steady lamp).
  { constructor; rewrite ?Hwin, ?Hcfg; destruct Hnew; subst new; simpl; try reflexivity;
      try (unfold valid_window; simpl; lia); apply Qle_refl. }
  pose proof (generate_load_profile_flat_steady s_peak mu_peak op_factor lamp prof_i
                peak_time_range day_type power (100 * 1)%Q s St) as R.
  rewrite Hwin in R. cbn [Appliance.window_1 Appliance.window_2 Appliance.window_3] in R.
  assert (Hnum : Appliance.number (Appliance.cfg lamp) = 2)
    by (rewrite Hcfg; destruct Hnew; subst new; reflexivity).
  rewrite Hnum in R. apply R.
  - rewrite Hcfg. destruct Hnew; subst new; reflexivity.
  - exact Hday.
  - unfold steady_rand_time. rewrite Hwin, Hcfg.
    destruct Hnew; subst new; vm_compute; discriminate.
  - rewrite Hpow. apply (getitem_broadcast (fun one => (100 * one)%Q)). exact Hi.
Qed.

(** C9, the failing input: the lamps of scenario S1 used on weekdays
    only, one household, two days of types [0, 1]. The parallel mode
    checks day 0 against the day type 0 and the lamps are on; the
    sequential mode checks every day against the whole list
    [day_types], no day is allowed and both profiles are zero. This
    holds for every state of the generator. *)
Theorem sequential_mode_ignores_day_types :
  exists wlamp,
    Appliance.windows Examples.new_weekday_lamp (Some (480, 600)) None 0 None = Ok wlamp
    /\ forall s_peak mu_peak op_factor peak_time_range s,
       (exists usecase' p0 p1,
           UseCase.generate_daily_load_profiles
             (U := SpecUtils.utils s_peak mu_peak op_factor)
             (Examples.village (Examples.household [wlamp])) 2 peak_time_range
             (DayList [0; 1]) s
           = Ok ((usecase', [p0; p1]), skipn 2 s)
           /\ (Np.get p0 500 == 0)%Q /\ (Np.sum p0 == 0)%Q /\ (Np.sum p1 == 0)%Q)
       /\ (exists q0 q1,
           UseCase.generate_daily_load_profiles_parallel
             (U := SpecUtils.utils s_peak mu_peak op_factor)
             (Examples.village (Examples.household [wlamp])) 2 peak_time_range
             (DayList [0; 1]) s
           = Ok ([q0; q1], skipn 9 s)
           /\ (Np.get q0 500 == 200)%Q /\ (Np.sum q0 == 24000)%Q /\ (Np.sum q1 == 0)%Q).
Proof.
  destruct (Appliance.windows Examples.new_weekday_lamp (Some (480, 600)) None 0 None)
    as [wlamp |] eqn:E; [| vm_compute in E; discriminate].
  exists wlamp. split; [reflexivity |].
  intros s_peak mu_peak op_factor peak_time_range s.
  assert (Hcfg : Appliance.cfg wlamp = Examples.weekday_lamp_config)
    by (vm_compute in E; inversion E; reflexivity).
  assert (Hpow : Appliance.power wlamp = Appliance.power Examples.new_lamp)
    by (vm_compute in E; inversion E; reflexivity).
  assert (Hp : forall i, 0 <= i < 366 -> Py.getitem (Appliance.power wlamp) i = Ok (100 * 1)%Q).
  { intros i Hi. rewrite Hpow. now apply (getitem_broadcast (fun one => (100 * one)%Q)). }
  split.
  - unfold UseCase.generate_daily_load_profiles. change (Py.range 0 2) with [0; 1].
    cbn [UseCase.profiles_loop UseCase.users_loop Examples.village UseCase.users
         UseCase.name].
    unfold Random.bind, Random.ret.
    erewrite (household_skipped (Examples.household [wlamp]) wlamp 0);
      [| reflexivity | reflexivity | reflexivity | lia | apply Hp; lia
       | rewrite wd_we_type_allowed_list, Hcfg; reflexivity].
    cbn [fst snd UseCase.users_loop UseCase.users UseCase.name].
    unfold Random.bind, Random.ret.
    erewrite (household_skipped _ (Appliance.set_daily_use wlamp (Np.zeros 1440)) 1);
      [| reflexivity | reflexivity | reflexivity | lia | apply Hp; lia
       | rewrite wd_we_type_allowed_list; cbn [Appliance.cfg Appliance.set_daily_use
           Appliance.set_run]; rewrite Hcfg; reflexivity].
    cbn [fst snd].
    rewrite skipn_skipn. cbn [Nat.add].
    do 3 eexists. split; [reflexivity |].
    split; [| split]; vm_compute; reflexivity.
  - unfold UseCase.generate_daily_load_profiles_parallel. change (Py.range 0 2) with [0; 1].
    change (2 <? 0) with false. cbv iota.
    cbn [UseCase.build_tasks UseCase.day_types_getitem].
    change (Py.getitem [0; 1] 0) with (Ok 0). change (Py.getitem [0; 1] 1) with (Ok 1).
    cbn [Py.bind UseCase.day_tasks Examples.village UseCase.users Examples.household
         User.App_list User.num_users User.user_preference flat_map app].
    change (Z.to_nat 1) with 1%nat. cbn [repeat app UseCase.run_tasks].
    unfold UseCase.single_appliance_daily_load_profile.
    cbn [UseCase.task_app UseCase.task_day_id UseCase.task_user_preference
         UseCase.task_peak_time_range UseCase.task_day_type].
    unfold Random.bind, Random.lift, Random.ret.
    cbn [UseCase.run_tasks].
    unfold UseCase.single_appliance_daily_load_profile.
    cbn [UseCase.task_app UseCase.task_day_id UseCase.task_user_preference
         UseCase.task_peak_time_range UseCase.task_day_type].
    unfold Random.bind, Random.lift, Random.ret.
    rewrite (Hp 0) by lia.
    rewrite (flat_lamp_run Examples.new_weekday_lamp wlamp s_peak mu_peak op_factor 0
               peak_time_range (DayInt 0) _ s (or_intror eq_refl) E)
      by (try lia; unfold Appliance.wd_we_type_allowed; rewrite Hcfg; reflexivity).
    cbn [fst snd Appliance.set_daily_use Appliance.set_run Appliance.run
         Appliance.daily_use UseCase.dict_append].
    rewrite (Hp 1) by lia.
    rewrite (generate_load_profile_not_allowed wlamp 1 peak_time_range (DayInt 1) _
               (skipn 8 s))
      by (unfold Appliance.wd_we_type_allowed; rewrite Hcfg; reflexivity).
    cbn [fst snd Appliance.set_daily_use Appliance.set_run Appliance.run
         Appliance.daily_use UseCase.dict_append].
    change (0 =? 1) with false. cbv iota. cbn [UseCase.dict_append].
    cbn [UseCase.sum_days UseCase.dict_getitem].
    change (0 =? 0) with true. change (0 =? 1) with false. change (1 =? 1) with true.
    cbv iota. cbn [Py.bind User.sum_axis0 fold_left].
    rewrite skipn_skipn. cbn [Nat.add].
    do 2 eexists. split; [reflexivity |].
    split; [| split]; vm_compute; reflexivity.
Qed.

(* ===================================================================== *)
(** * Further properties: randomised windows and time of use              *)
(* ===================================================================== *)

(** The time of use that [rand_total_time_of_use] returns is at least
    [func_cycle]; when the randomised windows have a total width of zero
    or more it is at most 99 % of that width, hence strictly less than
    the width when there is any. *)
Theorem rand_total_time_of_use_bounds :
  forall (U : Utils) self rw1 rw2 rw3 s rand_time s',
    Appliance.rand_total_time_of_use self rw1 rw2 rw3 s = Ok (rand_time, s') ->
    let total_time := (snd rw1 - fst rw1) + (snd rw2 - fst rw2) + (snd rw3 - fst rw3) in
    Appliance.func_cycle (Appliance.cfg self) <= rand_time
    /\ (0 <= total_time -> (inject_Z rand_time <= (99 # 100) * inject_Z total_time)%Q)
    /\ (0 < total_time -> rand_time < total_time).
Proof.
  intros U self rw1 rw2 rw3 s rand_time s' H total_time.
  split; [eapply rand_total_time_of_use_ge; eauto |].
  assert (Hq : 0 <= total_time ->
               (inject_Z rand_time <= (99 # 100) * inject_Z total_time)%Q).
  { intros Ht. unfold Appliance.rand_total_time_of_use in H.
    apply rbind_Ok in H as (v & s2 & _ & H).
    apply rbind_Ok in H as (u & s3 & _ & H).
    cbv zeta in H. fold total_time in H.
    match type of H with
    | (if ?c then _ else _) _ = _ => destruct c; [discriminate |]
    end.
    apply rret_Ok in H as [Hr _].
    assert (Hpos : (0 <= (99 # 100) * inject_Z total_time)%Q).
    { assert (0 <= inject_Z total_time)%Q
        by (change 0%Q with (inject_Z 0); now rewrite <- Zle_Qle).
      lra. }
    match type of Hr with
    | _ = (if negb (Qle_bool ?a ?b) then _ else _) => destruct (Qle_bool a b) eqn:E
    end; cbn [negb] in Hr; subst rand_time.
    - now apply Qle_bool_iff in E.
    - unfold Py.int. destruct (Qlt_le_dec _ 0) as [Hn | _]; [lra |]. apply Qfloor_le. }
  split; [exact Hq |].
  intros Ht. specialize (Hq ltac:(lia)).
  assert (0 < inject_Z total_time)%Q by (change 0%Q with (inject_Z 0); now rewrite <- Zlt_Qlt).
  rewrite Zlt_Qlt. lra.
Qed.

(** The theorem at a kettle with the windows [480, 600), [0, 0), [0, 0). *)
Lemma rand_total_time_of_use_bounds_witness :
  Appliance.rand_total_time_of_use (U := SpecUtils.utils (1 # 2) (1 # 2) (1 # 2))
    Examples.new_kettle (480, 600) (0, 0) (0, 0) [] = Ok (1, [])
  /\ 1 <= 1 < 120.
Proof.
  assert (H : Appliance.rand_total_time_of_use (U := SpecUtils.utils (1 # 2) (1 # 2) (1 # 2))
                Examples.new_kettle (480, 600) (0, 0) (0, 0) [] = Ok (1, []))
    by (vm_compute; reflexivity).
  split; [exact H |].
  destruct (rand_total_time_of_use_bounds _ _ _ _ _ _ _ _ H) as (H1 & _ & H3).
  simpl in H1, H3. lia.
Defined.

(** A window that is jittered by [rv] minutes with [0 <= 2 * rv <= width]
    comes out well formed: [calc_rand_window] returns, after two draws, a
    window of [0 .. 1440] whose start is not after its end, and each end
    is within [rv] minutes of the configured one. *)
Lemma calc_rand_window_bounds self i w rv s :
  Appliance.getattr_window (Appliance.win self) i = Ok w ->
  Appliance.getattr_random_var (Appliance.win self) i = Ok rv ->
  valid_window w ->
  0 <= rv -> 2 * rv <= snd w - fst w ->
  exists rw,
    Appliance.calc_rand_window self i s = Ok (rw, skipn 2 s)
    /\ 0 <= fst rw <= snd rw /\ snd rw <= 1440
    /\ fst w - rv <= fst rw <= fst w + rv
    /\ snd w - rv <= snd rw <= snd w + rv.
Proof.
  intros Hw Hv [V1 V2] Hrv Hrv2. unfold Appliance.calc_rand_window, Random.bind.
  rewrite Hw, Hv. simpl Random.lift. cbv iota beta.
  destruct (randint_spec (fst w - rv) (fst w + rv) s ltac:(lia)) as (a & Ha & Har).
  rewrite Ha.
  destruct (randint_spec (snd w - rv) (snd w + rv) (snd (Random.next s)) ltac:(lia))
    as (b & Hb & Hbr).
  rewrite Hb. unfold Random.ret.
  eexists. split.
  - f_equal. f_equal.
    change (snd (Random.next s)) with (snd (Random.next (skipn 0 s))).
    now rewrite !next_skipn.
  - cbn [fst snd].
    destruct (a <? 0) eqn:Ea; destruct (b >? 1440) eqn:Eb;
      rewrite ?Z.gtb_ltb in Eb;
      try apply Z.ltb_lt in Ea; try apply Z.ltb_ge in Ea;
      try apply Z.ltb_lt in Eb; try apply Z.ltb_ge in Eb; lia.
Qed.

(** The jitter that [windows] stores for a window is at most half the
    width of the window when [random_var_w] is at most one half. *)
Lemma random_var_half rvw (w : Z * Z) :
  (0 <= rvw)%Q -> (rvw <= 1 # 2)%Q -> fst w <= snd w ->
  0 <= Py.int (rvw * inject_Z (snd w - fst w))
  /\ 2 * Py.int (rvw * inject_Z (snd w - fst w)) <= snd w - fst w.
Proof.
  intros H0 H1 Hw. set (d := snd w - fst w).
  assert (Hd : (0 <= inject_Z d)%Q)
    by (change 0%Q with (inject_Z 0); rewrite <- Zle_Qle; subst d; lia).
  assert (Hx : (0 <= rvw * inject_Z d)%Q) by nra.
  unfold Py.int. destruct (Qlt_le_dec _ 0) as [Hn | _]; [lra |].
  split.
  - rewrite <- (Qfloor_Z 0). now apply Qfloor_resp_le.
  - pose proof (Qfloor_le (rvw * inject_Z d)) as Hf.
    rewrite Zle_Qle, inject_Z_mult.
    change (inject_Z 2) with 2%Q. nra.
Qed.

(** After [windows] with [0 <= random_var_w <= 0.5] on windows of the
    data model, the three randomised windows of a day are always well
    formed: [calc_rand_window] returns for every state of the generator,
    with [0 <= start <= end <= 1440]. *)
Theorem jittered_windows_well_formed :
  forall self w1 w2 rvw w3 self' i s,
    Appliance.windows self w1 w2 rvw w3 = Ok self' ->
    (0 <= rvw)%Q -> (rvw <= 1 # 2)%Q ->
    valid_window (Appliance.window_1 (Appliance.win self')) ->
    valid_window (Appliance.window_2 (Appliance.win self')) ->
    valid_window (Appliance.window_3 (Appliance.win self')) ->
    1 <= i <= 3 ->
    exists rw,
      Appliance.calc_rand_window self' i s = Ok (rw, skipn 2 s)
      /\ 0 <= fst rw <= snd rw /\ snd rw <= 1440.
Proof.
  intros self w1 w2 rvw w3 self' i s H H0 H1 V1 V2 V3 Hi.
  assert (Hrv : forall k w, k = 1 /\ w = Appliance.window_1 (Appliance.win self')
                            \/ k = 2 /\ w = Appliance.window_2 (Appliance.win self')
                            \/ k = 3 /\ w = Appliance.window_3 (Appliance.win self') ->
                Appliance.getattr_window (Appliance.win self') k = Ok w
                /\ Appliance.getattr_random_var (Appliance.win self') k
                   = Ok (Py.int (rvw * inject_Z (snd w - fst w)))).
  { unfold Appliance.windows in H.
    apply bind_Ok in H as (win2 & _ & H).
    apply bind_Ok in H as (win3 & _ & H).
    apply bind_Ok in H as (wt & _ & H).
    destruct (wt <? Appliance.func_time (Appliance.cfg self)); [discriminate |].
    apply bind_Ok in H as (d1 & _ & H).
    apply bind_Ok in H as (d2 & _ & H).
    apply bind_Ok in H as (d3 & _ & H).
    intros k w Hk.
    destruct (Appliance.fixed_cycle (Appliance.cfg self) =? 1);
      inversion H; subst self'; clear H;
      destruct Hk as [[-> ->] | [[-> ->] | [-> ->]]]; split; reflexivity. }
  assert (Hcase : i = 1 \/ i = 2 \/ i = 3) by lia.
  destruct Hcase as [-> | [-> | ->]].
  - destruct (Hrv 1 _ (or_introl (conj eq_refl eq_refl))) as [Ha Hb].
    destruct V1 as [Va Vb].
    destruct (random_var_half rvw _ H0 H1 (proj2 Va)) as [R0 R1].
    destruct (calc_rand_window_bounds self' 1 _ _ s Ha Hb (conj Va Vb) R0 R1)
      as (rw & Hr & B1 & B2 & _). eauto.
  - destruct (Hrv 2 _ (or_intror (or_introl (conj eq_refl eq_refl)))) as [Ha Hb].
    destruct V2 as [Va Vb].
    destruct (random_var_half rvw _ H0 H1 (proj2 Va)) as [R0 R1].
    destruct (calc_rand_window_bounds self' 2 _ _ s Ha Hb (conj Va Vb) R0 R1)
      as (rw & Hr & B1 & B2 & _). eauto.
  - destruct (Hrv 3 _ (or_intror (or_intror (conj eq_refl eq_refl)))) as [Ha Hb].
    destruct V3 as [Va Vb].
    destruct (random_var_half rvw _ H0 H1 (proj2 Va)) as [R0 R1].
    destruct (calc_rand_window_bounds self' 3 _ _ s Ha Hb (conj Va Vb) R0 R1)
      as (rw & Hr & B1 & B2 & _). eauto.
Qed.

(** The theorem at a kettle that may run in [480, 600) with a jitter of
    a quarter of the window: the first window of a day is well formed. *)
Lemma jittered_windows_well_formed_witness :
  exists kettle rw,
    Appliance.windows Examples.new_kettle (Some (480, 600)) None (1 # 4) None = Ok kettle
    /\ Appliance.random_var_1 (Appliance.win kettle) = 30
    /\ Appliance.calc_rand_window kettle 1 [9 # 10; 1 # 10] = Ok (rw, [])
    /\ 0 <= fst rw <= snd rw /\ snd rw <= 1440.
Proof.
  destruct (Appliance.windows Examples.new_kettle (Some (480, 600)) None (1 # 4) None)
    as [kettle |] eqn:E; [| vm_compute in E; discriminate].
  destruct (jittered_windows_well_formed _ _ _ _ _ kettle 1 [9 # 10; 1 # 10] E)
    as (rw & Hr & B).
  - discriminate.
  - discriminate.
  - vm_compute in E; inversion E; unfold valid_window; simpl; lia.
  - vm_compute in E; inversion E; unfold valid_window; simpl; lia.
  - vm_compute in E; inversion E; unfold valid_window; simpl; lia.
  - lia.
  - exists kettle, rw. split; [reflexivity |]. split.
    + vm_compute in E; inversion E; reflexivity.
    + split; [exact Hr | exact B].
Defined.

(* ===================================================================== *)
(** * Further properties: what [windows] accepts                          *)
(* ===================================================================== *)

(** The width that [windows] compares with [func_time]: the windows
    [1 .. num_windows] only. *)
Lemma window_time_loop_declared w nw :
  1 <= nw <= 3 ->
  Appliance.window_time_loop w (Py.range 1 (nw + 1)) 0
  = Ok ((snd (Appliance.window_1 w) - fst (Appliance.window_1 w))
        + (if nw >=? 2 then snd (Appliance.window_2 w) - fst (Appliance.window_2 w) else 0)
        + (if nw =? 3 then snd (Appliance.window_3 w) - fst (Appliance.window_3 w) else 0)).
Proof.
  intros H. assert (C : nw = 1 \/ nw = 2 \/ nw = 3) by lia.
  destruct C as [-> | [-> | ->]]; vm_compute Py.range; cbn; f_equal; lia.
Qed.

(** With three windows of the data model and one to three windows
    declared, [windows] is accepted exactly when the declared windows are
    together at least [func_time] wide: a window beyond [num_windows] is
    stored and masked, but its width does not count. Otherwise
    [InvalidWindow] is raised. *)
Theorem windows_accepts_iff_declared_time_fits :
  forall self w1 w2 rvw w3,
    1 <= Appliance.num_windows (Appliance.cfg self) <= 3 ->
    valid_window w1 -> valid_window w2 -> valid_window w3 ->
    let nw := Appliance.num_windows (Appliance.cfg self) in
    let declared :=
      (snd w1 - fst w1)
      + (if nw >=? 2 then snd w2 - fst w2 else 0)
      + (if nw =? 3 then snd w3 - fst w3 else 0) in
    (declared < Appliance.func_time (Appliance.cfg self) ->
     Appliance.windows self (Some w1) (Some w2) rvw (Some w3)
     = Raise (InvalidWindow "The sum of all windows time intervals for the appliance is smaller than the time the appliance is supposed to be on"))
    /\ (Appliance.func_time (Appliance.cfg self) <= declared ->
        exists self',
          Appliance.windows self (Some w1) (Some w2) rvw (Some w3) = Ok self'
          /\ Appliance.window_1 (Appliance.win self') = w1
          /\ Appliance.window_2 (Appliance.win self') = w2
          /\ Appliance.window_3 (Appliance.win self') = w3).
Proof.
  intros self w1 w2 rvw w3 Hnw [V1 V1'] [V2 V2'] [V3 V3'] nw declared.
  unfold Appliance.windows. cbn [Py.bind]. cbv zeta.
  rewrite (window_time_loop_declared _ _ Hnw). cbn [Py.bind Appliance.window_1
    Appliance.window_2 Appliance.window_3]. fold nw. fold declared.
  split; intros H.
  - apply Z.ltb_lt in H. now rewrite H.
  - apply Z.ltb_ge in H. rewrite H.
    rewrite (assign_full_valid (Np.zeros 1440) w1) by (rewrite ?zeros_length; unfold Py.len;
      rewrite ?zeros_length; simpl; lia).
    cbn [Py.bind].
    rewrite assign_full_valid
      by (unfold Py.len; rewrite ?fill_from_length, ?zeros_length; simpl; lia).
    cbn [Py.bind].
    rewrite assign_full_valid
      by (unfold Py.len; rewrite ?fill_from_length, ?zeros_length; simpl; lia).
    cbn [Py.bind].
    eexists. split; [reflexivity |].
    destruct (Appliance.fixed_cycle (Appliance.cfg self) =? 1); auto.
Qed.

(** The theorem at a lamp of 120 minutes of use and one declared window:
    [480, 540) is refused although a second window [600, 1200) is given,
    and [480, 600) is accepted. *)
Lemma windows_accepts_iff_declared_time_fits_witness :
  Appliance.windows Examples.new_lamp (Some (480, 540)) (Some (600, 1200)) 0 (Some (0, 0))
  = Raise (InvalidWindow "The sum of all windows time intervals for the appliance is smaller than the time the appliance is supposed to be on")
  /\ exists self',
       Appliance.windows Examples.new_lamp (Some (480, 600)) (Some (600, 1200)) 0 (Some (0, 0))
       = Ok self'
       /\ Appliance.window_1 (Appliance.win self') = (480, 600)
       /\ Appliance.window_2 (Appliance.win self') = (600, 1200)
       /\ Appliance.window_3 (Appliance.win self') = (0, 0).
Proof.
  split.
  - apply (windows_accepts_iff_declared_time_fits Examples.new_lamp
             (480, 540) (600, 1200) 0 (0, 0));
      unfold valid_window; simpl; lia.
  - apply (windows_accepts_iff_declared_time_fits Examples.new_lamp
             (480, 600) (600, 1200) 0 (0, 0));
      unfold valid_window; simpl; lia.
Defined.

(* ===================================================================== *)
(** * Further properties: appliances that are skipped                     *)
(* ===================================================================== *)

(** An appliance never runs on a day whose type it is not allowed on, nor
    when its [pref_index] is not zero and lies outside
    [1 .. user_preference] (as every non-zero [pref_index] does for a user
    without preferences): whatever the generator draws, the day's profile
    is all zeros. The skip costs one draw, and one more when the user has
    preferences. *)
Theorem generate_load_profile_never_runs :
  forall (U : Utils) self user_preference prof_i peak_time_range day_type power s,
    0 <= user_preference ->
    Appliance.wd_we_type_allowed self day_type = false
    \/ (Appliance.pref_index (Appliance.cfg self) <> 0
        /\ ~ 1 <= Appliance.pref_index (Appliance.cfg self) <= user_preference) ->
    Appliance.generate_load_profile self user_preference prof_i peak_time_range day_type
      power s
    = Ok ((Appliance.set_daily_use self (Np.zeros 1440), None),
          skipn (if user_preference =? 0 then 1 else 2) s).
Proof.
  intros U self user_preference prof_i peak_time_range day_type power s Hup Hskip.
  unfold Appliance.generate_load_profile. cbv zeta.
  change (Appliance.wd_we_type_allowed (Appliance.set_daily_use self (Np.zeros 1440)) day_type)
    with (Appliance.wd_we_type_allowed self day_type).
  change (Appliance.cfg (Appliance.set_daily_use self (Np.zeros 1440)))
    with (Appliance.cfg self).
  assert (Hpref : exists k s1,
            (if user_preference =? 0 then Random.ret 0
             else Random.randint 1 user_preference) s = Ok (k, s1)
            /\ s1 = skipn (if user_preference =? 0 then 0 else 1) s
            /\ (k = 0 \/ 1 <= k <= user_preference)).
  { destruct (user_preference =? 0) eqn:E.
    - exists 0, s. repeat split; auto.
    - apply Z.eqb_neq in E.
      destruct (randint_spec 1 user_preference s ltac:(lia)) as (k & Hk & Hr).
      exists k, (snd (Random.next s)). repeat split; auto.
      change s with (skipn 0 s) at 1. now rewrite next_skipn. }
  destruct Hpref as (k & s1 & Hk & Hs1 & Hkr).
  unfold Random.bind at 1. rewrite Hk.
  destruct (uniform_spec 0 1 s1) as (u & Hu & _).
  unfold Random.bind at 1. rewrite Hu.
  assert (Hc : (negb (Appliance.pref_index (Appliance.cfg self) =? 0)
                && negb (k =? Appliance.pref_index (Appliance.cfg self)))
               || negb (Appliance.wd_we_type_allowed self day_type) = true).
  { destruct Hskip as [Hd | [Hp Hp']].
    - rewrite Hd. apply orb_true_r.
    - assert (Hne : (k =? Appliance.pref_index (Appliance.cfg self)) = false)
        by (apply Z.eqb_neq; lia).
      apply Z.eqb_neq in Hp. now rewrite Hp, Hne. }
  rewrite <- orb_assoc, Hc, orb_true_r. unfold Random.ret.
  f_equal. f_equal. subst s1. rewrite next_skipn.
  now destruct (user_preference =? 0).
Qed.

(** The theorem at a lamp of weekdays on a weekend day. *)
Lemma generate_load_profile_never_runs_witness :
  Appliance.generate_load_profile (U := SpecUtils.utils (1 # 2) (1 # 2) (1 # 2))
    Examples.new_weekday_lamp 0 0 [700; 701] (DayInt 1) 100 [1 # 2; 1 # 3]
  = Ok ((Appliance.set_daily_use Examples.new_weekday_lamp (Np.zeros 1440), None), [1 # 3]).
Proof.
  apply (generate_load_profile_never_runs (SpecUtils.utils (1 # 2) (1 # 2) (1 # 2))
           Examples.new_weekday_lamp 0 0 [700; 701] (DayInt 1) 100 [1 # 2; 1 # 3]).
  - lia.
  - left. reflexivity.
Defined.

(* ===================================================================== *)
(** * Further properties: where and how long the switch-on events are     *)
(* ===================================================================== *)

Lemma arange_length a n : 0 <= n -> Py.len (Np.arange a (a + n)) = n.
Proof. intros H. unfold Py.len, Np.arange. rewrite range_length. lia. Qed.

Lemma firstn_seq_le n : forall s len, (n <= len)%nat -> firstn n (seq s len) = seq s n.
Proof.
  induction n as [| n IH]; intros s [| len] H; simpl; try reflexivity; try lia.
  f_equal. apply IH. lia.
Qed.

(** [indexes[:-k]] of consecutive minutes is a shorter run of them. *)
Lemma drop_last_arange a n k :
  0 <= n -> 0 <= k -> Py.drop_last (Np.arange a (a + n)) k = Np.arange a (a + (n - k)).
Proof.
  intros Hn Hk. unfold Py.drop_last. rewrite arange_length by exact Hn.
  unfold Np.arange, Py.range. rewrite firstn_map, firstn_seq_le by lia.
  do 2 f_equal. lia.
Qed.

(** The spot that [update_available_time_for_switch_on_events] splits
    holds the first and the last minute of the event. *)
Lemma find_spot_to_split_Some fs : forall i0 first last j,
  Appliance.find_spot_to_split fs i0 first last = Some j ->
  forall d, let sp := nth (j - i0) fs d in
    (i0 <= j)%nat /\ In sp fs /\ start sp <= first /\ last <= stop sp.
Proof.
  induction fs as [| sp fs IH]; intros i0 first last j H; simpl in H; [discriminate |].
  destruct ((first >=? start sp) && (last <=? stop sp)) eqn:E.
  - inversion H; subst j. intros d. replace (i0 - i0)%nat with 0%nat by lia. simpl.
    apply andb_true_iff in E as [E1 E2]. rewrite Z.geb_leb in E1.
    apply Z.leb_le in E1. apply Z.leb_le in E2. repeat split; auto; lia.
  - intros d. destruct (IH _ _ _ _ H d) as (H1 & H2 & H3).
    replace (j - i0)%nat with (S (j - S i0)) by lia. simpl.
    split; [lia |]. split; [now right | exact H3].
Qed.

(** The free spots stay inside the windows they were cut from. *)
Lemma update_available_time_within ws self a n self' :
  Appliance.update_available_time_for_switch_on_events self (Np.arange a (a + n)) = Ok self' ->
  0 < n ->
  spots_within ws self ->
  spots_within ws self' /\ Appliance.cfg self' = Appliance.cfg self
  /\ Appliance.daily_use (Appliance.run self') = Appliance.daily_use (Appliance.run self).
Proof.
  unfold Appliance.update_available_time_for_switch_on_events, spots_within.
  intros H Hn Hsp.
  destruct (Appliance.free_spots (Appliance.run self)) as [| sp0 fs0] eqn:Efs.
  { inversion H; subst. rewrite Efs. auto. }
  rewrite <- Efs in *. clear Efs sp0 fs0.
  rewrite arange_first, arange_last in H by lia. cbn [Py.bind] in H.
  destruct (Appliance.find_spot_to_split _ 0 a (a + n - 1)) as [spot_idx |] eqn:Ef.
  2:{ inversion H; subst. auto. }
  destruct (find_spot_to_split_Some _ _ _ _ _ Ef {| start := 0; stop := 0 |})
    as (_ & Hin & H1 & H2).
  rewrite Nat.sub_0_r in Hin, H1, H2.
  set (fs := Appliance.free_spots (Appliance.run self)) in *.
  set (sp := nth spot_idx fs {| start := 0; stop := 0 |}) in *.
  assert (Hw : spot_within ws sp) by (rewrite Forall_forall in Hsp; auto).
  destruct Hw as (w & Hw & Hw1 & Hw2).
  assert (Ha : spot_within ws {| start := a + n - 1 + 1; stop := stop sp |})
    by (exists w; simpl; repeat split; auto; lia).
  assert (Hb : spot_within ws {| start := start sp; stop := a |})
    by (exists w; simpl; repeat split; auto; lia).
  inversion H; subst self'; clear H. simpl.
  split; [| auto].
  destruct ((a =? start sp) && (a + n - 1 =? stop sp)).
  { now apply Forall_list_pop. }
  destruct (a =? start sp).
  { apply Forall_list_insert; [now apply Forall_list_pop | exact Ha]. }
  destruct (a + n - 1 =? stop sp).
  { apply Forall_list_insert; [now apply Forall_list_pop | exact Hb]. }
  apply Forall_list_insert; [| exact Hb].
  apply Forall_list_insert; [now apply Forall_list_pop | exact Ha].
Qed.

(** What [rand_switch_on_window] returns when it returns an event: a run
    of consecutive minutes of one free spot, of [func_cycle] minutes or
    more. *)
Lemma rand_switch_on_window_inv self rand_time s indexes s' :
  Appliance.rand_switch_on_window self rand_time s = Ok (Some indexes, s') ->
  exists switch_on L sp,
    indexes = Np.arange switch_on (switch_on + L)
    /\ In sp (Appliance.free_spots (Appliance.run self))
    /\ start sp <= switch_on
    /\ switch_on + L <= stop sp
    /\ Appliance.func_cycle (Appliance.cfg self) <= L
    /\ L <= rand_time.
Proof.
  unfold Appliance.rand_switch_on_window. intros H.
  set (fs := Appliance.free_spots (Appliance.run self)) in *.
  set (fc := Appliance.func_cycle (Appliance.cfg self)) in *.
  destruct (Py.len (Appliance.indexes_choice fs fc) >? 0);
    [| apply rret_Ok in H as [H _]; discriminate].
  apply rbind_Ok in H as (k & s1 & _ & H).
  apply rbind_Ok in H as (switch_on & s2 & _ & H).
  destruct (Appliance.find_switch_on_spot fs 0 switch_on fc) as [j |] eqn:Ej; [| discriminate].
  destruct (find_switch_on_spot_Some fs 0 switch_on fc j Ej) as (_ & _ & Hsp).
  specialize (Hsp {| start := 0; stop := 0 |}). rewrite Nat.sub_0_r in Hsp.
  cbv zeta in Hsp. destruct Hsp as (Hin & Hsp).
  set (sp := nth j fs {| start := 0; stop := 0 |}) in *.
  set (largest := Z.min rand_time (stop sp - switch_on)) in *.
  destruct (largest >? fc) eqn:Eg.
  - rewrite Z.gtb_ltb in Eg. apply Z.ltb_lt in Eg.
    apply rbind_Ok in H as (u & s3 & Hu & H). apply rret_Ok in H as [H _].
    destruct (uniform_spec (inject_Z fc) (inject_Z largest) s2) as (u' & Hu' & Hur & _).
    rewrite Hu' in Hu. inversion Hu; subst u'.
    destruct Hur as [Hu1 Hu2]; [rewrite <- Zle_Qle; lia |].
    pose proof (int_between fc largest u Hu1 Hu2) as Hint.
    inversion H; subst indexes.
    exists switch_on, (Py.int u), sp. repeat split; auto; lia.
  - destruct (largest =? fc) eqn:Ee; [| discriminate].
    apply Z.eqb_eq in Ee. apply rret_Ok in H as [H _]. inversion H; subst indexes.
    exists switch_on, largest, sp. repeat split; auto; lia.
Qed.

Section Events.

Context {U : Utils}.

Lemma update_daily_use_within ws self coincidence power a n s self' s' :
  Appliance.update_daily_use self coincidence power (Np.arange a (a + n)) s = Ok (self', s') ->
  0 < n ->
  spots_within ws self ->
  spots_within ws self' /\ Appliance.cfg self' = Appliance.cfg self.
Proof.
  unfold Appliance.update_daily_use. intros H Hn Hsp.
  destruct (Appliance.daily_use (Appliance.run self)); [| discriminate].
  apply rbind_Ok in H as (d' & s1 & _ & H).
  apply rlift_Ok in H as [H _].
  apply update_available_time_within with (ws := ws) in H as (H1 & H2 & _); auto.
Qed.

Lemma switch_on_event_within ws self power peak_time_range a n s self' s' :
  Appliance.switch_on_event self power peak_time_range (Np.arange a (a + n)) s
  = Ok (self', s') ->
  spots_within ws self ->
  0 < n /\ spots_within ws self' /\ Appliance.cfg self' = Appliance.cfg self.
Proof.
  unfold Appliance.switch_on_event. intros H Hsp.
  apply rbind_Ok in H as (first & s1 & Hf & H). apply rlift_Ok in Hf as [Hf _].
  apply getitem_Ok_nonempty in Hf. unfold Py.len, Np.arange in Hf.
  rewrite range_length in Hf.
  assert (Hn : 0 < n) by lia.
  apply rbind_Ok in H as (last & s2 & _ & H).
  apply rbind_Ok in H as (pf & s3 & _ & H).
  apply rbind_Ok in H as (pl & s4 & _ & H).
  apply rbind_Ok in H as (c & s5 & _ & H).
  split; [exact Hn |]. eapply update_daily_use_within; eauto.
Qed.

(** One turn of the loop: its event, if any, lies in a window and keeps
    the minutes of use within [rand_time]; an event of a turn that goes
    on has its full length. *)
Lemma loop_body_events ws self rand_time tot_time power peak_time_range s continue self'
    tot' ev s' :
  Appliance.loop_body self rand_time tot_time power peak_time_range s
  = Ok ((continue, self', tot', ev), s') ->
  spots_within ws self ->
  tot_time <= rand_time ->
  spots_within ws self'
  /\ Appliance.cfg self' = Appliance.cfg self
  /\ Forall (event_within ws) ev
  /\ tot_time + total_length ev <= rand_time
  /\ (List.length ev <= 1)%nat
  /\ (continue = true ->
      tot' = tot_time + total_length ev
      /\ Forall (fun e => Appliance.func_cycle (Appliance.cfg self) <= Py.len e) ev).
Proof.
  unfold Appliance.loop_body. intros H Hsp Htot.
  apply rbind_Ok in H as ([indexes |] & s1 & Hr & H).
  2:{ apply rret_Ok in H as [H _]. inversion H; subst. simpl.
      repeat split; auto; try lia; discriminate. }
  apply rand_switch_on_window_inv in Hr
    as (switch_on & L & sp & -> & Hin & Hs1 & Hs2 & Hfc & HL).
  assert (Hw : spot_within ws sp) by (unfold spots_within in Hsp; rewrite Forall_forall in Hsp; auto).
  destruct Hw as (w & Hw & Hw1 & Hw2).
  cbv zeta in H.
  destruct (Z.lt_ge_cases L 0) as [Hneg | Hpos].
  { (* an empty event cannot be written *)
    assert (E : Np.arange switch_on (switch_on + L) = [])
      by (apply range_empty; lia).
    rewrite E in H. change (Py.len (@nil Z)) with 0 in H.
    rewrite Z.add_0_r in H.
    destruct (tot_time >? rand_time) eqn:Eg;
      [rewrite Z.gtb_ltb in Eg; apply Z.ltb_lt in Eg; lia |].
    apply rbind_Ok in H as (self1 & s2 & Hs & _).
    unfold Appliance.switch_on_event in Hs.
    apply rbind_Ok in Hs as (first & s3 & Hf & _). apply rlift_Ok in Hf as [Hf _].
    discriminate. }
  rewrite arange_length in H by exact Hpos.
  destruct (tot_time + L >? rand_time) eqn:Eg; rewrite Z.gtb_ltb in Eg.
  - apply Z.ltb_lt in Eg.
    rewrite drop_last_arange in H by lia.
    destruct (Py.len (Np.arange switch_on _) >? 0) eqn:El.
    + apply rbind_Ok in H as (self1 & s2 & Hs & H). apply rret_Ok in H as [H _].
      inversion H; subst; clear H.
      apply switch_on_event_within with (ws := ws) in Hs as (Hn & Hsp' & Hc); [| exact Hsp].
      split; [exact Hsp' |]. split; [exact Hc |].
      split.
      { constructor; [| constructor].
        exists switch_on, (L - (tot_time + L - rand_time)), w.
        repeat split; auto; lia. }
      split; [simpl; rewrite arange_length by lia; lia |].
      split; [simpl; lia | discriminate].
    + apply rret_Ok in H as [H _]. inversion H; subst. simpl.
      repeat split; auto; try lia; discriminate.
  - apply Z.ltb_ge in Eg.
    apply rbind_Ok in H as (self1 & s2 & Hs & H). apply rret_Ok in H as [H _].
    inversion H; subst; clear H.
    apply switch_on_event_within with (ws := ws) in Hs as (Hn & Hsp' & Hc); [| exact Hsp].
    split; [exact Hsp' |]. split; [exact Hc |].
    split.
    { constructor; [| constructor]. exists switch_on, L, w. repeat split; auto; lia. }
    simpl. rewrite arange_length by lia.
    split; [lia |]. split; [lia |]. intros _. split; [lia |].
    constructor; [| constructor]. rewrite arange_length by lia. exact Hfc.
Qed.

Lemma removelast_cons_Forall {A : Type} (P : A -> Prop) x l :
  P x -> Forall P (removelast l) -> Forall P (removelast (x :: l)).
Proof.
  intros Hx Hl. destruct l as [| y l]; [constructor |].
  change (removelast (x :: y :: l)) with (x :: removelast (y :: l)). now constructor.
Qed.

(** The loop: every event lies in a window, the events add up to at most
    [rand_time] minutes, and every event but the last has [func_cycle]
    minutes or more. *)
Lemma while_loop_events ws fuel : forall self rand_time tot_time power peak_time_range s
    self' evs s',
  Appliance.while_loop fuel self rand_time tot_time power peak_time_range s
  = Ok ((self', evs), s') ->
  spots_within ws self ->
  Forall (event_within ws) evs
  /\ (tot_time <= rand_time -> tot_time + total_length evs <= rand_time)
  /\ (rand_time < tot_time -> evs = [])
  /\ Forall (fun e => Appliance.func_cycle (Appliance.cfg self) <= Py.len e)
       (removelast evs).
Proof.
  induction fuel as [| fuel IH]; intros self rand_time tot_time power peak_time_range s
    self' evs s' H Hsp.
  - rewrite while_loop_O in H. apply rret_Ok in H as [H _]. inversion H; subst.
    simpl. repeat split; auto; lia.
  - rewrite while_loop_S in H. destruct (tot_time <=? rand_time) eqn:E.
    2:{ apply rret_Ok in H as [H _]. inversion H; subst.
        simpl. repeat split; auto; lia. }
    apply Z.leb_le in E.
    apply rbind_Ok in H as ([[[continue self1] tot1] ev] & s1 & Hb & H).
    apply loop_body_events with (ws := ws) in Hb as (Hsp1 & Hc1 & Hev & Hbud & Hlen & Hcont);
      [| exact Hsp | exact E].
    destruct continue.
    + destruct (Hcont eq_refl) as [Htot1 Hfull].
      apply rbind_Ok in H as ([self2 evs2] & s2 & Hw & H).
      apply rret_Ok in H as [H _]. inversion H; subst self' evs; clear H.
      apply IH in Hw as (Hev2 & Hbud2 & Hnil2 & Hfull2); [| exact Hsp1].
      cbn [fst snd].
      assert (Htl : forall a b, total_length (a ++ b) = total_length a + total_length b).
      { intros a b. induction a as [| x a IHa]; simpl; [reflexivity | rewrite IHa; lia]. }
      split; [apply Forall_app; auto |].
      split; [intros _; rewrite Htl; lia |].
      split; [intros; lia |].
      rewrite Hc1 in Hfull2.
      clear - Hfull Hfull2. induction Hfull as [| x ev Hx Hf IHf]; [exact Hfull2 |].
      simpl app. apply removelast_cons_Forall; [exact Hx | exact IHf].
    + apply rret_Ok in H as [H _]. inversion H; subst self' evs; clear H.
      split; [exact Hev |]. split; [intros _; exact Hbud |]. split; [intros; lia |].
      destruct ev as [| e [| e' ev]]; simpl in Hlen; [constructor | constructor | lia].
Qed.

End Events.

Lemma spots_of_within self rws : spots_within rws (Appliance.set_free_spots self (spots_of rws)).
Proof.
  unfold spots_within, spots_of. simpl. apply Forall_forall. intros sp Hsp.
  apply in_map_iff in Hsp as (rw & <- & Hrw). apply filter_In in Hrw as [Hrw _].
  exists rw. simpl. repeat split; auto; lia.
Qed.

(** A minute of an event that lies within the windows is a minute of
    one of the windows. *)
Lemma event_within_in_window ws e t :
  event_within ws e -> In t e -> existsb (fun rw => Appliance.in_window rw t) ws = true.
Proof.
  intros (a & n & w & Hn & -> & Hw & H1 & H2) Ht.
  unfold Np.arange in Ht. apply range_In in Ht.
  apply existsb_exists. exists w. split; [exact Hw |].
  unfold Appliance.in_window. apply andb_true_iff. split; [apply Z.leb_le | apply Z.ltb_lt]; lia.
Qed.

Section EventsOfADay.

Context {U : Utils}.

(** The events of a day, as the loop of [generate_load_profile] leaves
    them. *)
Lemma generate_load_profile_events self user_preference prof_i peak_time_range day_type
    power s self' log s' :
  Appliance.generate_load_profile self user_preference prof_i peak_time_range day_type
    power s = Ok ((self', Some log), s') ->
  Forall (event_within (Appliance.rand_windows log)) (Appliance.events log)
  /\ total_length (Appliance.events log) <= Z.max 0 (Appliance.rand_time log)
  /\ Forall (fun e => Appliance.func_cycle (Appliance.cfg self) <= Py.len e)
       (removelast (Appliance.events log)).
Proof.
  intros H. apply generate_load_profile_Ok in H.
  destruct H as (rw1 & rw2 & rw3 & s1 & s2 & Hw & B1 & B2 & B3 & Ht & H).
  destruct (String.eqb (Appliance.flat (Appliance.cfg self)) "yes").
  - destruct H as (p & d1 & d2 & d3 & _ & _ & _ & _ & _ & Hev & _).
    rewrite Hev. simpl. repeat split; auto; lia.
  - destruct H as (d1 & d2 & d3 & selfc & s3 & _ & _ & _ & Hc & Hl).
    apply assign_random_cycles_frame in Hc as [_ Hc]. simpl in Hc.
    apply while_loop_events with (ws := [rw1; rw2; rw3]) in Hl
      as (Hev & Hbud & Hnil & Hfull); [| apply spots_of_within].
    rewrite Hw. simpl in Hfull. rewrite Hc in Hfull.
    split; [exact Hev |]. split; [| exact Hfull].
    destruct (Z.le_gt_cases 0 (Appliance.rand_time log)) as [Hr | Hr].
    + specialize (Hbud Hr). lia.
    + rewrite (Hnil ltac:(lia)). simpl. lia.
Qed.

End EventsOfADay.

(** Whatever the generator draws, the switch-on events of a day are runs
    of consecutive minutes that each lie within one randomised window of
    the day; together they last at most [rand_time] minutes; and every
    event but the last lasts [func_cycle] minutes or more (the last may
    be cut to fit the time of use). *)
Theorem switch_on_events_fit_windows_and_time_of_use :
  forall (U : Utils) self user_preference prof_i peak_time_range day_type power s self'
         log s',
    Appliance.generate_load_profile self user_preference prof_i peak_time_range day_type
      power s = Ok ((self', Some log), s') ->
    Forall (event_within (Appliance.rand_windows log)) (Appliance.events log)
    /\ total_length (Appliance.events log) <= Z.max 0 (Appliance.rand_time log)
    /\ Forall (fun e => Appliance.func_cycle (Appliance.cfg self) <= Py.len e)
         (removelast (Appliance.events log)).
Proof. intros U. intros. eapply generate_load_profile_events; eauto. Qed.

(** The theorem at a kettle that may run from 08:00 to 08:10, with an
    exhausted generator: its one event is the minute 08:00. *)
Lemma switch_on_events_fit_windows_and_time_of_use_witness :
  exists kettle self' log,
    Appliance.windows Examples.new_kettle (Some (480, 490)) None 0 None = Ok kettle
    /\ Appliance.generate_load_profile (U := SpecUtils.utils (1 # 2) (1 # 2) (1 # 2))
         kettle 0 0 [700; 701] (DayInt 0) 100 [] = Ok ((self', Some log), [])
    /\ Appliance.events log = [[480]]
    /\ Forall (event_within (Appliance.rand_windows log)) (Appliance.events log)
    /\ total_length (Appliance.events log) <= Z.max 0 (Appliance.rand_time log).
Proof.
  destruct (Appliance.windows Examples.new_kettle (Some (480, 490)) None 0 None)
    as [kettle |] eqn:E; [| vm_compute in E; discriminate].
  destruct (Appliance.generate_load_profile (U := SpecUtils.utils (1 # 2) (1 # 2) (1 # 2))
              kettle 0 0 [700; 701] (DayInt 0) 100 [])
    as [[[self' [log |]] s'] |] eqn:G;
    try (vm_compute in E; inversion E; subst kettle; vm_compute in G; discriminate).
  assert (Hlog : s' = [] /\ Appliance.events log = [[480]]).
  { vm_compute in E; inversion E; subst kettle; vm_compute in G.
    inversion G; subst. auto. }
  destruct Hlog as (-> & Hev).
  destruct (switch_on_events_fit_windows_and_time_of_use
              (SpecUtils.utils (1 # 2) (1 # 2) (1 # 2))
              kettle 0 0 [700; 701] (DayInt 0) 100%Q [] self' log [] G) as (H1 & H2 & _).
  exists kettle, self', log. auto.
Defined.

(** An appliance never consumes outside the randomised windows of the
    day: after a run that is not skipped, flat or not, the profile has
    1440 cells and is zero at every minute that none of the three
    randomised windows holds. *)
Theorem daily_use_is_zero_outside_randomised_windows :
  forall (U : Utils) self user_preference prof_i peak_time_range day_type power s self'
         log s',
    Appliance.generate_load_profile self user_preference prof_i peak_time_range day_type
      power s = Ok ((self', Some log), s') ->
    exists d,
      Appliance.daily_use (Appliance.run self') = Some d
      /\ List.length d = 1440%nat
      /\ forall t, 0 <= t < 1440 ->
           existsb (fun rw => Appliance.in_window rw t) (Appliance.rand_windows log) = false ->
           Np.get d t = 0%Q.
Proof.
  intros U self user_preference prof_i peak_time_range day_type power s self' log s' H.
  pose proof (generate_load_profile_events _ _ _ _ _ _ _ _ _ _ H) as (Hev & _).
  apply generate_load_profile_Ok in H.
  destruct H as (rw1 & rw2 & rw3 & s1 & s2 & Hw & B1 & B2 & B3 & Ht & H).
  assert (Hout : forall t, existsb (fun rw => Appliance.in_window rw t)
                             (Appliance.rand_windows log) = false ->
                 Appliance.in_window rw1 t = false /\ Appliance.in_window rw2 t = false
                 /\ Appliance.in_window rw3 t = false).
  { intros t Hx. rewrite Hw in Hx. simpl in Hx. rewrite orb_false_r in Hx.
    apply orb_false_iff in Hx as [Hx1 Hx]. apply orb_false_iff in Hx as [Hx2 Hx3]. auto. }
  assert (Hfill : forall v d1 d2 d3,
             Np.assign_full (Np.zeros 1440) rw1 v = Ok d1 ->
             Np.assign_full d1 rw2 v = Ok d2 ->
             Np.assign_full d2 rw3 v = Ok d3 ->
             List.length d3 = 1440%nat
             /\ forall t, 0 <= t < 1440 ->
                  existsb (fun rw => Appliance.in_window rw t) (Appliance.rand_windows log)
                  = false ->
                  Np.get d3 t = 0%Q).
  { intros v d1 d2 d3 H1 H2 H3.
    apply assign_full_spec in H1 as (L1 & _ & G1);
      [| lia | unfold Py.len; rewrite zeros_length; lia].
    apply assign_full_spec in H2 as (L2 & _ & G2);
      [| lia | unfold Py.len; rewrite L1, zeros_length; lia].
    apply assign_full_spec in H3 as (L3 & _ & G3);
      [| lia | unfold Py.len; rewrite L2, L1, zeros_length; lia].
    rewrite zeros_length in L1.
    split; [congruence |]. intros t Ht' Hx.
    destruct (Hout t Hx) as (X1 & X2 & X3).
    rewrite G3 by (unfold Py.len; lia). rewrite X3.
    rewrite G2 by (unfold Py.len; lia). rewrite X2.
    rewrite G1 by (unfold Py.len; rewrite zeros_length; lia). rewrite X1.
    apply zeros_get. }
  destruct (String.eqb (Appliance.flat (Appliance.cfg self)) "yes").
  - destruct H as (p & d1 & d2 & d3 & _ & H1 & H2 & H3 & -> & _ & _).
    destruct (Hfill _ _ _ _ H1 H2 H3) as [L G].
    exists d3. simpl. auto.
  - destruct H as (d1 & d2 & d3 & selfc & s3 & H1 & H2 & H3 & Hc & Hl).
    destruct (Hfill _ _ _ _ H1 H2 H3) as [L G].
    apply assign_random_cycles_frame in Hc as [Hd _]. simpl in Hd.
    eapply while_loop_frame with (d := d3) in Hl as (d & Hd' & [Ld Gd] & _).
    2:{ apply spots_of_nonneg. repeat constructor; lia. }
    2:{ simpl. exact Hd. }
    exists d. split; [exact Hd' |]. split; [congruence |].
    intros t Ht' Hx. rewrite Gd; [apply G; assumption | lia |].
    intros e He Hin. rewrite Forall_forall in Hev.
    pose proof (event_within_in_window _ _ _ (Hev e He) Hin) as Hy. congruence.
Qed.

(** The theorem at the kettle of 08:00 to 08:10: 09:00 is zero. *)
Lemma daily_use_is_zero_outside_randomised_windows_witness :
  exists kettle self' log d,
    Appliance.windows Examples.new_kettle (Some (480, 490)) None 0 None = Ok kettle
    /\ Appliance.generate_load_profile (U := SpecUtils.utils (1 # 2) (1 # 2) (1 # 2))
         kettle 0 0 [700; 701] (DayInt 0) 100 [] = Ok ((self', Some log), [])
    /\ Appliance.daily_use (Appliance.run self') = Some d
    /\ Np.get d 540 = 0%Q.
Proof.
  destruct (Appliance.windows Examples.new_kettle (Some (480, 490)) None 0 None)
    as [kettle |] eqn:E; [| vm_compute in E; discriminate].
  destruct (Appliance.generate_load_profile (U := SpecUtils.utils (1 # 2) (1 # 2) (1 # 2))
              kettle 0 0 [700; 701] (DayInt 0) 100 [])
    as [[[self' [log |]] s'] |] eqn:G;
    try (vm_compute in E; inversion E; subst kettle; vm_compute in G; discriminate).
  assert (Hlog : s' = [] /\ Appliance.rand_windows log = [(480, 490); (0, 0); (0, 0)]).
  { vm_compute in E; inversion E; subst kettle; vm_compute in G.
    inversion G; subst. auto. }
  destruct Hlog as (-> & Hrw).
  destruct (daily_use_is_zero_outside_randomised_windows
              (SpecUtils.utils (1 # 2) (1 # 2) (1 # 2))
              kettle 0 0 [700; 701] (DayInt 0) 100%Q [] self' log [] G) as (d & Hd & _ & Hv).
  exists kettle, self', log, d. split; [reflexivity |]. split; [exact G |].
  split; [exact Hd |]. apply Hv; [lia | rewrite Hrw; reflexivity].
Defined.

(* ===================================================================== *)
(** * Further properties: what a switch-on event writes                   *)
(* ===================================================================== *)

Lemma set_item_nth_same a : forall j x,
  (j < List.length a)%nat -> nth j (Np.set_item a j x) 0%Q = x.
Proof.
  induction a as [| y a IH]; intros [| j] x H; simpl in *; try lia; [reflexivity |].
  apply IH. lia.
Qed.

(** [np.put] on consecutive positions of the array: the position
    [base + i] receives the value [v[i mod len(v)]]. *)
Lemma put_from_seq base v m : forall k d,
  0 <= base -> base + Z.of_nat k + Z.of_nat m <= Py.len d ->
  exists d',
    Np.put_from k d (map (fun i => base + Z.of_nat i) (seq k m)) v = Ok d'
    /\ List.length d' = List.length d
    /\ forall t, 0 <= t ->
         Np.get d' t
         = if (base + Z.of_nat k <=? t) && (t <? base + Z.of_nat k + Z.of_nat m)
           then nth (Nat.modulo (Z.to_nat (t - base)) (List.length v)) v 0%Q
           else Np.get d t.
Proof.
  induction m as [| m IH]; intros k d Hb Hlen.
  - exists d. simpl. repeat split; auto. intros t Ht.
    destruct (base + Z.of_nat k <=? t) eqn:E1; [| reflexivity].
    destruct (t <? base + Z.of_nat k + 0) eqn:E2; [| reflexivity].
    apply Z.leb_le in E1. apply Z.ltb_lt in E2. lia.
  - cbn [seq map Np.put_from].
    destruct (base + Z.of_nat k <? 0) eqn:En; [apply Z.ltb_lt in En; lia |].
    assert (Hin : (0 <=? base + Z.of_nat k) && (base + Z.of_nat k <? Py.len d) = true).
    { apply andb_true_iff. split; [apply Z.leb_le | apply Z.ltb_lt]; lia. }
    rewrite Hin.
    set (x := nth (Nat.modulo k (List.length v)) v 0%Q).
    set (d1 := Np.set_item d (Z.to_nat (base + Z.of_nat k)) x).
    destruct (IH (S k) d1 Hb) as (d' & Hp & Hl & Hg).
    { unfold Py.len, d1 in *. rewrite set_item_length. lia. }
    exists d'. split; [exact Hp |]. split.
    { rewrite Hl. unfold d1. apply set_item_length. }
    intros t Ht. rewrite (Hg t Ht).
    destruct (Z.eq_dec t (base + Z.of_nat k)) as [-> | Hne].
    + replace (base + Z.of_nat (S k) <=? base + Z.of_nat k) with false
        by (symmetry; apply Z.leb_gt; lia).
      replace (base + Z.of_nat k <=? base + Z.of_nat k) with true
        by (symmetry; apply Z.leb_le; lia).
      replace (base + Z.of_nat k <? base + Z.of_nat k + Z.of_nat (S m)) with true
        by (symmetry; apply Z.ltb_lt; lia).
      cbn [andb]. unfold Np.get, d1. rewrite set_item_nth_same by (unfold Py.len in *; lia).
      unfold x. do 2 f_equal. lia.
    + assert (Hget : Np.get d1 t = Np.get d t).
      { unfold Np.get, d1. apply set_item_nth_other. lia. }
      rewrite Hget.
      destruct (base + Z.of_nat (S k) <=? t) eqn:E1;
        destruct (base + Z.of_nat k <=? t) eqn:E2;
        destruct (t <? base + Z.of_nat (S k) + Z.of_nat m) eqn:E3;
        destruct (t <? base + Z.of_nat k + Z.of_nat (S m)) eqn:E4;
        try reflexivity;
        try apply Z.leb_le in E1; try apply Z.leb_gt in E1;
        try apply Z.leb_le in E2; try apply Z.leb_gt in E2;
        try apply Z.ltb_lt in E3; try apply Z.ltb_ge in E3;
        try apply Z.ltb_lt in E4; try apply Z.ltb_ge in E4; lia.
Qed.

(** [np.put(d, np.arange(a, a + n), v)] inside the array. *)
Lemma put_arange d a n v :
  0 <= a -> 0 <= n -> a + n <= Py.len d ->
  exists d',
    Np.put d (Np.arange a (a + n)) v = Ok d'
    /\ List.length d' = List.length d
    /\ forall t, 0 <= t ->
         Np.get d' t
         = if (a <=? t) && (t <? a + n) && negb (Py.len v =? 0)
           then nth (Nat.modulo (Z.to_nat (t - a)) (List.length v)) v 0%Q
           else Np.get d t.
Proof.
  intros Ha Hn Hlen. unfold Np.put. destruct v as [| x v].
  - exists d. repeat split; auto. intros t _. now rewrite andb_false_r.
  - destruct (put_from_seq a (x :: v) (Z.to_nat n) 0 d Ha) as (d' & Hp & Hl & Hg);
      [simpl; lia |].
    exists d'. unfold Np.arange, Py.range.
    replace (a + n - a) with n by lia.
    split; [exact Hp |]. split; [exact Hl |].
    intros t Ht. rewrite (Hg t Ht).
    replace (Py.len (x :: v) =? 0) with false
      by (symmetry; apply Z.eqb_neq; unfold Py.len; simpl; lia).
    cbn [negb]. rewrite andb_true_r.
    replace (a + Z.of_nat 0) with a by lia. now rewrite Z2Nat.id by lia.
Qed.

(** The minutes [a .. a + n - 1] add up to [n * (2 a + n - 1) / 2]. *)
Lemma sum_seq_shift a m : forall k,
  2 * fold_right Z.add 0 (map (fun i => a + Z.of_nat i) (seq k m))
  = Z.of_nat m * (2 * a + 2 * Z.of_nat k + Z.of_nat m - 1).
Proof.
  induction m as [| m IH]; intros k; [simpl; lia |].
  cbn [seq map fold_right]. specialize (IH (S k)). nia.
Qed.

(** The mean of the minutes of an event is the middle of its first and
    its last minute. *)
Lemma mean_indexes_arange a n :
  0 < n ->
  (Appliance.mean_indexes (Np.arange a (a + n)) == inject_Z (a + (a + n - 1)) / 2)%Q.
Proof.
  intros Hn. unfold Appliance.mean_indexes. rewrite arange_length by lia.
  pose proof (sum_seq_shift a (Z.to_nat n) 0) as Hs.
  unfold Np.arange, Py.range. replace (a + n - a) with n by lia.
  set (S := fold_right Z.add 0 _) in *.
  rewrite Z2Nat.id in Hs by lia. simpl Z.of_nat in Hs.
  assert (Hq : (2 * inject_Z S == inject_Z n * inject_Z (a + (a + n - 1)))%Q).
  { change 2%Q with (inject_Z 2). rewrite <- !inject_Z_mult. apply inject_Z_injective. lia. }
  assert (Hn' : ~ (inject_Z n == 0)%Q).
  { change 0%Q with (inject_Z 0). rewrite inject_Z_injective. lia. }
  field_simplify_eq; [exact Hq | exact Hn'].
Qed.

Lemma round_comp x y : (x == y)%Q -> Py.round x = Py.round y.
Proof.
  intros E. unfold Py.round. rewrite (Qfloor_comp x y E).
  assert (C : (x - inject_Z (Qfloor y) ?= 1 # 2)%Q = (y - inject_Z (Qfloor y) ?= 1 # 2)%Q)
    by (now rewrite E).
  now rewrite C.
Qed.

(** [update_available_time_for_switch_on_events] returns on every event
    that is not empty, and touches the free spots only. *)
Lemma update_available_time_total self a n :
  0 < n ->
  exists self',
    Appliance.update_available_time_for_switch_on_events self (Np.arange a (a + n)) = Ok self'
    /\ Appliance.daily_use (Appliance.run self') = Appliance.daily_use (Appliance.run self)
    /\ Appliance.cfg self' = Appliance.cfg self.
Proof.
  intros Hn. unfold Appliance.update_available_time_for_switch_on_events.
  destruct (Appliance.free_spots (Appliance.run self)) as [| sp fs]; [eauto |].
  rewrite arange_first, arange_last by lia. cbn [Py.bind].
  destruct (Appliance.find_spot_to_split _ 0 a (a + n - 1)); eauto.
Qed.

(** The values that [update_daily_use] writes for an appliance with duty
    cycles. *)
Lemma update_daily_use_duty_cycle_values :
  forall (U : Utils) self coincidence power a n s d,
    0 < Appliance.fixed_cycle (Appliance.cfg self) ->
    Appliance.daily_use (Appliance.run self) = Some d ->
    0 <= a -> 0 < n -> a + n <= Py.len d ->
    let middle := Py.round (inject_Z (a + (a + n - 1)) / 2) in
    let c := Appliance.cyc self in
    let cycle :=
      if Py.in_range middle (fst (Appliance.cw11 c)) (snd (Appliance.cw11 c))
         || Py.in_range middle (fst (Appliance.cw12 c)) (snd (Appliance.cw12 c))
      then Appliance.random_cycle1 (Appliance.run self)
      else if Py.in_range middle (fst (Appliance.cw21 c)) (snd (Appliance.cw21 c))
              || Py.in_range middle (fst (Appliance.cw22 c)) (snd (Appliance.cw22 c))
      then Appliance.random_cycle2 (Appliance.run self)
      else Appliance.random_cycle3 (Appliance.run self) in
    exists self' d',
      Appliance.update_daily_use self coincidence power (Np.arange a (a + n)) s
      = Ok (self', s)
      /\ Appliance.daily_use (Appliance.run self') = Some d'
      /\ List.length d' = List.length d
      /\ forall t, 0 <= t < Py.len d ->
           Np.get d' t
           = if (a <=? t) && (t <? a + n) && negb (Py.len cycle =? 0)
             then (Np.get cycle ((t - a) mod Py.len cycle) * inject_Z coincidence)%Q
             else Np.get d t.
Proof.
  intros U self coincidence power a n s d Hfc Hd Ha Hn Hlen middle c cycle.
  unfold Appliance.update_daily_use. rewrite Hd.
  replace (Appliance.fixed_cycle (Appliance.cfg self) >? 0) with true
    by (symmetry; rewrite Z.gtb_ltb; apply Z.ltb_lt; exact Hfc).
  rewrite arange_length by lia.
  replace (n >? 0) with true by (symmetry; rewrite Z.gtb_ltb; apply Z.ltb_lt; exact Hn).
  rewrite (round_comp _ _ (mean_indexes_arange a n Hn)).
  fold middle. fold c. fold cycle.
  destruct (put_arange d a n (Np.scale cycle (inject_Z coincidence)) Ha ltac:(lia) Hlen)
    as (d' & Hp & Hl & Hg).
  destruct (update_available_time_total (Appliance.set_daily_use self d') a n Hn)
    as (self' & Hu & Hd' & _).
  exists self', d'.
  unfold Random.bind, Random.lift. rewrite Hp, Hu.
  split; [reflexivity |]. split; [rewrite Hd'; reflexivity |]. split; [exact Hl |].
  intros t Ht. rewrite Hg by lia.
  unfold Py.len at 1. rewrite scale_length. fold (Py.len cycle).
  destruct ((a <=? t) && (t <? a + n) && negb (Py.len cycle =? 0)) eqn:E; [| reflexivity].
  apply andb_true_iff in E as [E E3]. apply andb_true_iff in E as [E1 E2].
  apply Z.leb_le in E1. apply Z.ltb_lt in E2.
  apply negb_true_iff in E3. apply Z.eqb_neq in E3.
  assert (Hc : 0 < Py.len cycle) by (unfold Py.len in *; lia).
  pose proof (Z.mod_pos_bound (t - a) (Py.len cycle) Hc) as Hm.
  rewrite <- scale_get by exact Hm.
  unfold Np.get. f_equal.
  rewrite Z2Nat.inj_mod by lia. unfold Py.len. now rewrite Nat2Z.id.
Qed.

(** With duty cycles, a switch-on event of the minutes [a .. a + n - 1]
    is filled with the cycle of the day, from its first value on and
    repeated to the end of the event, times the number of appliances
    switched on together. The cycle is the one whose cycle window holds
    the middle of the first and the last minute of the event (rounded
    half to even); an empty cycle writes nothing. No number is drawn. *)
Theorem update_daily_use_repeats_duty_cycle :
  forall (U : Utils) self coincidence power a n s d,
    0 < Appliance.fixed_cycle (Appliance.cfg self) ->
    Appliance.daily_use (Appliance.run self) = Some d ->
    0 <= a -> 0 < n -> a + n <= Py.len d ->
    let middle := Py.round (inject_Z (a + (a + n - 1)) / 2) in
    let c := Appliance.cyc self in
    let cycle :=
      if Py.in_range middle (fst (Appliance.cw11 c)) (snd (Appliance.cw11 c))
         || Py.in_range middle (fst (Appliance.cw12 c)) (snd (Appliance.cw12 c))
      then Appliance.random_cycle1 (Appliance.run self)
      else if Py.in_range middle (fst (Appliance.cw21 c)) (snd (Appliance.cw21 c))
              || Py.in_range middle (fst (Appliance.cw22 c)) (snd (Appliance.cw22 c))
      then Appliance.random_cycle2 (Appliance.run self)
      else Appliance.random_cycle3 (Appliance.run self) in
    exists self' d',
      Appliance.update_daily_use self coincidence power (Np.arange a (a + n)) s
      = Ok (self', s)
      /\ Appliance.daily_use (Appliance.run self') = Some d'
      /\ List.length d' = List.length d
      /\ forall t, 0 <= t < Py.len d ->
           Np.get d' t
           = if (a <=? t) && (t <? a + n) && negb (Py.len cycle =? 0)
             then (Np.get cycle ((t - a) mod Py.len cycle) * inject_Z coincidence)%Q
             else Np.get d t.
Proof.
  intros U self coincidence power a n s d Hfc Hd Ha Hn Hlen.
  exact (update_daily_use_duty_cycle_values U self coincidence power a n s d Hfc Hd Ha Hn Hlen).
Qed.

(** The theorem at a fridge whose cycle of the day is 200 W, 5 W, 5 W:
    an event of the five minutes from 10:00 on restarts the cycle at
    10:03. *)
Lemma update_daily_use_repeats_duty_cycle_witness :
  exists self' d',
    Appliance.update_daily_use (U := SpecUtils.utils (1 # 2) (1 # 2) (1 # 2))
      Examples.running_fridge 1 200 (Np.arange 600 (600 + 5)) [] = Ok (self', [])
    /\ Appliance.daily_use (Appliance.run self') = Some d'
    /\ Np.get d' 602 = (5 * 1)%Q
    /\ Np.get d' 603 = (200 * 1)%Q.
Proof.
  destruct (update_daily_use_repeats_duty_cycle (SpecUtils.utils (1 # 2) (1 # 2) (1 # 2))
              Examples.running_fridge 1 200 600 5 [] (Np.zeros 1440))
    as (self' & d' & Hu & Hd & _ & Hg).
  - simpl. lia.
  - reflexivity.
  - lia.
  - lia.
  - unfold Py.len. rewrite zeros_length. lia.
  - exists self', d'. split; [exact Hu |]. split; [exact Hd |].
    split; apply Hg; unfold Py.len; rewrite zeros_length; lia.
Defined.

(** The values that [update_daily_use] writes for an appliance without
    duty cycles. *)
Lemma update_daily_use_plain_values :
  forall (U : Utils) self coincidence power a n s d v s1,
    Appliance.fixed_cycle (Appliance.cfg self) <= 0 ->
    Appliance.daily_use (Appliance.run self) = Some d ->
    0 <= a -> 0 < n -> a + n <= Py.len d ->
    random_variation (Appliance.thermal_p_var (Appliance.cfg self))
      (inject_Z coincidence * power)%Q s = Ok (v, s1) ->
    exists self' d',
      Appliance.update_daily_use self coincidence power (Np.arange a (a + n)) s
      = Ok (self', s1)
      /\ Appliance.daily_use (Appliance.run self') = Some d'
      /\ List.length d' = List.length d
      /\ forall t, 0 <= t ->
           Np.get d' t = if (a <=? t) && (t <? a + n) then v else Np.get d t.
Proof.
  intros U self coincidence power a n s d v s1 Hfc Hd Ha Hn Hlen Hv.
  unfold Appliance.update_daily_use. rewrite Hd.
  replace (Appliance.fixed_cycle (Appliance.cfg self) >? 0) with false
    by (symmetry; rewrite Z.gtb_ltb; apply Z.ltb_ge; exact Hfc).
  destruct (put_arange d a n [v] Ha ltac:(lia) Hlen) as (d' & Hp & Hl & Hg).
  destruct (update_available_time_total (Appliance.set_daily_use self d') a n Hn)
    as (self' & Hu & Hd' & _).
  exists self', d'.
  unfold Random.bind, Random.lift. rewrite Hv, Hp, Hu.
  split; [reflexivity |]. split; [rewrite Hd'; reflexivity |]. split; [exact Hl |].
  intros t Ht. rewrite Hg by lia.
  change (negb (Py.len [v] =? 0)) with true. rewrite andb_true_r.
  destruct ((a <=? t) && (t <? a + n)); [| reflexivity].
  cbn [List.length]. rewrite Nat.mod_1_r. reflexivity.
Qed.

(** Without duty cycles, a switch-on event of the minutes
    [a .. a + n - 1] holds one value at all its minutes: the power times
    the number of appliances switched on together, varied once for the
    whole event; every other minute is left as it was. *)
Theorem update_daily_use_writes_one_value :
  forall (U : Utils) self coincidence power a n s d v s1,
    Appliance.fixed_cycle (Appliance.cfg self) <= 0 ->
    Appliance.daily_use (Appliance.run self) = Some d ->
    0 <= a -> 0 < n -> a + n <= Py.len d ->
    random_variation (Appliance.thermal_p_var (Appliance.cfg self))
      (inject_Z coincidence * power)%Q s = Ok (v, s1) ->
    exists self' d',
      Appliance.update_daily_use self coincidence power (Np.arange a (a + n)) s
      = Ok (self', s1)
      /\ Appliance.daily_use (Appliance.run self') = Some d'
      /\ List.length d' = List.length d
      /\ forall t, 0 <= t ->
           Np.get d' t = if (a <=? t) && (t <? a + n) then v else Np.get d t.
Proof.
  intros U self coincidence power a n s d v s1 Hfc Hd Ha Hn Hlen Hv.
  exact (update_daily_use_plain_values U self coincidence power a n s d v s1
           Hfc Hd Ha Hn Hlen Hv).
Qed.

(** The theorem at a kettle of 100 W without variation: an event of the
    five minutes from 10:00 on holds 100 W at each of them. *)
Lemma update_daily_use_writes_one_value_witness :
  exists self' d',
    Appliance.update_daily_use (U := SpecUtils.utils (1 # 2) (1 # 2) (1 # 2))
      (Appliance.set_daily_use Examples.new_kettle (Np.zeros 1440)) 1 100
      (Np.arange 600 (600 + 5)) [] = Ok (self', [])
    /\ Appliance.daily_use (Appliance.run self') = Some d'
    /\ Np.get d' 604 = (1 * 100)%Q
    /\ Np.get d' 605 = 0%Q.
Proof.
  destruct (update_daily_use_writes_one_value (SpecUtils.utils (1 # 2) (1 # 2) (1 # 2))
              (Appliance.set_daily_use Examples.new_kettle (Np.zeros 1440)) 1 100 600 5 []
              (Np.zeros 1440) (1 * 100)%Q [])
    as (self' & d' & Hu & Hd & _ & Hg).
  - simpl. lia.
  - reflexivity.
  - lia.
  - lia.
  - unfold Py.len. rewrite zeros_length. lia.
  - reflexivity.
  - exists self', d'. split; [exact Hu |]. split; [exact Hd |].
    split; [apply Hg; lia |]. rewrite Hg by lia. apply zeros_get.
Defined.

(* ===================================================================== *)
(** * Further properties: the maximum profile of a user category          *)
(* ===================================================================== *)

(** [np.vstack] in the loop of [User.maximum_profile]: the rows are
    those at hand, then the maximum profile of each appliance in turn,
    each of 1440 cells. *)
Lemma stack_profiles_Ok apps : forall rows rows',
  User.stack_profiles rows apps = Ok rows' ->
  exists ps,
    rows' = rows ++ ps
    /\ Forall2 (fun a p => Appliance.maximum_profile a = Ok p /\ List.length p = 1440%nat)
         apps ps.
Proof.
  induction apps as [| a apps IH]; intros rows rows' H; simpl in H.
  - inversion H; subst. exists []. now rewrite app_nil_r.
  - apply bind_Ok in H as (p & Hp & H).
    destruct (Nat.eqb (List.length p) 1440) eqn:E; [| discriminate].
    apply Nat.eqb_eq in E.
    apply IH in H as (ps & -> & Hps).
    exists (p :: ps). rewrite <- app_assoc. split; [reflexivity |].
    constructor; auto.
Qed.

Lemma stack_profiles_total apps : forall rows,
  Forall (fun a => exists p, Appliance.maximum_profile a = Ok p /\ List.length p = 1440%nat)
    apps ->
  exists rows', User.stack_profiles rows apps = Ok rows'.
Proof.
  induction apps as [| a apps IH]; intros rows H; simpl; [eauto |].
  inversion H as [| ? ? (p & Hp & Hl) H']; subst.
  rewrite Hp. cbn [Py.bind]. rewrite Hl. change (Nat.eqb 1440 1440) with true. cbv iota.
  apply IH. exact H'.
Qed.

(** [np.sum(.., axis=0)] over rows of one length. *)
Lemma fold_left_add_get apps : forall ps acc,
  Forall2 (fun a p => Appliance.maximum_profile a = Ok p /\ List.length p = 1440%nat)
    apps ps ->
  List.length acc = 1440%nat ->
  List.length (fold_left Np.add ps acc) = 1440%nat
  /\ forall t, 0 <= t < 1440 ->
       (Np.get (fold_left Np.add ps acc) t == Np.get acc t + sum_app_max apps t)%Q.
Proof.
  induction apps as [| a apps IH]; intros ps acc H Hacc; inversion H; subst; simpl.
  - split; [exact Hacc |]. intros t _. ring.
  - match goal with Hx : _ /\ _ |- _ => destruct Hx as [Hp Hl] end.
    match goal with Hx : Forall2 _ apps _ |- _ => rename Hx into Hrest end.
    destruct (IH _ (Np.add acc y) Hrest) as [L G].
    { rewrite add_length; congruence. }
    split; [exact L |]. intros t Ht. rewrite G by exact Ht.
    rewrite add_get by (unfold Py.len; lia || congruence).
    unfold app_max_at at 1. rewrite Hp. ring.
Qed.

Lemma sum_zeros n : (Np.sum (Np.zeros n) == 0)%Q.
Proof.
  induction n as [| n IH]; simpl; [reflexivity |].
  change (Np.sum (Np.zeros n)) with (fold_right Qplus 0%Q (repeat 0%Q n)) in IH.
  rewrite IH. reflexivity.
Qed.

(** For a user category with one appliance or more, the maximum profile
    is returned exactly when each of its appliances has a maximum
    profile of 1440 cells (its windows are set); it is then an array of
    1440 cells, and each is the sum of the maximum profiles of the
    appliances at that minute, times the number of users of the
    category. For a user category without appliances it is not an array
    but the scalar zero. *)
Theorem user_maximum_profile_sums_appliances :
  forall self,
    (User.App_list self = [] ->
     exists x, User.maximum_profile self = Ok (User.Scalar x) /\ (x == 0)%Q)
    /\ (User.App_list self <> [] ->
        (Forall (fun a => exists p, Appliance.maximum_profile a = Ok p
                                    /\ List.length p = 1440%nat) (User.App_list self) ->
         exists prof, User.maximum_profile self = Ok (User.Profile prof))
        /\ (forall p,
             User.maximum_profile self = Ok p ->
             Forall (fun a => exists p, Appliance.maximum_profile a = Ok p
                                        /\ List.length p = 1440%nat) (User.App_list self)
             /\ exists prof,
                  p = User.Profile prof
                  /\ List.length prof = 1440%nat
                  /\ forall t, 0 <= t < 1440 ->
                       (Np.get prof t
                        == sum_app_max (User.App_list self) t
                           * inject_Z (User.num_users self))%Q)).
Proof.
  intros self. unfold User.maximum_profile. split.
  - intros ->. eexists. split; [reflexivity |]. rewrite sum_zeros. ring.
  - intros Hne. destruct (User.App_list self) as [| a0 apps0] eqn:Eapps; [congruence |].
    rewrite <- Eapps in *. clear Hne. split.
    + intros H. destruct (stack_profiles_total _ [Np.zeros 1440] H) as (rows & Hr).
      rewrite Hr. simpl. eauto.
    + intros p H. apply bind_Ok in H as (rows & Hr & H). inversion H; subst p; clear H.
      apply stack_profiles_Ok in Hr as (ps & -> & Hps).
      split.
      { clear - Hps. induction Hps; constructor; eauto. }
      eexists. split; [reflexivity |].
      change ([Np.zeros 1440] ++ ps) with (Np.zeros 1440 :: ps).
      cbn [User.sum_axis0].
      destruct (fold_left_add_get _ _ (Np.zeros 1440) Hps (zeros_length 1440)) as [L G].
      split; [rewrite scale_length; exact L |].
      intros t Ht. rewrite scale_get by (unfold Py.len; lia).
      rewrite G by exact Ht. rewrite zeros_get. ring.
Qed.

(** The theorem at a household of two lamps of 100 W that are on from
    08:00 to 10:00: the maximum profile of the household at 08:20 is the
    one of the lamps; and at a household without appliances. *)
Lemma user_maximum_profile_sums_appliances_witness :
  (exists lamp prof,
     Appliance.windows Examples.new_lamp (Some (480, 600)) None 0 None = Ok lamp
     /\ User.maximum_profile (Examples.household [lamp]) = Ok (User.Profile prof)
     /\ List.length prof = 1440%nat
     /\ (Np.get prof 500 == sum_app_max [lamp] 500 * 1)%Q)
  /\ exists x, User.maximum_profile (Examples.household []) = Ok (User.Scalar x)
               /\ (x == 0)%Q.
Proof.
  split.
  - destruct (Appliance.windows Examples.new_lamp (Some (480, 600)) None 0 None)
      as [lamp |] eqn:E; [| vm_compute in E; discriminate].
    destruct (User.maximum_profile (Examples.household [lamp])) as [p |] eqn:G;
      [| vm_compute in E; inversion E; subst lamp; vm_compute in G; discriminate].
    destruct (user_maximum_profile_sums_appliances (Examples.household [lamp])) as [_ H].
    destruct (H ltac:(discriminate)) as [_ H'].
    destruct (H' p G) as (_ & prof & -> & L & V).
    exists lamp, prof. split; [reflexivity |]. split; [exact G |].
    split; [exact L |]. apply (V 500). lia.
  - destruct (user_maximum_profile_sums_appliances (Examples.household [])) as [H _].
    apply H. reflexivity.
Defined.

(* ===================================================================== *)
(** * Further properties: the peak time range                             *)
(* ===================================================================== *)

(** What [calc_peak_time_range] returns: the minutes from
    [peak_time - e] to [peak_time + e - 1] for some [e >= 0]. *)
Lemma calc_peak_time_range_Ok user_list peak_enlarge s r s' :
  StochasticProcess.calc_peak_time_range user_list peak_enlarge s = Ok (r, s') ->
  exists peak_time g s1,
    Random.gauss (inject_Z peak_time) (peak_enlarge * inject_Z peak_time) s1 = Ok (g, s')
    /\ r = Np.arange (peak_time - Py.round (Qabs (inject_Z peak_time - g)))
             (peak_time + Py.round (Qabs (inject_Z peak_time - g))).
Proof.
  unfold StochasticProcess.calc_peak_time_range. intros H.
  apply rbind_Ok in H as (tot & s1 & _ & H). cbv zeta in H.
  apply rbind_Ok in H as (w_last & s2 & _ & H).
  apply rbind_Ok in H as (w_first & s3 & _ & H).
  apply rbind_Ok in H as (g & s4 & _ & H).
  apply rbind_Ok in H as (g' & s5 & Hg & H).
  apply rret_Ok in H as [-> ->]. eauto.
Qed.

(** Without enlargement ([peak_enlarge = 0]) the peak time range that
    [calc_peak_time_range] returns is empty, whatever the users and the
    generator; and on an empty peak time range every switch-on event
    fails with [IndexError], as it reads the first minute of the
    range. *)
Theorem peak_time_range_is_empty_without_enlargement :
  forall (U : Utils) user_list peak_enlarge s r s',
    (peak_enlarge == 0)%Q ->
    StochasticProcess.calc_peak_time_range user_list peak_enlarge s = Ok (r, s') ->
    r = []
    /\ forall self power i indexes s2,
         Appliance.switch_on_event self power r (i :: indexes) s2
         = Raise (IndexError "index out of range").
Proof.
  intros U user_list peak_enlarge s r s' Hpe H.
  apply calc_peak_time_range_Ok in H as (peak_time & g & s1 & Hg & ->).
  assert (Hgv : g = (inject_Z peak_time
                     + fst (Random.next s1) * (peak_enlarge * inject_Z peak_time))%Q)
    by (unfold Random.gauss in Hg; now inversion Hg).
  assert (Hz : (Qabs (inject_Z peak_time - g) == inject_Z 0)%Q).
  { assert (Hd : (inject_Z peak_time - g == 0)%Q) by (rewrite Hgv, Hpe; ring).
    rewrite Hd. reflexivity. }
  rewrite (round_Qeq _ _ Hz).
  assert (E : Np.arange (peak_time - 0) (peak_time + 0) = []) by (apply range_empty; lia).
  rewrite E. split; [reflexivity |]. intros. apply switch_on_event_empty_peak_range.
Qed.

(** The theorem at the household of two lamps that are on from 08:00 to
    10:00. *)
Lemma peak_time_range_is_empty_without_enlargement_witness :
  exists lamp s',
    Appliance.windows Examples.new_lamp (Some (480, 600)) None 0 None = Ok lamp
    /\ StochasticProcess.calc_peak_time_range [Examples.household [lamp]] 0 [] = Ok ([], s').
Proof.
  destruct (Appliance.windows Examples.new_lamp (Some (480, 600)) None 0 None)
    as [lamp |] eqn:E; [| vm_compute in E; discriminate].
  destruct (StochasticProcess.calc_peak_time_range [Examples.household [lamp]] 0 [])
    as [[r s'] |] eqn:G;
    [| vm_compute in E; inversion E; subst lamp; vm_compute in G; discriminate].
  destruct (peak_time_range_is_empty_without_enlargement
              (SpecUtils.utils (1 # 2) (1 # 2) (1 # 2))
              [Examples.household [lamp]] 0 [] r s' ltac:(reflexivity) G) as [-> _].
  exists lamp, s'. split; [reflexivity | exact G].
Defined.

(* ===================================================================== *)
(** * Further properties: the shape of the profiles of a use case         *)
(* ===================================================================== *)

Section Shapes.

Context {U : Utils}.

Lemma user_users_loop_length n : forall self prof_i peak_time_range day_type load s self'
    load' s',
  User.users_loop n self prof_i peak_time_range day_type load s = Ok ((self', load'), s') ->
  List.length load = 1440%nat ->
  List.length load' = 1440%nat.
Proof.
  induction n as [| n IH]; intros self prof_i peak_time_range day_type load s self' load' s'
    H L; simpl in H.
  - apply rret_Ok in H as [H _]. inversion H; subst. exact L.
  - apply rbind_Ok in H as ([self1 single] & s1 & Hs & H).
    apply generate_single_load_profile_sum in Hs as (Ls & _).
    eapply IH; [exact H |]. simpl. rewrite add_length; congruence.
Qed.

(** The load of a user category has 1440 cells, and the day is one of
    [0 .. 364]. *)
Lemma generate_aggregated_load_profile_length self prof_i peak_time_range day_type s self'
    load s' :
  User.generate_aggregated_load_profile self prof_i peak_time_range day_type s
  = Ok ((self', load), s') ->
  List.length load = 1440%nat /\ 0 <= prof_i < 365.
Proof.
  unfold User.generate_aggregated_load_profile. intros H.
  destruct (Py.in_range prof_i 0 365) eqn:E; [| discriminate]. cbn [negb] in H.
  apply rbind_Ok in H as ([self1 load1] & s1 & Hu & H).
  apply rret_Ok in H as [H _]. inversion H; subst; clear H.
  apply user_users_loop_length in Hu; [| apply zeros_length].
  split; [exact Hu |].
  unfold Py.in_range in E. apply andb_true_iff in E as [E1 E2].
  apply Z.leb_le in E1. apply Z.ltb_lt in E2. lia.
Qed.

Lemma usecase_users_loop_length us : forall prof_i peak_time_range day_types load0 s us'
    load s',
  UseCase.users_loop us prof_i peak_time_range day_types load0 s = Ok ((us', load), s') ->
  List.length load0 = 1440%nat ->
  List.length load = 1440%nat
  /\ List.length us' = List.length us
  /\ (us <> [] -> 0 <= prof_i < 365).
Proof.
  induction us as [| u us IH]; intros prof_i peak_time_range day_types load0 s us' load s'
    H L0; simpl in H.
  - apply rret_Ok in H as [H _]. inversion H; subst.
    split; [exact L0 |]. split; [reflexivity |]. intros Hne. congruence.
  - apply rbind_Ok in H as ([u1 load1] & s1 & Ha & H).
    apply rbind_Ok in H as ([us1 load2] & s2 & Hr & H).
    apply rret_Ok in H as [H _]. inversion H; subst; clear H.
    apply generate_aggregated_load_profile_length in Ha as [La Hd].
    apply IH in Hr as (L & Hn & _); [| simpl; rewrite add_length; congruence].
    simpl. repeat split; auto; lia.
Qed.

Lemma profiles_loop_shape days : forall self peak_time_range day_types s self' profiles s',
  UseCase.profiles_loop self days peak_time_range day_types s = Ok ((self', profiles), s') ->
  List.length profiles = List.length days
  /\ Forall (fun row => List.length row = 1440%nat) profiles
  /\ List.length (UseCase.users self') = List.length (UseCase.users self)
  /\ (UseCase.users self <> [] -> Forall (fun d => 0 <= d < 365) days).
Proof.
  induction days as [| prof_i days IH]; intros self peak_time_range day_types s self'
    profiles s' H; simpl in H.
  - apply rret_Ok in H as [H _]. inversion H; subst. repeat split; auto.
  - apply rbind_Ok in H as ([us1 load] & s1 & Hu & H).
    apply rbind_Ok in H as ([self2 rest] & s2 & Hr & H).
    apply rret_Ok in H as [H _]. inversion H; subst; clear H.
    apply usecase_users_loop_length in Hu as (L & Hn & Hd); [| apply zeros_length].
    apply IH in Hr as (Hlen & Hrows & Hus & Hdays). simpl in *.
    split; [now rewrite Hlen |]. split; [constructor; assumption |].
    split; [congruence |].
    intros Hne. constructor; [auto |]. apply Hdays.
    destruct (UseCase.users self); [congruence |]. destruct us1; [discriminate | congruence].
Qed.

End Shapes.

(** When the sequential mode returns, it returns [max(0, num_profiles)]
    profiles of 1440 cells each and keeps the number of user categories;
    and a use case with a user category never gets more than 365 days:
    the day 365 is refused. *)
Theorem sequential_profiles_shape :
  forall (U : Utils) self num_profiles peak_time_range day_types s self' profiles s',
    UseCase.generate_daily_load_profiles self num_profiles peak_time_range day_types s
    = Ok ((self', profiles), s') ->
    List.length profiles = Z.to_nat num_profiles
    /\ Forall (fun row => List.length row = 1440%nat) profiles
    /\ List.length (UseCase.users self') = List.length (UseCase.users self)
    /\ (UseCase.users self <> [] -> num_profiles <= 365).
Proof.
  intros U self num_profiles peak_time_range day_types s self' profiles s' H.
  unfold UseCase.generate_daily_load_profiles in H.
  apply profiles_loop_shape in H as (Hlen & Hrows & Hus & Hdays).
  rewrite range_length, Z.sub_0_r in Hlen.
  repeat split; auto.
  intros Hne. specialize (Hdays Hne). rewrite Forall_forall in Hdays.
  destruct (Z.le_gt_cases num_profiles 365) as [Hle | Hgt]; [exact Hle |].
  assert (Hin : In 365 (Py.range 0 num_profiles)) by (apply range_In; lia).
  specialize (Hdays 365 Hin). lia.
Qed.

(** The theorem at the village of one household without appliances, for
    two days. *)
Lemma sequential_profiles_shape_witness :
  exists self' profiles s',
    UseCase.generate_daily_load_profiles (U := SpecUtils.utils (1 # 2) (1 # 2) (1 # 2))
      (Examples.village (Examples.household [])) 2 [700; 701] (DayInt 0) []
    = Ok ((self', profiles), s')
    /\ List.length profiles = 2%nat
    /\ Forall (fun row => List.length row = 1440%nat) profiles.
Proof.
  destruct (UseCase.generate_daily_load_profiles
              (U := SpecUtils.utils (1 # 2) (1 # 2) (1 # 2))
              (Examples.village (Examples.household [])) 2 [700; 701] (DayInt 0) [])
    as [[[self' profiles] s'] |] eqn:G; [| vm_compute in G; discriminate].
  destruct (sequential_profiles_shape _ _ _ _ _ _ _ _ _ G) as (H1 & H2 & _).
  exists self', profiles, s'. auto.
Defined.

(* ===================================================================== *)
(** * Further properties: the parallel mode                               *)
(* ===================================================================== *)

(** A user category without appliances, or without users, gives no
    task. *)
Lemma day_tasks_nil self day_id peak_time_range day_type :
  Forall (fun u => User.App_list u = [] \/ User.num_users u <= 0) (UseCase.users self) ->
  UseCase.day_tasks self day_id peak_time_range day_type = [].
Proof.
  unfold UseCase.day_tasks. intros H.
  induction H as [| u us Hu _ IH]; [reflexivity |].
  cbn [flat_map]. rewrite IH, app_nil_r.
  destruct Hu as [-> | Hn]; [reflexivity |].
  replace (Z.to_nat (User.num_users u)) with 0%nat by lia.
  induction (User.App_list u) as [| a apps IHa]; [reflexivity | exact IHa].
Qed.

Lemma build_tasks_nil self l peak_time_range days :
  Forall (fun u => User.App_list u = [] \/ User.num_users u <= 0) (UseCase.users self) ->
  Forall (fun d => 0 <= d < Py.len l) days ->
  UseCase.build_tasks self days peak_time_range (DayList l) = Ok [].
Proof.
  intros Hu Hd. induction Hd as [| d days Hd _ IH]; [reflexivity |].
  cbn [UseCase.build_tasks UseCase.day_types_getitem].
  destruct (getitem_nonneg l d Hd) as (x & Hx & _). rewrite Hx. cbn [Py.bind].
  rewrite IH. cbn [Py.bind]. now rewrite day_tasks_nil.
Qed.

Lemma range_cons a b : a < b -> Py.range a b = a :: Py.range (a + 1) b.
Proof.
  intros H. unfold Py.range.
  replace (Z.to_nat (b - a)) with (S (Z.to_nat (b - (a + 1)))) by lia.
  cbn [seq map]. f_equal; [lia |].
  rewrite <- seq_shift, map_map. apply map_ext. intros k. lia.
Qed.

(** Two ways the parallel mode fails before any appliance runs, for one
    day or more. Given one day type instead of a sequence of them, it
    raises [TypeError]. And when no user category has both an appliance
    and a user, there is no task and it raises [KeyError] for day 0. *)
Theorem parallel_mode_failures :
  forall (U : Utils) self num_profiles peak_time_range s,
    1 <= num_profiles ->
    (forall d,
       UseCase.generate_daily_load_profiles_parallel self num_profiles peak_time_range
         (DayInt d) s
       = Raise (TypeError "'int' object is not subscriptable"))
    /\ (forall l,
          num_profiles <= Py.len l ->
          Forall (fun u => User.App_list u = [] \/ User.num_users u <= 0)
            (UseCase.users self) ->
          UseCase.generate_daily_load_profiles_parallel self num_profiles peak_time_range
            (DayList l) s
          = Raise (KeyError 0)).
Proof.
  intros U self num_profiles peak_time_range s Hn.
  unfold UseCase.generate_daily_load_profiles_parallel.
  assert (E : (num_profiles <? 0) = false) by (apply Z.ltb_ge; lia).
  rewrite E.
  rewrite (range_cons 0 num_profiles) by lia. split.
  - intros d. reflexivity.
  - intros l Hl Hu.
    rewrite <- (range_cons 0 num_profiles) by lia.
    rewrite build_tasks_nil; [| exact Hu |].
    + rewrite (range_cons 0 num_profiles) by lia. reflexivity.
    + apply Forall_forall. intros d Hd. apply range_In in Hd. lia.
Qed.

(** The theorem at the village of one household without appliances, for
    two days. *)
Lemma parallel_mode_failures_witness :
  UseCase.generate_daily_load_profiles_parallel (U := SpecUtils.utils (1 # 2) (1 # 2) (1 # 2))
    (Examples.village (Examples.household [])) 2 [700; 701] (DayInt 0) []
  = Raise (TypeError "'int' object is not subscriptable")
  /\ UseCase.generate_daily_load_profiles_parallel
       (U := SpecUtils.utils (1 # 2) (1 # 2) (1 # 2))
       (Examples.village (Examples.household [])) 2 [700; 701] (DayList [0; 1]) []
     = Raise (KeyError 0).
Proof.
  destruct (parallel_mode_failures (SpecUtils.utils (1 # 2) (1 # 2) (1 # 2))
              (Examples.village (Examples.household [])) 2 [700; 701] [] ltac:(lia))
    as [H1 H2].
  split; [apply H1 |]. apply H2.
  - unfold Py.len. simpl. lia.
  - repeat constructor.
Defined.

Lemma dict_append_wf d : forall k r,
  dict_rows_wf d -> List.length r = 1440%nat -> dict_rows_wf (UseCase.dict_append d k r).
Proof.
  unfold dict_rows_wf. induction d as [| [k0 v0] d IH]; intros k r Hd Hr; simpl.
  - constructor; [| constructor]. simpl. split; [discriminate | auto].
  - inversion Hd as [| ? ? [Hne Hv] Hd']; subst. simpl in *.
    destruct (k0 =? k).
    + constructor; [| exact Hd']. simpl. split.
      * destruct v0; discriminate.
      * apply Forall_app. auto.
    + constructor; [simpl; auto | apply IH; assumption].
Qed.

Lemma dict_getitem_wf d : forall k v,
  dict_rows_wf d -> UseCase.dict_getitem d k = Ok v ->
  v <> [] /\ Forall (fun r => List.length r = 1440%nat) v.
Proof.
  unfold dict_rows_wf. induction d as [| [k0 v0] d IH]; intros k v Hd H; simpl in H;
    [discriminate |].
  inversion Hd as [| ? ? Hkv Hd']; subst. simpl in Hkv.
  destruct (k0 =? k); [inversion H; subst; exact Hkv | eapply IH; eauto].
Qed.

Lemma fold_left_add_length rows : forall acc,
  List.length acc = 1440%nat ->
  Forall (fun r => List.length r = 1440%nat) rows ->
  List.length (fold_left Np.add rows acc) = 1440%nat.
Proof.
  induction rows as [| r rows IH]; intros acc Ha Hr; [exact Ha |].
  inversion Hr; subst. simpl. apply IH; [| assumption].
  rewrite add_length; congruence.
Qed.

Lemma sum_axis0_length v :
  v <> [] -> Forall (fun r => List.length r = 1440%nat) v ->
  List.length (User.sum_axis0 v) = 1440%nat.
Proof.
  destruct v as [| r v]; [congruence |]. intros _ H. inversion H; subst.
  simpl. now apply fold_left_add_length.
Qed.

Lemma sum_days_shape d days : forall rows,
  dict_rows_wf d -> UseCase.sum_days d days = Ok rows ->
  List.length rows = List.length days
  /\ Forall (fun r => List.length r = 1440%nat) rows.
Proof.
  induction days as [| day days IH]; intros rows Hd H; simpl in H.
  - inversion H; subst. auto.
  - apply bind_Ok in H as (loads & Hl & H). apply bind_Ok in H as (rest & Hr & H).
    inversion H; subst; clear H.
    apply dict_getitem_wf in Hl as [Hne Hv]; [| exact Hd].
    apply IH in Hr as [Hlen Hrows]; [| exact Hd].
    simpl. split; [now rewrite Hlen |]. constructor; [now apply sum_axis0_length | exact Hrows].
Qed.

Lemma getitem_Ok_bound {A : Type} (l : list A) i x :
  0 <= i -> Py.getitem l i = Ok x -> i < Py.len l.
Proof.
  unfold Py.getitem, Py.len. intros Hi H.
  destruct (i <? 0) eqn:E; [apply Z.ltb_lt in E; lia |].
  destruct (nth_error l (Z.to_nat i)) eqn:En; [| discriminate].
  assert (Hn : nth_error l (Z.to_nat i) <> None) by congruence.
  apply nth_error_Some in Hn. lia.
Qed.

(** The day types that [generate_daily_load_profiles_parallel] accepts:
    a sequence that holds every day. *)
Lemma build_tasks_Ok self peak_time_range day_types days : forall tasks,
  UseCase.build_tasks self days peak_time_range day_types = Ok tasks ->
  days <> [] ->
  exists l, day_types = DayList l
            /\ Forall (fun d => 0 <= d -> d < Py.len l) days.
Proof.
  induction days as [| d days IH]; intros tasks H Hne; [congruence |].
  simpl in H. apply bind_Ok in H as (dt & Hdt & H). apply bind_Ok in H as (rest & Hr & _).
  destruct day_types as [d0 | l]; [discriminate |].
  exists l. split; [reflexivity |].
  simpl in Hdt. apply bind_Ok in Hdt as (x & Hx & _).
  constructor; [intros Hd; eapply getitem_Ok_bound; eauto |].
  destruct days as [| d' days']; [constructor |].
  destruct (IH _ Hr ltac:(discriminate)) as (l' & El & Hf). inversion El; subst. exact Hf.
Qed.

Section ParallelShape.

Context {U : Utils}.

Lemma run_tasks_wf tasks : forall d s d' s',
  UseCase.run_tasks tasks d s = Ok (d', s') -> dict_rows_wf d -> dict_rows_wf d'.
Proof.
  induction tasks as [| tk tasks IH]; intros d s d' s' H Hd; simpl in H.
  - apply rret_Ok in H as [-> _]. exact Hd.
  - apply rbind_Ok in H as ([k r] & s1 & Hs & H).
    eapply IH; [exact H |]. apply dict_append_wf; [exact Hd |].
    unfold UseCase.single_appliance_daily_load_profile in Hs.
    apply rbind_Ok in Hs as (power & s2 & _ & Hs).
    apply rbind_Ok in Hs as ([app olog] & s3 & Hg & Hs).
    apply generate_load_profile_length in Hg as (dd & Hd1 & Hl).
    simpl in Hs. rewrite Hd1 in Hs. apply rret_Ok in Hs as [Hs _].
    inversion Hs; subst. exact Hl.
Qed.

End ParallelShape.

(** When the parallel mode returns, it returns [max(0, num_profiles)]
    profiles of 1440 cells each; and for one day or more it was given a
    sequence of day types that holds every day. *)
Theorem parallel_profiles_shape :
  forall (U : Utils) self num_profiles peak_time_range day_types s profiles s',
    UseCase.generate_daily_load_profiles_parallel self num_profiles peak_time_range
      day_types s = Ok (profiles, s') ->
    List.length profiles = Z.to_nat num_profiles
    /\ Forall (fun row => List.length row = 1440%nat) profiles
    /\ (1 <= num_profiles ->
        exists l, day_types = DayList l /\ num_profiles <= Py.len l).
Proof.
  intros U self num_profiles peak_time_range day_types s profiles s' H.
  unfold UseCase.generate_daily_load_profiles_parallel in H.
  apply rbind_Ok in H as (tasks & s1 & Hb & H). apply rlift_Ok in Hb as [Hb _].
  apply rbind_Ok in H as (d & s2 & Hr & H).
  destruct (num_profiles <? 0); [unfold Random.raise in H; discriminate |].
  apply rlift_Ok in H as [H _].
  apply run_tasks_wf in Hr; [| constructor].
  apply sum_days_shape in H as [Hlen Hrows]; [| exact Hr].
  rewrite range_length, Z.sub_0_r in Hlen.
  split; [exact Hlen |]. split; [exact Hrows |].
  intros Hn. apply build_tasks_Ok in Hb as (l & -> & Hf).
  - exists l. split; [reflexivity |]. rewrite Forall_forall in Hf.
    assert (Hin : In (num_profiles - 1) (Py.range 0 num_profiles)) by (apply range_In; lia).
    specialize (Hf _ Hin). lia.
  - rewrite (range_cons 0 num_profiles) by lia. discriminate.
Qed.

(** The theorem at the village of one household with a kettle that may
    run from 08:00 to 08:10, for one day. *)
Lemma parallel_profiles_shape_witness :
  exists kettle profiles s',
    Appliance.windows Examples.new_kettle (Some (480, 490)) None 0 None = Ok kettle
    /\ UseCase.generate_daily_load_profiles_parallel
         (U := SpecUtils.utils (1 # 2) (1 # 2) (1 # 2))
         (Examples.village (Examples.household [kettle])) 1 [700; 701] (DayList [0]) []
       = Ok (profiles, s')
    /\ List.length profiles = 1%nat
    /\ Forall (fun row => List.length row = 1440%nat) profiles.
Proof.
  destruct (Appliance.windows Examples.new_kettle (Some (480, 490)) None 0 None)
    as [kettle |] eqn:E; [| vm_compute in E; discriminate].
  destruct (UseCase.generate_daily_load_profiles_parallel
              (U := SpecUtils.utils (1 # 2) (1 # 2) (1 # 2))
              (Examples.village (Examples.household [kettle])) 1 [700; 701] (DayList [0]) [])
    as [[profiles s'] |] eqn:G;
    [| vm_compute in E; inversion E; subst kettle; vm_compute in G; discriminate].
  destruct (parallel_profiles_shape _ _ _ _ _ _ _ _ G) as (H1 & H2 & _).
  exists kettle, profiles, s'. auto.
Defined.

(* ===================================================================== *)
(** * Further properties: the formatting of the profiles                  *)
(* ===================================================================== *)

Lemma sum_loop_rows ps : forall acc,
  List.length acc = 1440%nat ->
  Forall (fun r => List.length r = 1440%nat) ps ->
  exists total,
    PostProcess.sum_loop acc ps = Ok total
    /\ List.length total = 1440%nat
    /\ forall t, 0 <= t < 1440 -> (Np.get total t == Np.get acc t + sum_rows ps t)%Q.
Proof.
  induction ps as [| r ps IH]; intros acc Ha Hr.
  - exists acc. simpl. repeat split; auto. intros t _. ring.
  - inversion Hr as [| ? ? Hl Hr']; subst.
    cbn [PostProcess.sum_loop]. unfold PostProcess.add_profile.
    rewrite Hl, Ha. change (Nat.eqb 1440 1440) with true. cbv iota. cbn [Py.bind].
    destruct (IH (Np.add acc r)) as (total & Ht & Hlen & Hg);
      [rewrite add_length; congruence | exact Hr' |].
    exists total. split; [exact Ht |]. split; [exact Hlen |].
    intros t Hrange. rewrite Hg by exact Hrange.
    rewrite add_get by (unfold Py.len; lia || congruence). simpl. ring.
Qed.

Lemma series_loop_concat ps : PostProcess.series_loop ps = concat ps.
Proof.
  unfold PostProcess.series_loop.
  assert (H : forall acc, fold_left (fun s r => s ++ r) ps acc = acc ++ concat ps).
  { induction ps as [| r ps IH]; intros acc; simpl; [now rewrite app_nil_r |].
    now rewrite IH, app_assoc. }
  apply H.
Qed.

Lemma concat_rows_length (ps : list (list Q)) :
  Forall (fun r => List.length r = 1440%nat) ps ->
  List.length (concat ps) = (1440 * List.length ps)%nat.
Proof.
  induction 1 as [| r ps Hr _ IH]; [reflexivity |].
  simpl concat. rewrite length_app, IH, Hr. simpl List.length. lia.
Qed.

Lemma concat_rows_nth ps : forall d t,
  Forall (fun r => List.length r = 1440%nat) ps ->
  (t < 1440)%nat ->
  nth (1440 * d + t) (concat ps) 0%Q = nth t (nth d ps []) 0%Q.
Proof.
  induction ps as [| r ps IH]; intros d t H Ht.
  - simpl concat. rewrite (nth_overflow (@nil (list Q))) by (simpl; lia).
    rewrite !nth_overflow by (simpl; lia). reflexivity.
  - inversion H as [| ? ? Hr H']; subst. simpl concat. destruct d as [| d].
    + rewrite Nat.mul_0_r, Nat.add_0_l. rewrite app_nth1 by lia. reflexivity.
    + rewrite app_nth2 by lia. rewrite Hr.
      replace (1440 * S d + t - 1440)%nat with (1440 * d + t)%nat by lia.
      now apply IH.
Qed.

(** On one profile or more of 1440 cells each, [Profile_formatting]
    returns; the average has 1440 cells, and the average at a minute
    times the number of profiles is the sum of the profiles at that
    minute; the series is the profiles laid end to end: it has 1440 cells
    for each profile, and the cell [1440 * d + t] is the minute [t] of
    the profile [d]. *)
Theorem Profile_formatting_average_and_series :
  forall stoch_profiles,
    stoch_profiles <> [] ->
    Forall (fun r => List.length r = 1440%nat) stoch_profiles ->
    exists Profile_avg Profile_kW Profile_series,
      PostProcess.Profile_formatting stoch_profiles
      = Ok (Some Profile_avg, Profile_kW, Profile_series)
      /\ List.length Profile_avg = 1440%nat
      /\ (forall t, 0 <= t < 1440 ->
            (Np.get Profile_avg t * inject_Z (Py.len stoch_profiles)
             == sum_rows stoch_profiles t)%Q)
      /\ Py.len Profile_series = 1440 * Py.len stoch_profiles
      /\ (forall d t, 0 <= d < Py.len stoch_profiles -> 0 <= t < 1440 ->
            Np.get Profile_series (1440 * d + t)
            = Np.get (nth (Z.to_nat d) stoch_profiles []) t).
Proof.
  intros ps Hne Hrows. unfold PostProcess.Profile_formatting.
  destruct (sum_loop_rows ps (Np.zeros 1440) (zeros_length 1440) Hrows)
    as (total & Ht & Hlen & Hg).
  rewrite Ht. cbn [Py.bind].
  destruct ps as [| r0 ps0]; [congruence |]. cbv zeta. cbv iota.
  set (ps := r0 :: ps0) in *.
  eexists _, _, _. split; [reflexivity |].
  assert (Hn : (0 < inject_Z (Py.len ps))%Q).
  { change 0%Q with (inject_Z 0). rewrite <- Zlt_Qlt. unfold Py.len, ps. simpl. lia. }
  split; [now rewrite length_map |]. split.
  - intros t Hrange.
    change (map (fun v => (v / inject_Z (Py.len ps))%Q) total)
      with (Np.scale total (/ inject_Z (Py.len ps))).
    rewrite scale_get by (unfold Py.len; lia).
    rewrite Hg by exact Hrange. rewrite zeros_get. field. lra.
  - rewrite series_loop_concat. split.
    + unfold Py.len. rewrite concat_rows_length by exact Hrows. lia.
    + intros d t Hd Hrange. unfold Np.get.
      replace (Z.to_nat (1440 * d + t)) with (1440 * Z.to_nat d + Z.to_nat t)%nat by lia.
      apply concat_rows_nth; [exact Hrows | lia].
Qed.

(** The theorem at two days, one of 100 W and one of 300 W throughout:
    the average is 200 W, and the second day starts at the cell 1440 of
    the series. *)
Lemma Profile_formatting_average_and_series_witness :
  exists Profile_avg Profile_kW Profile_series,
    PostProcess.Profile_formatting [repeat 100%Q 1440; repeat 300%Q 1440]
    = Ok (Some Profile_avg, Profile_kW, Profile_series)
    /\ (Np.get Profile_avg 0 * 2 == 400)%Q
    /\ Np.get Profile_series 1440 = 300%Q.
Proof.
  destruct (Profile_formatting_average_and_series [repeat 100%Q 1440; repeat 300%Q 1440])
    as (avg & kW & series & H & _ & Ha & _ & Hs).
  - discriminate.
  - repeat constructor.
  - exists avg, kW, series. split; [exact H |]. split.
    + rewrite (Ha 0 ltac:(lia)). reflexivity.
    + change 1440 with (1440 * 1 + 0).
      rewrite (Hs 1 0) by (unfold Py.len; simpl; lia). reflexivity.
Defined.

(* ===================================================================== *)
(** * Further properties: one or two duty cycles                          *)
(* ===================================================================== *)

(** What [assign_random_cycles] leaves: the attributes other than the
    three cycles are kept; with one duty cycle the three cycles are one;
    with two, the third is the first. *)
Lemma assign_random_cycles_shares {U : Utils} self s self' s' :
  Appliance.assign_random_cycles self s = Ok (self', s') ->
  Appliance.cfg self' = Appliance.cfg self
  /\ Appliance.cyc self' = Appliance.cyc self
  /\ Appliance.daily_use (Appliance.run self') = Appliance.daily_use (Appliance.run self)
  /\ (Appliance.fixed_cycle (Appliance.cfg self) = 1 ->
      Appliance.random_cycle2 (Appliance.run self') = Appliance.random_cycle1 (Appliance.run self')
      /\ Appliance.random_cycle3 (Appliance.run self')
         = Appliance.random_cycle1 (Appliance.run self'))
  /\ (Appliance.fixed_cycle (Appliance.cfg self) = 2 ->
      Appliance.random_cycle3 (Appliance.run self')
      = Appliance.random_cycle1 (Appliance.run self')).
Proof.
  unfold Appliance.assign_random_cycles. intros H.
  destruct (Appliance.fixed_cycle (Appliance.cfg self) >=? 1) eqn:E1.
  2:{ apply rret_Ok in H as [-> _]. rewrite Z.geb_leb in E1. apply Z.leb_gt in E1.
      repeat split; auto; intros; lia. }
  do 3 (apply rbind_Ok in H as (? & ? & _ & H)).
  destruct (Appliance.fixed_cycle (Appliance.cfg self) >=? 2) eqn:E2.
  2:{ apply rret_Ok in H as [-> _]. rewrite Z.geb_leb in E2. apply Z.leb_gt in E2.
      repeat split; auto; intros; lia. }
  do 3 (apply rbind_Ok in H as (? & ? & _ & H)).
  destruct (Appliance.fixed_cycle (Appliance.cfg self) >=? 3) eqn:E3.
  2:{ apply rret_Ok in H as [-> _]. rewrite Z.geb_leb in E2. apply Z.leb_le in E2.
      repeat split; auto; intros; lia. }
  do 5 (apply rbind_Ok in H as (? & ? & _ & H)).
  apply rret_Ok in H as [-> _]. rewrite Z.geb_leb in E3. apply Z.leb_le in E3.
  repeat split; auto; intros; lia.
Qed.

(** With one or two duty cycles, the cycle windows of the third cycle
    are never read, and the first cycle is the one of every event that
    no cycle window holds: after [assign_random_cycles], an event is
    filled with the second cycle when there are two cycles and the
    middle of the event lies in [cw21] or [cw22] and in neither [cw11]
    nor [cw12], and with the first cycle in every other case. With one
    duty cycle the cycle windows have no effect at all. *)
Theorem first_duty_cycle_is_the_default :
  forall (U : Utils) self s self1 s1 coincidence power a n s2 d,
    1 <= Appliance.fixed_cycle (Appliance.cfg self) <= 2 ->
    Appliance.assign_random_cycles self s = Ok (self1, s1) ->
    Appliance.daily_use (Appliance.run self1) = Some d ->
    0 <= a -> 0 < n -> a + n <= Py.len d ->
    let middle := Py.round (inject_Z (a + (a + n - 1)) / 2) in
    let c := Appliance.cyc self in
    let cycle :=
      if (Appliance.fixed_cycle (Appliance.cfg self) =? 2)
         && negb (Py.in_range middle (fst (Appliance.cw11 c)) (snd (Appliance.cw11 c))
                  || Py.in_range middle (fst (Appliance.cw12 c)) (snd (Appliance.cw12 c)))
         && (Py.in_range middle (fst (Appliance.cw21 c)) (snd (Appliance.cw21 c))
             || Py.in_range middle (fst (Appliance.cw22 c)) (snd (Appliance.cw22 c)))
      then Appliance.random_cycle2 (Appliance.run self1)
      else Appliance.random_cycle1 (Appliance.run self1) in
    exists self' d',
      Appliance.update_daily_use self1 coincidence power (Np.arange a (a + n)) s2
      = Ok (self', s2)
      /\ Appliance.daily_use (Appliance.run self') = Some d'
      /\ List.length d' = List.length d
      /\ forall t, 0 <= t < Py.len d ->
           Np.get d' t
           = if (a <=? t) && (t <? a + n) && negb (Py.len cycle =? 0)
             then (Np.get cycle ((t - a) mod Py.len cycle) * inject_Z coincidence)%Q
             else Np.get d t.
Proof.
  intros U self s self1 s1 coincidence power a n s2 d Hfc Hc Hd Ha Hn Hlen middle c cycle.
  apply assign_random_cycles_shares in Hc as (Hcfg & Hcyc & _ & H1 & H2).
  destruct (update_daily_use_duty_cycle_values U self1 coincidence power a n s2 d
              ltac:(rewrite Hcfg; lia) Hd Ha Hn Hlen) as (self' & d' & Hu & Hd' & Hl & Hg).
  exists self', d'. split; [exact Hu |]. split; [exact Hd' |]. split; [exact Hl |].
  intros t Ht. rewrite (Hg t Ht). rewrite Hcyc. fold middle. fold c.
  assert (Hsame :
    (if Py.in_range middle (fst (Appliance.cw11 c)) (snd (Appliance.cw11 c))
        || Py.in_range middle (fst (Appliance.cw12 c)) (snd (Appliance.cw12 c))
     then Appliance.random_cycle1 (Appliance.run self1)
     else if Py.in_range middle (fst (Appliance.cw21 c)) (snd (Appliance.cw21 c))
             || Py.in_range middle (fst (Appliance.cw22 c)) (snd (Appliance.cw22 c))
     then Appliance.random_cycle2 (Appliance.run self1)
     else Appliance.random_cycle3 (Appliance.run self1)) = cycle).
  { unfold cycle.
    destruct (Py.in_range middle (fst (Appliance.cw11 c)) (snd (Appliance.cw11 c))
              || Py.in_range middle (fst (Appliance.cw12 c)) (snd (Appliance.cw12 c)));
      cbn [negb andb]; [now rewrite andb_false_r |].
    rewrite andb_true_r.
    destruct (Z.eq_dec (Appliance.fixed_cycle (Appliance.cfg self)) 2) as [E | E].
    - rewrite E. change (2 =? 2) with true. cbn [andb]. rewrite (H2 E).
      now destruct (_ || _).
    - replace (Appliance.fixed_cycle (Appliance.cfg self) =? 2) with false
        by (symmetry; apply Z.eqb_neq; exact E).
      cbn [andb]. destruct (H1 ltac:(lia)) as [-> ->]. now destruct (_ || _). }
  now rewrite Hsame.
Qed.

(** The theorem at the fridge with the one cycle of 200 W, 5 W, 5 W: the
    event of the five minutes from 10:00 on restarts the cycle at
    10:03. *)
Lemma first_duty_cycle_is_the_default_witness :
  exists self1 self' d',
    Appliance.assign_random_cycles (U := SpecUtils.utils (1 # 2) (1 # 2) (1 # 2))
      Examples.fridge [] = Ok (self1, [])
    /\ Appliance.update_daily_use (U := SpecUtils.utils (1 # 2) (1 # 2) (1 # 2))
         self1 1 200 (Np.arange 600 (600 + 5)) [] = Ok (self', [])
    /\ Appliance.daily_use (Appliance.run self') = Some d'
    /\ Np.get d' 603 = (200 * 1)%Q.
Proof.
  destruct (Appliance.assign_random_cycles (U := SpecUtils.utils (1 # 2) (1 # 2) (1 # 2))
              Examples.fridge []) as [[self1 s1] |] eqn:E; [| vm_compute in E; discriminate].
  assert (Hs : s1 = [] /\ Appliance.daily_use (Appliance.run self1) = Some (Np.zeros 1440)
               /\ Appliance.random_cycle1 (Appliance.run self1) = [200; 5; 5]%Q).
  { vm_compute in E. inversion E; subst. repeat split; reflexivity. }
  destruct Hs as (-> & Hd & Hc).
  destruct (first_duty_cycle_is_the_default (SpecUtils.utils (1 # 2) (1 # 2) (1 # 2))
              Examples.fridge [] self1 [] 1 200 600 5 [] (Np.zeros 1440))
    as (self' & d' & Hu & Hd' & _ & Hg).
  - simpl. lia.
  - exact E.
  - exact Hd.
  - lia.
  - lia.
  - unfold Py.len. rewrite zeros_length. lia.
  - exists self1, self', d'. split; [reflexivity |]. split; [exact Hu |].
    split; [exact Hd' |].
    rewrite Hg by (unfold Py.len; rewrite zeros_length; lia).
    change (Appliance.fixed_cycle (Appliance.cfg Examples.fridge) =? 2) with false.
    cbn [andb]. rewrite Hc. reflexivity.
Defined.

(* ===================================================================== *)
(** * Further properties: a day of a ready appliance never fails          *)
(* ===================================================================== *)

Lemma spec_utils_returning s_peak mu_peak op_factor :
  returning_utils (SpecUtils.utils s_peak mu_peak op_factor).
Proof.
  assert (Hrv : forall var norm s,
            exists v s', SpecUtils.random_variation var norm s = Ok (v, s')).
  { intros var norm s. unfold SpecUtils.random_variation.
    destruct (Qlt_le_dec 0 var); [| unfold Random.ret; eauto].
    destruct (uniform_spec (1 - var) (1 + var) s) as (u & Hu & _).
    unfold Random.bind. rewrite Hu. unfold Random.ret. eauto. }
  assert (Hum : forall n p1 p2 s,
            exists c s', SpecUtils.uniform_minutes n p1 p2 s = Ok (c, s')).
  { induction n as [| n IH]; intros p1 p2 s; simpl; [unfold Random.ret; eauto |].
    destruct (uniform_spec p1 p2 s) as (u & Hu & _).
    unfold Random.bind at 1. rewrite Hu.
    destruct (IH p1 p2 (snd (Random.next s))) as (c & s' & Hc).
    unfold Random.bind. rewrite Hc. unfold Random.ret. eauto. }
  constructor; cbn [random_variation duty_cycle random_choice SpecUtils.utils].
  - exact Hrv.
  - intros var t1 p1 t2 p2 s. unfold SpecUtils.duty_cycle.
    destruct (Hrv var 1%Q s) as (v1 & s1 & H1).
    destruct (Hrv var 1%Q s1) as (v2 & s2 & H2).
    unfold Random.bind. rewrite H1, H2. unfold Random.ret. eauto.
  - intros var t1 p1 t2 p2 s. unfold SpecUtils.random_choice.
    destruct (Hrv var 1%Q s) as (v1 & s1 & H1).
    destruct (Hrv var 1%Q s1) as (v2 & s2 & H2).
    unfold Random.bind. rewrite H1, H2. apply Hum.
Qed.

Section Returns.

Context {U : Utils}.
Hypothesis HU : returning_utils U.

(** [rand_total_time_of_use] returns when 99 % of the randomised windows
    hold a cycle. *)
Lemma rand_total_time_of_use_total self rw1 rw2 rw3 s :
  0 <= Appliance.func_cycle (Appliance.cfg self) ->
  (inject_Z (Appliance.func_cycle (Appliance.cfg self))
   <= (99 # 100) * inject_Z ((snd rw1 - fst rw1) + (snd rw2 - fst rw2) + (snd rw3 - fst rw3)))%Q ->
  exists rand_time s', Appliance.rand_total_time_of_use self rw1 rw2 rw3 s = Ok (rand_time, s').
Proof.
  intros Hfc Hroom. unfold Appliance.rand_total_time_of_use.
  destruct (returns_random_variation U HU
              (Appliance.time_fraction_random_variability (Appliance.cfg self)) 1%Q s)
    as (v & s1 & Hv).
  unfold Random.bind at 1. rewrite Hv.
  destruct (uniform_spec (inject_Z (Appliance.func_time (Appliance.cfg self)))
              (inject_Z (Py.int (inject_Z (Appliance.func_time (Appliance.cfg self)) * v))) s1)
    as (u & Hu & _).
  unfold Random.bind at 1. rewrite Hu. cbv zeta.
  set (fc := Appliance.func_cycle (Appliance.cfg self)) in *.
  set (total := (snd rw1 - fst rw1) + (snd rw2 - fst rw2) + (snd rw3 - fst rw3)) in *.
  set (rt1 := if Py.round u <? fc then fc else Py.round u).
  assert (H1 : fc <= rt1).
  { unfold rt1. destruct (Py.round u <? fc) eqn:E; [lia | apply Z.ltb_ge in E; lia]. }
  set (rt2 := if negb (Qle_bool (inject_Z rt1) ((99 # 100) * inject_Z total))
              then Py.int ((99 # 100) * inject_Z total) else rt1).
  assert (H2 : fc <= rt2).
  { unfold rt2. destruct (negb _); [| exact H1].
    apply (int_between fc (Qceiling ((99 # 100) * inject_Z total))
             ((99 # 100) * inject_Z total) Hroom (Qle_ceiling _)). }
  destruct (rt2 <? fc) eqn:E; [apply Z.ltb_lt in E; lia |].
  unfold Random.ret. eauto.
Qed.

End Returns.

Section ReturnsLoop.

Context {U : Utils}.
Hypothesis HU : returning_utils U.

Lemma calc_coincident_switch_on_total self inside_peak_window s :
  1 <= Appliance.number (Appliance.cfg self) ->
  exists c s', Appliance.calc_coincident_switch_on self inside_peak_window s = Ok (c, s').
Proof.
  intros Hn. unfold Appliance.calc_coincident_switch_on.
  destruct switch_on_parameters as [[s_peak mu_peak] op_factor].
  destruct (inside_peak_window && String.eqb (Appliance.fixed (Appliance.cfg self)) "no").
  { unfold Random.bind, Random.gauss, Random.ret. eauto. }
  destruct (negb inside_peak_window
            && String.eqb (Appliance.fixed (Appliance.cfg self)) "no");
    [| unfold Random.ret; eauto].
  destruct (Appliance.number (Appliance.cfg self) =? 0) eqn:E;
    [apply Z.eqb_eq in E; lia |].
  match goal with
  | |- context [Random.uniform ?a ?b] => destruct (uniform_spec a b s) as (u & Hu & _)
  end.
  unfold Random.bind. rewrite Hu. unfold Random.ret. eauto.
Qed.

(** [update_daily_use] returns on an event inside the profile. *)
Lemma update_daily_use_total self coincidence power a n s d :
  Appliance.daily_use (Appliance.run self) = Some d ->
  0 <= a -> 0 < n -> a + n <= Py.len d ->
  exists self' d' s',
    Appliance.update_daily_use self coincidence power (Np.arange a (a + n)) s
    = Ok (self', s')
    /\ Appliance.daily_use (Appliance.run self') = Some d'
    /\ List.length d' = List.length d.
Proof.
  intros Hd Ha Hn Hlen.
  destruct (Z.lt_ge_cases 0 (Appliance.fixed_cycle (Appliance.cfg self))) as [Hfc | Hfc].
  - destruct (update_daily_use_duty_cycle_values U self coincidence power a n s d
                Hfc Hd Ha Hn Hlen) as (self' & d' & Hu & Hd' & Hl & _).
    eauto 10.
  - destruct (returns_random_variation U HU
                (Appliance.thermal_p_var (Appliance.cfg self))
                (inject_Z coincidence * power)%Q s) as (v & s1 & Hv).
    destruct (update_daily_use_plain_values U self coincidence power a n s d v s1
                Hfc Hd Ha Hn Hlen Hv) as (self' & d' & Hu & Hd' & Hl & _).
    eauto 10.
Qed.

(** A switch-on event inside the day is written without an error, and
    the state of the day is kept. *)
Lemma switch_on_event_total ws self power peak_time_range a n s :
  peak_time_range <> [] ->
  1 <= Appliance.number (Appliance.cfg self) ->
  day_state ws self ->
  0 <= a -> 0 < n -> a + n <= 1440 ->
  exists self' s',
    Appliance.switch_on_event self power peak_time_range (Np.arange a (a + n)) s
    = Ok (self', s')
    /\ day_state ws self'
    /\ Appliance.cfg self' = Appliance.cfg self.
Proof.
  intros Hp Hnum [Hsp (d & Hd & Hl)] Ha Hn Hlen.
  assert (Hex : exists self' s',
             Appliance.switch_on_event self power peak_time_range (Np.arange a (a + n)) s
             = Ok (self', s')
             /\ exists d', Appliance.daily_use (Appliance.run self') = Some d'
                           /\ List.length d' = 1440%nat).
  { unfold Appliance.switch_on_event.
    unfold Random.bind at 1. unfold Random.lift at 1. rewrite arange_first by lia.
    unfold Random.bind at 1. unfold Random.lift at 1. rewrite arange_last by lia.
    destruct peak_time_range as [| p0 ptr]; [congruence |].
    unfold Random.bind at 1. unfold Random.lift at 1. rewrite getitem_first.
    destruct (getitem_last (p0 :: ptr)) as (pl & Hpl & _); [discriminate |].
    unfold Random.bind at 1. unfold Random.lift at 1. rewrite Hpl.
    match goal with
    | |- context [Appliance.calc_coincident_switch_on self ?b] =>
        destruct (calc_coincident_switch_on_total self b s Hnum) as (c & s1 & Hc)
    end.
    unfold Random.bind at 1. rewrite Hc.
    destruct (update_daily_use_total self c power a n s1 d Hd Ha Hn
                ltac:(unfold Py.len; lia)) as (self' & d' & s' & Hu & Hd' & Hl').
    exists self', s'. split; [exact Hu |]. exists d'. split; [exact Hd' | congruence]. }
  destruct Hex as (self' & s' & Hs & Hd').
  exists self', s'. split; [exact Hs |].
  apply switch_on_event_within with (ws := ws) in Hs as (_ & Hsp' & Hc); [| exact Hsp].
  split; [split; assumption | exact Hc].
Qed.

Lemma rand_switch_on_window_total self rand_time s :
  Appliance.func_cycle (Appliance.cfg self) <= rand_time ->
  exists oi s', Appliance.rand_switch_on_window self rand_time s = Ok (oi, s').
Proof.
  intros Hrt.
  destruct (Appliance.indexes_choice (Appliance.free_spots (Appliance.run self))
              (Appliance.func_cycle (Appliance.cfg self))) as [| x l] eqn:E.
  - unfold Appliance.rand_switch_on_window. rewrite E. simpl. unfold Random.ret. eauto.
  - destruct (rand_switch_on_window_Some self rand_time s Hrt)
      as (k & sw & L & sp & s' & H & _); [rewrite E; discriminate |].
    eauto.
Qed.

(** One turn of the loop returns, and keeps the state of the day. *)
Lemma loop_body_total ws self rand_time tot_time power peak_time_range s :
  Forall (fun w => 0 <= fst w /\ snd w <= 1440) ws ->
  peak_time_range <> [] ->
  1 <= Appliance.number (Appliance.cfg self) ->
  1 <= Appliance.func_cycle (Appliance.cfg self) ->
  Appliance.func_cycle (Appliance.cfg self) <= rand_time ->
  day_state ws self ->
  tot_time <= rand_time ->
  exists continue self' tot' ev s',
    Appliance.loop_body self rand_time tot_time power peak_time_range s
    = Ok ((continue, self', tot', ev), s')
    /\ day_state ws self'
    /\ Appliance.cfg self' = Appliance.cfg self.
Proof.
  intros Hws Hp Hnum Hcycle Hrt Hst Htot. unfold Appliance.loop_body.
  destruct (rand_switch_on_window_total self rand_time s Hrt) as (oi & s1 & Hr).
  unfold Random.bind at 1. rewrite Hr.
  destruct oi as [indexes |]; [| unfold Random.ret; eauto 10].
  apply rand_switch_on_window_inv in Hr
    as (sw & L & sp & -> & Hin & Hs1 & Hs2 & Hfc & HL).
  destruct Hst as [Hsp Hd].
  assert (Hw : spot_within ws sp)
    by (unfold spots_within in Hsp; rewrite Forall_forall in Hsp; auto).
  destruct Hw as (w & Hw & Hw1 & Hw2).
  rewrite Forall_forall in Hws. destruct (Hws w Hw) as [Hw0 Hw1440].
  cbv zeta.
  assert (Hpos : 0 < L) by lia.
  assert (Hst : day_state ws self) by (split; assumption).
  rewrite arange_length by lia.
  destruct (tot_time + L >? rand_time) eqn:Eg; rewrite Z.gtb_ltb in Eg.
  - apply Z.ltb_lt in Eg. rewrite drop_last_arange by lia.
    destruct (Py.len (Np.arange sw _) >? 0) eqn:El; [| unfold Random.ret; eauto 10].
    rewrite Z.gtb_ltb in El. apply Z.ltb_lt in El.
    unfold Py.len, Np.arange in El. rewrite range_length in El.
    destruct (switch_on_event_total ws self power peak_time_range sw
                (L - (tot_time + L - rand_time)) s1 Hp Hnum (conj Hsp Hd))
      as (self' & s' & Hs & Hst' & Hc); try lia.
    unfold Random.bind. rewrite Hs. unfold Random.ret. eauto 10.
  - destruct (switch_on_event_total ws self power peak_time_range sw L s1 Hp Hnum
                (conj Hsp Hd)) as (self' & s' & Hs & Hst' & Hc); try lia.
    unfold Random.bind. rewrite Hs. unfold Random.ret. eauto 10.
Qed.

End ReturnsLoop.

Section ReturnsDay.

Context {U : Utils}.
Hypothesis HU : returning_utils U.

(** The loop returns, whatever the fuel. *)
Lemma while_loop_total ws power peak_time_range rand_time fuel : forall self tot_time s,
  Forall (fun w => 0 <= fst w /\ snd w <= 1440) ws ->
  peak_time_range <> [] ->
  1 <= Appliance.number (Appliance.cfg self) ->
  1 <= Appliance.func_cycle (Appliance.cfg self) ->
  Appliance.func_cycle (Appliance.cfg self) <= rand_time ->
  day_state ws self ->
  exists self' evs s',
    Appliance.while_loop fuel self rand_time tot_time power peak_time_range s
    = Ok ((self', evs), s').
Proof.
  induction fuel as [| fuel IH]; intros self tot_time s Hws Hp Hnum Hcycle Hrt Hst.
  - rewrite while_loop_O. unfold Random.ret. eauto.
  - rewrite while_loop_S. destruct (tot_time <=? rand_time) eqn:E;
      [| unfold Random.ret; eauto].
    apply Z.leb_le in E.
    destruct (loop_body_total HU ws self rand_time tot_time power peak_time_range s
                Hws Hp Hnum Hcycle Hrt Hst E)
      as (continue & self1 & tot1 & ev & s1 & Hb & Hst1 & Hc1).
    unfold Random.bind at 1. rewrite Hb.
    destruct continue; [| unfold Random.ret; eauto].
    destruct (IH self1 tot1 s1 Hws Hp) as (self2 & evs & s2 & Hw);
      try (rewrite Hc1; assumption); [exact Hst1 |].
    unfold Random.bind. rewrite Hw. unfold Random.ret. eauto.
Qed.

Ltac returns_step :=
  match goal with
  | |- context [Random.bind (random_variation ?v ?n) _ ?s] =>
      let x := fresh "x" in let s' := fresh "s" in let H := fresh "H" in
      destruct (returns_random_variation U HU v n s) as (x & s' & H);
      unfold Random.bind at 1; rewrite H; clear H
  | |- context [Random.bind (duty_cycle ?v ?t1 ?p1 ?t2 ?p2) _ ?s] =>
      let x := fresh "x" in let s' := fresh "s" in let H := fresh "H" in
      destruct (returns_duty_cycle U HU v t1 p1 t2 p2 s) as (x & s' & H);
      unfold Random.bind at 1; rewrite H; clear H
  | |- context [Random.bind (random_choice ?v ?t1 ?p1 ?t2 ?p2) _ ?s] =>
      let x := fresh "x" in let s' := fresh "s" in let H := fresh "H" in
      destruct (returns_random_choice U HU v t1 p1 t2 p2 s) as (x & s' & H);
      unfold Random.bind at 1; rewrite H; clear H
  end.

Lemma assign_random_cycles_total self s :
  exists self' s', Appliance.assign_random_cycles self s = Ok (self', s').
Proof.
  unfold Appliance.assign_random_cycles. cbv zeta.
  destruct (Appliance.fixed_cycle (Appliance.cfg self) >=? 1); [| unfold Random.ret; eauto].
  do 3 returns_step.
  destruct (Appliance.fixed_cycle (Appliance.cfg self) >=? 2); [| unfold Random.ret; eauto].
  do 3 returns_step.
  destruct (Appliance.fixed_cycle (Appliance.cfg self) >=? 3); [| unfold Random.ret; eauto].
  do 5 returns_step. unfold Random.ret. eauto.
Qed.

(** A day of a ready appliance returns. *)
Lemma generate_load_profile_total self user_preference prof_i peak_time_range day_type
    power s :
  ready self ->
  0 <= user_preference ->
  0 <= prof_i < Py.len (Appliance.power self) ->
  peak_time_range <> [] ->
  exists self' olog s',
    Appliance.generate_load_profile self user_preference prof_i peak_time_range day_type
      power s = Ok ((self', olog), s').
Proof.
  intros Hr Hup Hprof Hp. unfold Appliance.generate_load_profile. cbv zeta.
  set (self0 := Appliance.set_daily_use self (Np.zeros 1440)).
  assert (Hpref : exists k s1,
            (if user_preference =? 0 then Random.ret 0
             else Random.randint 1 user_preference) s = Ok (k, s1)).
  { destruct (user_preference =? 0) eqn:E; [unfold Random.ret; eauto |].
    apply Z.eqb_neq in E.
    destruct (randint_spec 1 user_preference s ltac:(lia)) as (k & Hk & _). eauto. }
  destruct Hpref as (k & s1 & Hk). unfold Random.bind at 1. rewrite Hk.
  destruct (uniform_spec 0 1 s1) as (u & Hu & _). unfold Random.bind at 1. rewrite Hu.
  match goal with
  | |- exists _ _ _, (if ?c then _ else _) _ = _ =>
      destruct c; [unfold Random.ret; eauto |]
  end.
  destruct Hr as [V1 V2 V3 [R1 N1] [R2 N2] [R3 N3] Hnum Hcycle Hroom].
  unfold narrowed, width in *.
  set (w1 := Appliance.window_1 (Appliance.win self)) in *.
  set (w2 := Appliance.window_2 (Appliance.win self)) in *.
  set (w3 := Appliance.window_3 (Appliance.win self)) in *.
  set (v1 := Appliance.random_var_1 (Appliance.win self)) in *.
  set (v2 := Appliance.random_var_2 (Appliance.win self)) in *.
  set (v3 := Appliance.random_var_3 (Appliance.win self)) in *.
  destruct (calc_rand_window_bounds self0 1 w1 v1 (snd (Random.next s1))
              eq_refl eq_refl V1 R1 ltac:(lia)) as (rw1 & H1 & B1 & C1 & D1 & E1).
  unfold Random.bind at 1. rewrite H1.
  destruct (calc_rand_window_bounds self0 2 w2 v2 (skipn 2 (snd (Random.next s1)))
              eq_refl eq_refl V2 R2 ltac:(lia)) as (rw2 & H2 & B2 & C2 & D2 & E2).
  unfold Random.bind at 1. rewrite H2.
  destruct (calc_rand_window_bounds self0 3 w3 v3
              (skipn 2 (skipn 2 (snd (Random.next s1))))
              eq_refl eq_refl V3 R3 ltac:(lia)) as (rw3 & H3 & B3 & C3 & D3 & E3).
  unfold Random.bind at 1. rewrite H3.
  set (s4 := skipn 2 (skipn 2 (skipn 2 (snd (Random.next s1))))).
  assert (Hroom' :
    (inject_Z (Appliance.func_cycle (Appliance.cfg self0))
     <= (99 # 100)
        * inject_Z ((snd rw1 - fst rw1) + (snd rw2 - fst rw2) + (snd rw3 - fst rw3)))%Q).
  { eapply Qle_trans; [exact Hroom |].
    apply Qmult_le_l; [reflexivity |]. rewrite <- Zle_Qle. lia. }
  destruct (rand_total_time_of_use_total HU self0 rw1 rw2 rw3 s4
              ltac:(change (Appliance.cfg self0) with (Appliance.cfg self); lia) Hroom')
    as (rand_time & s5 & Ht).
  unfold Random.bind at 1. rewrite Ht.
  pose proof (rand_total_time_of_use_ge _ _ _ _ _ _ _ Ht) as Hge.
  change (Appliance.cfg self0) with (Appliance.cfg self) in Hge.
  change (Appliance.cfg self0) with (Appliance.cfg self).
  change (Appliance.power self0) with (Appliance.power self).
  assert (Hfill : forall v,
    Np.assign_full (Np.zeros 1440) rw1 v
    = Ok (Np.fill_from 0 (Np.zeros 1440) (fst rw1) (snd rw1) v)
    /\ Np.assign_full (Np.fill_from 0 (Np.zeros 1440) (fst rw1) (snd rw1) v) rw2 v
       = Ok (Np.fill_from 0 (Np.fill_from 0 (Np.zeros 1440) (fst rw1) (snd rw1) v)
               (fst rw2) (snd rw2) v)
    /\ Np.assign_full
         (Np.fill_from 0 (Np.fill_from 0 (Np.zeros 1440) (fst rw1) (snd rw1) v)
            (fst rw2) (snd rw2) v) rw3 v
       = Ok (flat_profile rw1 rw2 rw3 v)).
  { intros v. repeat split; apply assign_full_valid;
      unfold Py.len; rewrite ?fill_from_length, ?zeros_length; lia. }
  destruct (String.eqb (Appliance.flat (Appliance.cfg self)) "yes").
  - destruct (getitem_nonneg (Appliance.power self) prof_i Hprof) as (p & Hgp & _).
    unfold Random.bind at 1. unfold Random.lift at 1. rewrite Hgp.
    destruct (Hfill (p * inject_Z (Appliance.number (Appliance.cfg self)))%Q)
      as (F1 & F2 & F3).
    unfold Random.bind at 1. unfold Random.lift at 1. rewrite F1.
    unfold Random.bind at 1. unfold Random.lift at 1. rewrite F2.
    unfold Random.bind at 1. unfold Random.lift at 1. rewrite F3.
    unfold Random.ret. eauto.
  - destruct (Hfill (1 # 1000)%Q) as (F1 & F2 & F3).
    unfold Random.bind at 1. unfold Random.lift at 1. rewrite F1.
    unfold Random.bind at 1. unfold Random.lift at 1. rewrite F2.
    unfold Random.bind at 1. unfold Random.lift at 1. rewrite F3.
    set (d3 := flat_profile rw1 rw2 rw3 (1 # 1000)).
    destruct (assign_random_cycles_total (Appliance.set_daily_use self0 d3) s5)
      as (selfc & s6 & Hc).
    unfold Random.bind at 1. rewrite Hc.
    pose proof (assign_random_cycles_frame _ _ _ _ Hc) as [Hdc Hcc].
    cbn [Appliance.cfg Appliance.set_daily_use Appliance.set_run self0] in Hcc.
    destruct (while_loop_total [rw1; rw2; rw3] power peak_time_range rand_time
                (Z.to_nat (rand_time + 1))
                (Appliance.set_free_spots selfc (spots_of [rw1; rw2; rw3])) 0 s6)
      as (self' & evs & s' & Hw).
    + repeat constructor; simpl; lia.
    + exact Hp.
    + change (Appliance.cfg (Appliance.set_free_spots selfc (spots_of [rw1; rw2; rw3])))
        with (Appliance.cfg selfc). rewrite Hcc. exact Hnum.
    + change (Appliance.cfg (Appliance.set_free_spots selfc (spots_of [rw1; rw2; rw3])))
        with (Appliance.cfg selfc). rewrite Hcc. exact Hcycle.
    + change (Appliance.cfg (Appliance.set_free_spots selfc (spots_of [rw1; rw2; rw3])))
        with (Appliance.cfg selfc). rewrite Hcc. exact Hge.
    + split; [apply spots_of_within |].
      exists d3. split.
      * change (Appliance.daily_use (Appliance.run
                  (Appliance.set_free_spots selfc (spots_of [rw1; rw2; rw3]))))
          with (Appliance.daily_use (Appliance.run selfc)).
        rewrite Hdc. reflexivity.
      * unfold d3, flat_profile. rewrite !fill_from_length. apply zeros_length.
    + change (map (fun rw : Z * Z => {| start := fst rw; stop := snd rw |})
                (filter (fun rw : Z * Z => negb (fst rw =? snd rw)) [rw1; rw2; rw3]))
        with (spots_of [rw1; rw2; rw3]).
      unfold Random.bind. rewrite Hw. unfold Random.ret. eauto.
Qed.

End ReturnsDay.

(** A day of a ready appliance never fails. With utilities that return,
    windows inside the day whose jitter is at most half their width, one
    appliance or more, cycles of a minute or more that fit in 99 % of
    the windows at their narrowest, a day index inside [power], a user
    preference that is not negative and a peak time range that is not
    empty, [generate_load_profile] returns for every state of the
    generator: no index leaves the profile, no random range is empty and
    no division is by zero. *)
Theorem a_ready_appliance_never_fails :
  forall (U : Utils) self user_preference prof_i peak_time_range day_type power s,
    returning_utils U ->
    ready self ->
    0 <= user_preference ->
    0 <= prof_i < Py.len (Appliance.power self) ->
    peak_time_range <> [] ->
    exists self' olog s',
      Appliance.generate_load_profile self user_preference prof_i peak_time_range day_type
        power s = Ok ((self', olog), s').
Proof.
  intros U self user_preference prof_i peak_time_range day_type power s HU.
  apply (generate_load_profile_total HU).
Qed.

(** The theorem at a kettle that may run from 08:00 to 08:10, on the
    last day of the year and with a generator that is not exhausted. *)
Lemma a_ready_appliance_never_fails_witness :
  exists kettle self' olog s',
    Appliance.windows Examples.new_kettle (Some (480, 490)) None 0 None = Ok kettle
    /\ Appliance.generate_load_profile (U := SpecUtils.utils (1 # 2) (1 # 2) (1 # 2))
         kettle 0 364 [700; 701] (DayInt 0) 100 [1 # 3; 2 # 3; 1 # 5; 4 # 5; 1 # 7; 1 # 2]
       = Ok ((self', olog), s').
Proof.
  destruct (Appliance.windows Examples.new_kettle (Some (480, 490)) None 0 None)
    as [kettle |] eqn:E; [| vm_compute in E; discriminate].
  assert (Hk : Appliance.cfg kettle = Examples.kettle_config
               /\ Appliance.power kettle = Appliance.power Examples.new_kettle
               /\ Appliance.win kettle
                  = {| Appliance.random_var_w := 0;
                       Appliance.window_1 := (480, 490);
                       Appliance.window_2 := (0, 0);
                       Appliance.window_3 := (0, 0);
                       Appliance.random_var_1 := 0;
                       Appliance.random_var_2 := 0;
                       Appliance.random_var_3 := 0 |}).
  { vm_compute in E. inversion E. repeat split; reflexivity. }
  destruct Hk as (Hcfg & Hpow & Hwin).
  destruct (a_ready_appliance_never_fails (SpecUtils.utils (1 # 2) (1 # 2) (1 # 2))
              kettle 0 364 [700; 701] (DayInt 0) 100
              [1 # 3; 2 # 3; 1 # 5; 4 # 5; 1 # 7; 1 # 2])
    as (self' & olog & s' & H).
  - apply spec_utils_returning.
  - constructor; rewrite ?Hcfg, ?Hwin; unfold valid_window, narrowed, width; simpl;
      try lia.
    unfold Qle. simpl. lia.
  - lia.
  - rewrite Hpow. unfold Py.len. simpl. lia.
  - discriminate.
  - exists kettle, self', olog, s'. split; [reflexivity | exact H].
Defined.
